(** * TruthLens backend: the product-legitimacy scorer and the two endpoints

    A shallow embedding of [backend/main.py]: [analyze_product_legitimacy],
    [analyze_product] and [check_ai_text].  Python values are modelled as
    the interpreter has them:

    - a [str] is a sequence of Unicode code points ([list N]);
    - an [int] is an unbounded integer ([Z]);
    - a [float] is an IEEE-754 binary64 number ([spec_float] at precision 53
      and maximal exponent 1024), with round-to-nearest-even arithmetic;
    - an exception either propagates or is caught: expressions live in an
      error monad, statements in a state-and-error monad over the local
      variables the scorer mutates.

    The Unicode character database and the interpreter settings that the
    builtins consult ([str.lower], [str.isdigit], [\d], [float], [int]) are
    parameters of the development; the behaviour on ASCII is fixed by the
    definitions themselves.  [re.search] is modelled by a backtracking
    matcher for the fragment of regular expressions the two patterns of the
    source are written in; the network is a parameter of the handler. *)

From Stdlib Require Import ZArith NArith List String Ascii Bool Lia.
From Stdlib Require Import Floats.SpecFloat.
Import ListNotations.

(** ** Python strings *)

Module Py.

(** A code point, and a [str]. *)
Abbreviation char := N (only parsing).
Abbreviation str := (list N) (only parsing).

(** ASCII literals: [lit "abc"] is the Python string ['abc']. *)
Definition lit (s : string) : str := map N_of_ascii (list_ascii_of_string s).

Definition str_eqb (a b : str) : bool :=
  if list_eq_dec N.eq_dec a b then true else false.

(** [needle in haystack] for two strings: substring test. *)
Fixpoint startswith (needle s : str) : bool :=
  match needle, s with
  | [], _ => true
  | _ :: _, [] => false
  | a :: needle', b :: s' => (a =? b)%N && startswith needle' s'
  end.

Fixpoint contains (needle s : str) : bool :=
  startswith needle s ||
  match s with
  | [] => false
  | _ :: s' => contains needle s'
  end.

(** [s.replace(c, '')] for a one-character [c]: every occurrence removed. *)
Definition remove_char (c : char) (s : str) : str :=
  filter (fun x => negb (x =? c)%N) s.

(** *** The character database

    What the interpreter knows about a code point outside ASCII.  A decimal
    digit ([Nd]) carries its value; [UDigit] is a character that
    [str.isdigit] accepts without being a decimal (a superscript two);
    [USpace] is white space. *)
Inductive dec := D0 | D1 | D2 | D3 | D4 | D5 | D6 | D7 | D8 | D9.

Definition dec_val (d : dec) : N :=
  match d with
  | D0 => 0 | D1 => 1 | D2 => 2 | D3 => 3 | D4 => 4
  | D5 => 5 | D6 => 6 | D7 => 7 | D8 => 8 | D9 => 9
  end%N.

Inductive uclass := UDecimal (d : dec) | UDigit | USpace | UOther.

Record ucd := {
  (** class of a code point; consulted at 128 and above only *)
  ucd_class : char -> uclass;
  (** full lower-case mapping of a code point; consulted at 128 and above
      only, capital sigma apart *)
  ucd_tolower_full : char -> str;
  (** the final-sigma condition, from what precedes and what follows *)
  ucd_final_sigma : str -> str -> bool
}.

(** A database in which every code point outside ASCII is caseless and
    neither a digit nor white space. *)
Definition ascii_only : ucd :=
  {| ucd_class := fun _ => UOther;
     ucd_tolower_full := fun c => [c];
     ucd_final_sigma := fun _ _ => false |}.

Definition is_ascii (c : char) : bool := (c <? 128)%N.

Definition ascii_decimal (c : char) : option N :=
  if ((48 <=? c) && (c <=? 57))%N then Some (c - 48)%N else None.

(** White space of a [str] below 128: tab to carriage return, the four
    separators 28..31, and the space. *)
Definition ascii_unicode_space (c : char) : bool :=
  (((9 <=? c) && (c <=? 13)) || ((28 <=? c) && (c <=? 31)) || (c =? 32))%N.

(** [Py_ISSPACE] of the C layer: tab to carriage return, and the space. *)
Definition c_isspace (c : char) : bool :=
  (((9 <=? c) && (c <=? 13)) || (c =? 32))%N.

Definition c_isdigit (c : char) : bool := ((48 <=? c) && (c <=? 57))%N.

Section Unicode.
Variable U : ucd.

(** [Py_UNICODE_TODECIMAL]; a character matches [\d] when this is [Some]. *)
Definition to_decimal (c : char) : option N :=
  if is_ascii c then ascii_decimal c
  else match ucd_class U c with UDecimal d => Some (dec_val d) | _ => None end.

Definition is_decimal (c : char) : bool :=
  match to_decimal c with Some _ => true | None => false end.

(** [Py_UNICODE_ISDIGIT] *)
Definition unicode_isdigit (c : char) : bool :=
  if is_ascii c then c_isdigit c
  else match ucd_class U c with UDecimal _ | UDigit => true | _ => false end.

(** [Py_UNICODE_ISSPACE] *)
Definition unicode_isspace (c : char) : bool :=
  if is_ascii c then ascii_unicode_space c
  else match ucd_class U c with USpace => true | _ => false end.

(** [s.isdigit()]: every character is a digit and there is at least one. *)
Definition isdigit (s : str) : bool :=
  match s with
  | [] => false
  | _ => forallb unicode_isdigit s
  end.

(** [s.strip()] *)
Fixpoint lstrip (s : str) : str :=
  match s with
  | [] => []
  | c :: s' => if unicode_isspace c then lstrip s' else s
  end.

Definition strip (s : str) : str := rev (lstrip (rev (lstrip s))).

(** [s.lower()]: character by character; capital sigma (0x3A3) looks at
    its context, everything else maps on its own. *)
Definition ascii_lower (c : char) : char :=
  if ((65 <=? c) && (c <=? 90))%N then (c + 32)%N else c.

Fixpoint lower_from (before : str) (s : str) : str :=
  match s with
  | [] => []
  | c :: after =>
      (if is_ascii c then [ascii_lower c]
       else if (c =? 931)%N
            then [if ucd_final_sigma U before after then 962%N else 963%N]
            else ucd_tolower_full U c)
      ++ lower_from (before ++ [c]) after
  end.

Definition lower (s : str) : str := lower_from [] s.

End Unicode.

End Py.

(** ** Exceptions *)

Inductive exn :=
| ValueError
| TypeError
| AttributeError
| OverflowError
| RequestException (msg : Py.str)
| OtherException (msg : Py.str).

(** The value of an expression, or the exception it raises. *)
Inductive result (A : Type) :=
| Ok (a : A)
| Raise (e : exn).
Arguments Ok {A} a.
Arguments Raise {A} e.

Definition rbind {A B} (r : result A) (k : A -> result B) : result B :=
  match r with
  | Ok a => k a
  | Raise e => Raise e
  end.

(** ** Python floats: IEEE-754 binary64 *)

Module F64.

Definition prec : Z := 53.
Definition emax : Z := 1024.

Definition float := spec_float.

Definition add : float -> float -> float := SFadd prec emax.
Definition sub : float -> float -> float := SFsub prec emax.
Definition mul : float -> float -> float := SFmul prec emax.

(** [x < y] and [x > y] on floats; false as soon as one side is a NaN. *)
Definition ltb (x y : float) : bool := SFltb x y.
Definition gtb (x y : float) : bool := SFltb y x.
Definition leb (x y : float) : bool := SFleb x y.

(** The float nearest to an integer (ties to even). *)
Definition of_Z (z : Z) : float := binary_normalize prec emax z 0 false.

(** The float nearest to [m * 10^e], negated when [neg]: what reading a
    decimal numeral yields.  Too large a value rounds to an infinity, too
    small a one to a subnormal or to zero. *)
Definition of_decimal (neg : bool) (m : N) (e : Z) : float :=
  match m with
  | N0 => S754_zero neg
  | Npos p =>
      match e with
      | Zneg k =>
          SFdiv prec emax (S754_finite neg p 0)
                (S754_finite false (Pos.pow 10 k) 0)
      | _ => binary_round prec emax neg (p * Z.to_pos (10 ^ e)) 0
      end
  end.

(** Exact comparison of an integer with a float, as Python compares an
    [int] with a [float]; [None] for a NaN. *)
Definition Zcompare (z : Z) (x : float) : option comparison :=
  match x with
  | S754_nan => None
  | S754_infinity s => Some (if s then Gt else Lt)
  | S754_zero _ => Some (z ?= 0)%Z
  | S754_finite s m e =>
      let v := if s then Z.neg m else Z.pos m in
      Some (match e with
            | Zneg k => (z * Z.pos (Pos.pow 2 k) ?= v)%Z
            | _ => (z ?= v * 2 ^ e)%Z
            end)
  end.

(** [x > z] and [z > x] for a float [x] and an int [z]. *)
Definition gtb_Z (x : float) (z : Z) : bool :=
  match Zcompare z x with Some Lt => true | _ => false end.
Definition Z_gtb (z : Z) (x : float) : bool :=
  match Zcompare z x with Some Gt => true | _ => false end.

(** [max(a, b)] on two floats: the first unless the second is greater. *)
Definition max (a b : float) : float := if gtb b a then b else a.

End F64.

(** ** The builtins [float] and [int] on a string *)

Module Num.
Import Py.

(** Value of a numeral from the values of its digits, most significant
    first. *)
Definition digits_value (ds : list N) : N :=
  fold_left (fun acc d => 10 * acc + d)%N ds 0%N.

(** An optional sign in front. *)
Definition parse_sign (s : str) : bool * str :=
  match s with
  | c :: s' =>
      if (c =? 45)%N then (true, s')
      else if (c =? 43)%N then (false, s')
      else (false, s)
  | [] => (false, s)
  end.

(** What follows a decimal point in front, if there is one. *)
Definition after_point (s : str) : option str :=
  match s with
  | c :: s' => if (c =? 46)%N then Some s' else None
  | [] => None
  end.

(** The longest run of ASCII digits in front, as digit values. *)
Fixpoint span_digits (s : str) : list N * str :=
  match s with
  | c :: s' =>
      if c_isdigit c
      then let (ds, rest) := span_digits s' in ((c - 48)%N :: ds, rest)
      else ([], s)
  | [] => ([], [])
  end.

Fixpoint skip_space (s : str) : str :=
  match s with
  | c :: s' => if c_isspace c then skip_space s' else s
  | [] => []
  end.

(** [t] in front of [s], letter case of [s] ignored ([t] is lower case). *)
Fixpoint case_insensitive_match (s t : str) : option str :=
  match t with
  | [] => Some s
  | b :: t' =>
      match s with
      | a :: s' =>
          if (ascii_lower a =? b)%N then case_insensitive_match s' t' else None
      | [] => None
      end
  end.

(** [inf], [infinity] or [nan] after an optional sign. *)
Definition parse_inf_or_nan (s : str) : option (F64.float * str) :=
  let (neg, s1) := parse_sign s in
  match case_insensitive_match s1 (lit "inf") with
  | Some s2 =>
      match case_insensitive_match s2 (lit "inity") with
      | Some s3 => Some (S754_infinity neg, s3)
      | None => Some (S754_infinity neg, s2)
      end
  | None =>
      match case_insensitive_match s1 (lit "nan") with
      | Some s2 => Some (S754_nan, s2)
      | None => None
      end
  end.

(** A decimal numeral in front: sign, digits, point, digits, exponent.  At
    least one digit is needed before the exponent; an exponent without a
    digit is left unread. *)
Definition parse_exponent (s : str) : Z * str :=
  match s with
  | c :: t =>
      if ((c =? 101) || (c =? 69))%N
      then let (eneg, t1) := parse_sign t in
           let (ed, t2) := span_digits t1 in
           match ed with
           | [] => (0%Z, s)
           | _ => let v := Z.of_N (digits_value ed) in
                  ((if eneg then - v else v)%Z, t2)
           end
      else (0%Z, s)
  | [] => (0%Z, s)
  end.

Definition strtod (s : str) : option (F64.float * str) :=
  let (neg, s1) := parse_sign s in
  let (ip, s2) := span_digits s1 in
  let (fp, s3) := match after_point s2 with
                  | Some t => span_digits t
                  | None => ([], s2)
                  end in
  match ip ++ fp with
  | [] => None
  | ds =>
      let (ex, s4) := parse_exponent s3 in
      Some (F64.of_decimal neg (digits_value ds)
                           (ex - Z.of_nat (List.length fp)), s4)
  end.

Definition string_to_double (s : str) : option (F64.float * str) :=
  match parse_inf_or_nan s with
  | Some r => Some r
  | None => strtod s
  end.

(** White space around the numeral is dropped; the numeral must then take
    all that is left. *)
Definition float_from_string_inner (s : str) : result F64.float :=
  match skip_space s with
  | [] => Raise ValueError
  | s1 =>
      let s2 := rev (skip_space (rev s1)) in
      match string_to_double s2 with
      | Some (x, []) => Ok x
      | _ => Raise ValueError
      end
  end.

(** Is there an underscore before the first NUL? *)
Fixpoint has_underscore (s : str) : bool :=
  match s with
  | [] => false
  | c :: s' => if (c =? 0)%N then false else (c =? 95)%N || has_underscore s'
  end.

(** Underscores are dropped when each stands between two digits; a NUL
    inside the string is an error. *)
Fixpoint remove_underscores (prev : char) (s : str) : option str :=
  match s with
  | [] => if (prev =? 95)%N then None else Some []
  | c :: s' =>
      if (c =? 0)%N then None
      else if (c =? 95)%N
      then if c_isdigit prev then remove_underscores c s' else None
      else if (prev =? 95)%N && negb (c_isdigit c) then None
      else option_map (cons c) (remove_underscores c s')
  end.

Definition number_with_underscores {A} (inner : str -> result A) (s : str)
  : result A :=
  if has_underscore s
  then match remove_underscores 0%N s with
       | Some s' => inner s'
       | None => Raise ValueError
       end
  else inner s.

(** Digits of an [int] numeral, single underscores between them allowed. *)
Fixpoint scan_int_digits (prev : char) (s : str) : option (list N * str) :=
  match s with
  | c :: s' =>
      if c_isdigit c
      then match scan_int_digits c s' with
           | Some (ds, rest) => Some ((c - 48)%N :: ds, rest)
           | None => None
           end
      else if (c =? 95)%N
      then if (prev =? 95)%N then None else scan_int_digits c s'
      else if (prev =? 95)%N then None else Some ([], s)
  | [] => if (prev =? 95)%N then None else Some ([], [])
  end.

Section Interpreter.
Variable U : ucd.
(** [sys.get_int_max_str_digits()]: 0 when there is no limit. *)
Variable max_str_digits : N.

(** Every character becomes ASCII before a number is read: white space a
    space, a decimal digit the ASCII digit of its value; at any other
    character outside ASCII the string is cut and ends in [?]. *)
Fixpoint transform_chars (s : str) : str :=
  match s with
  | [] => []
  | ch :: s' =>
      if (ch <? 127)%N then ch :: transform_chars s'
      else if unicode_isspace U ch then 32%N :: transform_chars s'
      else match to_decimal U ch with
           | Some d => (48 + d)%N :: transform_chars s'
           | None => [63%N]
           end
  end.

Definition transform_decimal_and_space (s : str) : str :=
  if forallb is_ascii s then s else transform_chars s.

(** [float(s)] *)
Definition float (s : str) : result F64.float :=
  number_with_underscores float_from_string_inner
                          (transform_decimal_and_space s).

(** [int(s)] *)
Definition int (s : str) : result Z :=
  let (neg, s1) := parse_sign (skip_space (transform_decimal_and_space s)) in
  if startswith [95%N] s1 then Raise ValueError
  else
      match scan_int_digits 0%N s1 with
      | None | Some ([], _) => Raise ValueError
      | Some (ds, rest) =>
          let n := N.of_nat (List.length ds) in
          if ((640 <? n) && (0 <? max_str_digits) && (max_str_digits <? n))%N
          then Raise ValueError
          else if forallb c_isspace rest
               then let v := Z.of_N (digits_value ds) in
                    Ok (if neg then - v else v)%Z
               else Raise ValueError
      end.

End Interpreter.

End Num.

(** ** Regular expressions: the fragment [re.search] is used on

    A pattern is a sequence of quantified atoms; an atom is a character, the
    class [\d], or a bracketed set of these.  Quantifiers are greedy and the
    matcher backtracks, longest repetition first, as [re] does. *)

Module Re.
Import Py.

Inductive item := IDigit | IChar (c : char).
Inductive atom := Single (i : item) | Class (l : list item).
Inductive quant := One | Opt | Star | Plus.
Definition regex := list (atom * quant).

(** Fewest and most repetitions to try, when [n] characters in front match
    the atom. *)
Definition bounds (q : quant) (n : nat) : nat * nat :=
  match q with
  | One => (1, Nat.min n 1)
  | Opt => (0, Nat.min n 1)
  | Star => (0, n)
  | Plus => (1, n)
  end.

(** Try [n] repetitions, then [n - 1], down to [lo]; [k] matches the rest of
    the pattern. *)
Fixpoint backtrack (k : str -> option str) (s : str) (lo n : nat)
  : option str :=
  match k (skipn n s) with
  | Some m => Some (firstn n s ++ m)
  | None =>
      match n with
      | O => None
      | S n' => if (n' <? lo)%nat then None else backtrack k s lo n'
      end
  end.

Section Matcher.
Variable U : ucd.

Definition item_matches (i : item) (c : char) : bool :=
  match i with
  | IDigit => is_decimal U c
  | IChar x => (c =? x)%N
  end.

Definition atom_matches (a : atom) (c : char) : bool :=
  match a with
  | Single i => item_matches i c
  | Class l => existsb (fun i => item_matches i c) l
  end.

Fixpoint run_length (a : atom) (s : str) : nat :=
  match s with
  | c :: s' => if atom_matches a c then S (run_length a s') else O
  | [] => O
  end.

(** The text the pattern matches at the start of [s]. *)
Fixpoint match_here (r : regex) (s : str) : option str :=
  match r with
  | [] => Some []
  | (a, q) :: r' =>
      let (lo, hi) := bounds q (run_length a s) in
      if (hi <? lo)%nat then None else backtrack (match_here r') s lo hi
  end.

(** [re.search(r, s)]: the leftmost match; [Some m] is a match object
    whose [group()] is [m], [None] is Python's [None]. *)
Fixpoint search (r : regex) (s : str) : option str :=
  match match_here r s with
  | Some m => Some m
  | None =>
      match s with
      | [] => None
      | _ :: s' => search r s'
      end
  end.

End Matcher.

End Re.

(** ** Statements: local state and exceptions *)

Section Statements.
Variable S : Type.

(** A statement runs to completion or raises; either way it leaves a
    state behind. *)
Inductive outcome :=
| Done (st : S)
| Raised (e : exn) (st : S).

Definition stmt := S -> outcome.

Definition skip : stmt := fun st => Done st.

Definition seq (a b : stmt) : stmt :=
  fun st => match a st with
            | Done st' => b st'
            | Raised e st' => Raised e st'
            end.

(** Evaluate an expression, then go on with its value. *)
Definition eval A (r : result A) (k : A -> stmt) : stmt :=
  fun st => match r with
            | Ok a => k a st
            | Raise e => Raised e st
            end.

Definition update (f : S -> S) : stmt := fun st => Done (f st).

(** [try: body / except: pass] *)
Definition try_except_pass (body : stmt) : stmt :=
  fun st => match body st with
            | Done st' => Done st'
            | Raised _ st' => Done st'
            end.

(** [try: body / except requests.exceptions.RequestException as e:
    handler(str(e))]; any other exception propagates. *)
Definition try_except_request (body : stmt) (handler : Py.str -> stmt)
  : stmt :=
  fun st => match body st with
            | Raised (RequestException msg) st' => handler msg st'
            | o => o
            end.

(** Read the state. *)
Definition read (k : S -> stmt) : stmt := fun st => k st st.

(** A block run as an expression: the state it ends in, or the exception
    that escapes it. *)
Definition run (body : stmt) (st : S) : result S :=
  match body st with
  | Done st' => Ok st'
  | Raised e _ => Raise e
  end.
End Statements.

Arguments Done {S} st.
Arguments Raised {S} e st.
Arguments skip {S}.
Arguments seq {S} a b.
Arguments eval {S A} r k.
Arguments update {S} f.
Arguments try_except_pass {S} body.
Arguments try_except_request {S} body handler.
Arguments read {S} k.
Arguments run {S} body st.

Declare Scope stmt_scope.
Delimit Scope stmt_scope with stmt.
Notation "a ;; b" := (seq a b) (at level 61, right associativity) : stmt_scope.
Notation "x <- r ;; k" := (eval r (fun x => k))
  (at level 61, r at next level, right associativity) : stmt_scope.

Declare Scope result_scope.
Delimit Scope result_scope with result.
Notation "x <- r ;; k" := (rbind r (fun x => k))
  (at level 61, r at next level, right associativity) : result_scope.

(** ** Decoded JSON: the Python value [response.json()] returns *)

#[warnings="-register-all"]
Inductive pyval :=
| PNone
| PBool (b : bool)
| PInt (z : Z)
| PFloat (x : F64.float)
| PStr (s : Py.str)
| PList (l : list pyval)
| PDict (d : list (Py.str * pyval)).

(** ** The request and response models of the API *)

Record ProductAnalysis := {
  title : Py.str;
  description : Py.str;
  price : Py.str;
  seller : Py.str;
  rating : Py.str;
  reviews_count : Py.str;
  url : Py.str
}.

Inductive status_t := legit | scam | uncertain.

Record Indicators := {
  scam_indicators : Z;
  legit_indicators : Z
}.

(** The dictionary [analyze_product_legitimacy] returns (the ScoreResult of
    the specification); the last two keys are absent until the handler sets
    them. *)
Record ScoreResult := {
  status : status_t;
  confidence : F64.float;
  reasons : list Py.str;
  indicators : Indicators;
  ai_analysis : option pyval;
  ai_error : option Py.str
}.

(** ** Float literals of the source, as the interpreter reads them *)

Module Lit.
Definition f1_0 : F64.float := Eval vm_compute in F64.of_decimal false 10 (-1).
Definition f2_0 : F64.float := Eval vm_compute in F64.of_decimal false 20 (-1).
Definition f4_0 : F64.float := Eval vm_compute in F64.of_decimal false 40 (-1).
Definition f0_7 : F64.float := Eval vm_compute in F64.of_decimal false 7 (-1).
Definition f0_05 : F64.float := Eval vm_compute in F64.of_decimal false 5 (-2).
Definition f0_4 : F64.float := Eval vm_compute in F64.of_decimal false 4 (-1).
Definition f0_5 : F64.float := Eval vm_compute in F64.of_decimal false 5 (-1).
Definition f0_3 : F64.float := Eval vm_compute in F64.of_decimal false 3 (-1).
Definition f0_2 : F64.float := Eval vm_compute in F64.of_decimal false 2 (-1).
(** not in the source; the bounds the specification talks about *)
Definition f0_75 : F64.float := Eval vm_compute in F64.of_decimal false 75 (-2).
Definition f0_95 : F64.float := Eval vm_compute in F64.of_decimal false 95 (-2).
End Lit.

(** [int * float] and the conversion it starts with: an [int] too large for
    a [float] raises [OverflowError]. *)
Definition float_of_int (z : Z) : result F64.float :=
  match F64.of_Z z with
  | S754_infinity _ => Raise OverflowError
  | x => Ok x
  end.

Definition int_mul_float (z : Z) (x : F64.float) : result F64.float :=
  (f <- float_of_int z ;; Ok (F64.mul f x))%result.

(** ** The heuristic scorer *)

Module Var.
(** The three local variables of [analyze_product_legitimacy]. *)
Record locals := {
  reasons : list Py.str;
  scam_indicators : Z;
  legit_indicators : Z
}.
End Var.

Module Scorer.
Import Py.
Local Open Scope stmt_scope.

(** [scam_indicators += 1], [legit_indicators += 1], [reasons.append(r)] *)
Definition incr_scam : stmt Var.locals :=
  update (fun l => {| Var.reasons := Var.reasons l;
                      Var.scam_indicators := Var.scam_indicators l + 1;
                      Var.legit_indicators := Var.legit_indicators l |}).

Definition incr_legit : stmt Var.locals :=
  update (fun l => {| Var.reasons := Var.reasons l;
                      Var.scam_indicators := Var.scam_indicators l;
                      Var.legit_indicators := Var.legit_indicators l + 1 |}).

Definition append (r : str) : stmt Var.locals :=
  update (fun l => {| Var.reasons := Var.reasons l ++ [r];
                      Var.scam_indicators := Var.scam_indicators l;
                      Var.legit_indicators := Var.legit_indicators l |}).

Definition suspicious_words : list str :=
  [lit "urgent"; lit "limited time"; lit "act now"; lit "guaranteed";
   lit "miracle"; lit "secret"; lit "exclusive offer"].

(** [r'[\d,]+\.?\d*'] and [r'[\d,]+'] *)
Definition price_re : Re.regex :=
  [(Re.Class [Re.IDigit; Re.IChar 44%N], Re.Plus);
   (Re.Single (Re.IChar 46%N), Re.Opt);
   (Re.Single Re.IDigit, Re.Star)].

Definition reviews_re : Re.regex :=
  [(Re.Class [Re.IDigit; Re.IChar 44%N], Re.Plus)].

Section Rules.
Variable U : ucd.
Variable max_str_digits : N.
Variable product_data : ProductAnalysis.

(** lines 76-80: the title against the suspicious phrases *)
Definition title_rule : stmt Var.locals :=
  let title_lower := lower U (title product_data) in
  if existsb (fun word => contains word title_lower) suspicious_words
  then incr_scam ;; append (lit "Suspicious language")
  else skip.

(** lines 82-94 *)
Definition price_rule : stmt Var.locals :=
  match price product_data with
  | [] => skip
  | _ =>
      try_except_pass
        (let price_match :=
           Re.search U price_re
             (remove_char 44%N (remove_char 36%N (price product_data))) in
         match price_match with
         | Some group =>
             price_value <- Num.float U group ;;
             if F64.ltb price_value Lit.f1_0
             then incr_scam ;; append (lit "Low price")
             else if F64.gtb_Z price_value 1000
             then incr_legit ;; append (lit "Normal price")
             else skip
         | None => skip
         end)
  end.

(** lines 96-103 *)
Definition seller_rule : stmt Var.locals :=
  match seller product_data with
  | [] => skip
  | _ =>
      let seller_lower := lower U (seller product_data) in
      if contains (lit "amazon") seller_lower
         || contains (lit "walmart") seller_lower
         || contains (lit "target") seller_lower
      then incr_legit ;; append (lit "Reputable seller")
      else if (List.length seller_lower <? 3)%nat || isdigit U seller_lower
      then incr_scam ;; append (lit "Suspicious seller")
      else skip
  end.

(** lines 105-115 *)
Definition rating_rule : stmt Var.locals :=
  match rating product_data with
  | [] => skip
  | _ =>
      try_except_pass
        (rating_value <- Num.float U (rating product_data) ;;
         if F64.ltb rating_value Lit.f2_0
         then incr_scam ;; append (lit "Low rating")
         else if F64.gtb rating_value Lit.f4_0
         then incr_legit ;; append (lit "Good rating")
         else skip)
  end.

(** lines 117-129 *)
Definition reviews_rule : stmt Var.locals :=
  match reviews_count product_data with
  | [] => skip
  | _ =>
      try_except_pass
        (let reviews_match :=
           Re.search U reviews_re
             (remove_char 44%N (reviews_count product_data)) in
         match reviews_match with
         | Some group =>
             reviews_value <- Num.int U max_str_digits group ;;
             if (reviews_value <? 5)%Z
             then incr_scam ;; append (lit "Few reviews")
             else if (reviews_value >? 50)%Z
             then incr_legit ;; append (lit "Many reviews")
             else skip
         | None => skip
         end)
  end.

(** lines 76-129, from the variables of lines 72-74 *)
Definition rules : stmt Var.locals :=
  title_rule ;; price_rule ;; seller_rule ;; rating_rule ;; reviews_rule.

Definition initial : Var.locals :=
  {| Var.reasons := []; Var.scam_indicators := 0; Var.legit_indicators := 0 |}.

(** lines 131-140, "Determine final status" *)
Definition final_status (s l : Z) : result (status_t * F64.float) :=
  (if (s >? l)%Z
   then m <- int_mul_float s Lit.f0_05 ;; Ok (scam, F64.add Lit.f0_7 m)
   else if (l >? s)%Z
   then m <- int_mul_float l Lit.f0_05 ;; Ok (legit, F64.add Lit.f0_7 m)
   else Ok (uncertain, Lit.f0_4))%result.

(** lines 67-150 *)
Definition analyze_product_legitimacy : result ScoreResult :=
  match rules initial with
  | Raised e _ => Raise e
  | Done vars =>
      (sc <- final_status (Var.scam_indicators vars)
                          (Var.legit_indicators vars) ;;
       Ok {| status := fst sc;
             confidence := snd sc;
             reasons := Var.reasons vars;
             indicators :=
               {| scam_indicators := Var.scam_indicators vars;
                  legit_indicators := Var.legit_indicators vars |};
             ai_analysis := None;
             ai_error := None |})%result
  end.

End Rules.

End Scorer.

(** ** The two endpoints *)

Module Handler.
Import Py.
Local Open Scope stmt_scope.

(** A [requests.Response], by the two methods the handler calls on it. *)
Record Response := {
  raise_for_status : result unit;
  json : result pyval
}.

Record AnalysisResponse := {
  success : bool;
  analysis : ScoreResult;
  product_info : str * str
}.

(** What an endpoint answers: status 200 with a body; the [HTTPException]
    it raises, whose detail is [prefix + str(cause)]; or an exception it
    does not handle, which the framework answers with status 500. *)
Inductive http (B : Type) :=
| Http200 (body : B)
| HTTPException (status_code : Z) (prefix : str) (cause : exn)
| Unhandled (e : exn).
Arguments Http200 {B} body.
Arguments HTTPException {B} status_code prefix cause.
Arguments Unhandled {B} e.

(** lines 21 and 25.  The key is a credential: its characters are left out
    here, and nothing below depends on them. *)
Definition api_link : str := lit "https://api.sapling.ai/api/v1/aidetect".
Definition api_private_key : str := lit "<api key>".

Fixpoint dict_get (d : list (str * pyval)) (key : str) : option pyval :=
  match d with
  | [] => None
  | (k, v) :: d' => if str_eqb k key then Some v else dict_get d' key
  end.

(** [key in v] for a string [key] *)
Definition py_in (key : str) (v : pyval) : result bool :=
  match v with
  | PDict d => Ok (match dict_get d key with Some _ => true | None => false end)
  | PList l => Ok (existsb (fun x => match x with
                                     | PStr s => str_eqb s key
                                     | _ => false
                                     end) l)
  | PStr s => Ok (contains key s)
  | _ => Raise TypeError
  end.

(** [v.get(key, default)] *)
Definition py_get (v : pyval) (key : str) (default : pyval) : result pyval :=
  match v with
  | PDict d => Ok (match dict_get d key with Some x => x | None => default end)
  | _ => Raise AttributeError
  end.

(** [v > x] for a float [x] *)
Definition py_gt_float (v : pyval) (x : F64.float) : result bool :=
  match v with
  | PFloat y => Ok (F64.gtb y x)
  | PInt z => Ok (F64.Z_gtb z x)
  | PBool b => Ok (F64.Z_gtb (if b then 1 else 0) x)
  | _ => Raise TypeError
  end.

Definition set_ai_analysis (v : pyval) : stmt ScoreResult :=
  update (fun a => {| status := status a; confidence := confidence a;
                      reasons := reasons a; indicators := indicators a;
                      ai_analysis := Some v; ai_error := ai_error a |}).

Definition set_ai_error (msg : str) : stmt ScoreResult :=
  update (fun a => {| status := status a; confidence := confidence a;
                      reasons := reasons a; indicators := indicators a;
                      ai_analysis := ai_analysis a; ai_error := Some msg |}).

Definition set_status (s : status_t) : stmt ScoreResult :=
  update (fun a => {| status := s; confidence := confidence a;
                      reasons := reasons a; indicators := indicators a;
                      ai_analysis := ai_analysis a; ai_error := ai_error a |}).

Definition set_confidence (c : F64.float) : stmt ScoreResult :=
  update (fun a => {| status := status a; confidence := c;
                      reasons := reasons a; indicators := indicators a;
                      ai_analysis := ai_analysis a; ai_error := ai_error a |}).

Definition append_reason (r : str) : stmt ScoreResult :=
  update (fun a => {| status := status a; confidence := confidence a;
                      reasons := reasons a ++ [r]; indicators := indicators a;
                      ai_analysis := ai_analysis a; ai_error := ai_error a |}).

Definition status_eqb (a b : status_t) : bool :=
  match a, b with
  | legit, legit | scam, scam | uncertain, uncertain => true
  | _, _ => false
  end.

Section Endpoint.
Variable U : ucd.
Variable max_str_digits : N.
(** [requests.post(url, headers=..., json=...)]: the response, or the
    exception raised. *)
Variable requests_post :
  str -> list (str * str) -> list (str * str) -> result Response.

(** lines 43-64: the check-text endpoint, on the text of the request *)
Definition check_ai_text (text : str) : http pyval :=
  let authorize := [(lit "Authorization", lit "Key " ++ api_private_key)] in
  let dataSent := [(lit "text", text)] in
  match (response <- requests_post api_link authorize dataSent ;;
         _ <- raise_for_status response ;;
         Ok response)%result
  with
  | Raise (RequestException msg) =>
      HTTPException 500 (lit "API error: ") (RequestException msg)
  | Raise e => Unhandled e
  | Ok response =>
      match json response with
      | Ok body => Http200 body
      | Raise e => Unhandled e
      end
  end.

(** lines 165-188: the inner [try] of the handler, on the dictionary
    [analysis_result]. *)
Definition ai_detection (combined_text : str) : stmt ScoreResult :=
  try_except_request
    (let authorize := [(lit "Authorization", lit "Key " ++ api_private_key)] in
     let data_sent := [(lit "text", combined_text)] in
     ai_response <- requests_post api_link authorize data_sent ;;
     _ <- raise_for_status ai_response ;;
     ai_result <- json ai_response ;;
     set_ai_analysis ai_result ;;
     has_score <- py_in (lit "score") ai_result ;;
     if has_score
     then ai_score <- py_get ai_result (lit "score") (PFloat Lit.f0_5) ;;
          high <- py_gt_float ai_score Lit.f0_7 ;;
          if high
          then read (fun analysis_result =>
                       if status_eqb (status analysis_result) legit
                       then set_status uncertain ;;
                            read (fun analysis_result =>
                                    set_confidence
                                      (F64.max Lit.f0_3
                                         (F64.sub (confidence analysis_result)
                                                  Lit.f0_2)))
                       else skip) ;;
               append_reason (lit "AI-generated content detected")
          else skip
     else skip)
    (fun msg => set_ai_error msg).

(** lines 154-200 *)
Definition analyze_product (product_data : ProductAnalysis)
  : http AnalysisResponse :=
  match
    (analysis_result <-
       Scorer.analyze_product_legitimacy U max_str_digits product_data ;;
     let combined_text :=
       title product_data ++ [32%N] ++ description product_data in
     analysis_result <-
       match strip U combined_text with
       | [] => Ok analysis_result
       | _ => run (ai_detection combined_text) analysis_result
       end ;;
     Ok {| success := true;
           analysis := analysis_result;
           product_info := (title product_data, url product_data) |})%result
  with
  | Ok body => Http200 body
  | Raise e => HTTPException 500 (lit "Analysis error: ") e
  end.

End Endpoint.

End Handler.

(** ** The rules in the words of the specification

    The definitions below follow the prose of the specification rather than
    the code; the theorems compare them with the scorer. *)

Module Spec.
Import Py.

(** What a triggered rule does to the local variables. *)
Definition scam_added (reason : str) (l : Var.locals) : Var.locals :=
  {| Var.reasons := Var.reasons l ++ [reason];
     Var.scam_indicators := Var.scam_indicators l + 1;
     Var.legit_indicators := Var.legit_indicators l |}.

Definition legit_added (reason : str) (l : Var.locals) : Var.locals :=
  {| Var.reasons := Var.reasons l ++ [reason];
     Var.scam_indicators := Var.scam_indicators l;
     Var.legit_indicators := Var.legit_indicators l + 1 |}.

(** A numeric token: digits, then possibly a decimal point and digits. *)
Record numeric_token := {
  int_part : str;
  frac_part : option str
}.

Definition token_text (t : numeric_token) : str :=
  int_part t ++ match frac_part t with
                | Some f => 46%N :: f
                | None => []
                end.

Definition frac_digits (t : numeric_token) : str :=
  match frac_part t with Some f => f | None => [] end.

Section Tokens.
Variable U : ucd.

(** The digits in front of a string, and what follows them. *)
Fixpoint take_digits (s : str) : str * str :=
  match s with
  | c :: s' =>
      if is_decimal U c
      then let (ds, rest) := take_digits s' in (c :: ds, rest)
      else ([], s)
  | [] => ([], [])
  end.

(** The numeric token a string starts with, if it starts with a digit. *)
Definition token_at (s : str) : option numeric_token :=
  match take_digits s with
  | ([], _) => None
  | (ip, rest) =>
      Some {| int_part := ip;
              frac_part := option_map (fun t => fst (take_digits t))
                                      (Num.after_point rest) |}
  end.

(** The first numeric token of a string. *)
Fixpoint first_numeric_token (s : str) : option numeric_token :=
  match token_at s with
  | Some t => Some t
  | None =>
      match s with
      | [] => None
      | _ :: s' => first_numeric_token s'
      end
  end.

(** The first run of digits of a string. *)
Fixpoint first_digit_run (s : str) : option str :=
  match take_digits s with
  | ([], _) =>
      match s with
      | [] => None
      | _ :: s' => first_digit_run s'
      end
  | (ds, _) => Some ds
  end.

(** The number a run of digits writes, in base ten. *)
Definition digit_of (c : char) : N :=
  match to_decimal U c with Some d => d | None => 0%N end.

Definition run_value (ds : str) : N := Num.digits_value (map digit_of ds).

(** The float a numeric token reads as: its digits over the power of ten
    its fraction has places, rounded to nearest. *)
Definition token_value (t : numeric_token) : F64.float :=
  F64.of_decimal false (run_value (int_part t ++ frac_digits t))
                 (- Z.of_nat (List.length (frac_digits t))).

End Tokens.

(** Price with [$] and [,] removed; review count with [,] removed. *)
Definition strip_dollar_comma (s : str) : str :=
  remove_char 44%N (remove_char 36%N s).

Definition strip_comma (s : str) : str := remove_char 44%N s.

(** [int] refuses a run of digits longer than the interpreter's limit. *)
Definition too_long (max_str_digits : N) (ds : str) : bool :=
  let n := N.of_nat (List.length ds) in
  ((640 <? n) && (0 <? max_str_digits) && (max_str_digits <? n))%N.

(** *** What a rule decides

    "Each rule increments one of two counters and appends a reason string
    when triggered." *)
Inductive verdict :=
| NoEffect
| Scam (reason : str)
| Legit (reason : str).

Definition apply_verdict (v : verdict) (l : Var.locals) : Var.locals :=
  match v with
  | NoEffect => l
  | Scam r => scam_added r l
  | Legit r => legit_added r l
  end.

Definition reason_of (v : verdict) : list str :=
  match v with
  | NoEffect => []
  | Scam r | Legit r => [r]
  end.

Definition scam_of (v : verdict) : Z :=
  match v with Scam _ => 1 | _ => 0 end.

Definition legit_of (v : verdict) : Z :=
  match v with Legit _ => 1 | _ => 0 end.

Section Verdicts.
Variable U : ucd.
Variable max_str_digits : N.

(** A phrase occurs in a text, letter case ignored: it occurs in the
    lower-cased text (the phrases are written in lower case). *)
Definition contains_nocase (phrase text : str) : bool :=
  contains phrase (lower U text).

(** 1. Title language *)
Definition title_verdict (title : str) : verdict :=
  if existsb (fun phrase => contains_nocase phrase title)
             Scorer.suspicious_words
  then Scam (lit "Suspicious language")
  else NoEffect.

(** 2. Price *)
Definition price_verdict (price : str) : verdict :=
  match first_numeric_token U (strip_dollar_comma price) with
  | None => NoEffect
  | Some t =>
      if F64.ltb (token_value U t) Lit.f1_0 then Scam (lit "Low price")
      else if F64.gtb_Z (token_value U t) 1000 then Legit (lit "Normal price")
      else NoEffect
  end.

(** 3. Seller, as the claim words it: no test for an empty seller, and
    the length is that of the seller string. *)
Definition seller_verdict_claimed (seller : str) : verdict :=
  if contains_nocase (lit "amazon") seller
     || contains_nocase (lit "walmart") seller
     || contains_nocase (lit "target") seller
  then Legit (lit "Reputable seller")
  else if (List.length seller <? 3)%nat || isdigit U seller
  then Scam (lit "Suspicious seller")
  else NoEffect.

(** 3. Seller, as amended: an empty seller is left alone, and length and
    digits are those of the lower-cased seller. *)
Definition seller_verdict (seller : str) : verdict :=
  match seller with
  | [] => NoEffect
  | _ =>
      if contains_nocase (lit "amazon") seller
         || contains_nocase (lit "walmart") seller
         || contains_nocase (lit "target") seller
      then Legit (lit "Reputable seller")
      else if (List.length (lower U seller) <? 3)%nat
              || isdigit U (lower U seller)
      then Scam (lit "Suspicious seller")
      else NoEffect
  end.

(** 4. Rating *)
Definition rating_verdict (rating : str) : verdict :=
  match rating with
  | [] => NoEffect
  | _ =>
      match Num.float U rating with
      | Raise _ => NoEffect
      | Ok v =>
          if F64.ltb v Lit.f2_0 then Scam (lit "Low rating")
          else if F64.gtb v Lit.f4_0 then Legit (lit "Good rating")
          else NoEffect
      end
  end.

(** 5. Review count *)
Definition reviews_verdict (reviews_count : str) : verdict :=
  match first_digit_run U (strip_comma reviews_count) with
  | None => NoEffect
  | Some ds =>
      if too_long max_str_digits ds then NoEffect
      else let v := Z.of_N (run_value U ds) in
           if (v <? 5)%Z then Scam (lit "Few reviews")
           else if (v >? 50)%Z then Legit (lit "Many reviews")
           else NoEffect
  end.

(** The five verdicts on a product, in the order of the rules. *)
Definition verdicts (p : ProductAnalysis) : list verdict :=
  [title_verdict (title p); price_verdict (price p);
   seller_verdict (seller p); rating_verdict (rating p);
   reviews_verdict (reviews_count p)].

End Verdicts.

(** One rule's effect on the local variables: none, or one reason appended
    and one of the two counts raised by one. *)
Definition rule_step (st st' : Var.locals) : Prop :=
  st' = st \/
  exists reason, st' = scam_added reason st \/ st' = legit_added reason st.

(** Each of the five rules completes, with such an effect, from any state. *)
Definition each_rule_steps
    (U : ucd) (max_str_digits : N) (p : ProductAnalysis) : Prop :=
  forall st,
    (exists st', Scorer.title_rule U p st = Done st' /\ rule_step st st') /\
    (exists st', Scorer.price_rule U p st = Done st' /\ rule_step st st') /\
    (exists st', Scorer.seller_rule U p st = Done st' /\ rule_step st st') /\
    (exists st', Scorer.rating_rule U p st = Done st' /\ rule_step st st') /\
    (exists st', Scorer.reviews_rule U max_str_digits p st = Done st' /\
                 rule_step st st').

(** Each rule of the code does what its verdict says. *)
Definition rules_follow_verdicts
    (U : ucd) (max_str_digits : N) (p : ProductAnalysis) : Prop :=
  forall st,
    Scorer.title_rule U p st =
      Done (apply_verdict (title_verdict U (title p)) st) /\
    Scorer.price_rule U p st =
      Done (apply_verdict (price_verdict U (price p)) st) /\
    Scorer.seller_rule U p st =
      Done (apply_verdict (seller_verdict U (seller p)) st) /\
    Scorer.rating_rule U p st =
      Done (apply_verdict (rating_verdict U (rating p)) st) /\
    Scorer.reviews_rule U max_str_digits p st =
      Done (apply_verdict
              (reviews_verdict U max_str_digits (reviews_count p)) st).

(** Aggregation: status and confidence from the two counts. *)
Definition conf_of_count (n : Z) : F64.float :=
  F64.add Lit.f0_7 (F64.mul Lit.f0_05 (F64.of_Z n)).


(** *** The detector client and the blending of its score *)

(** [f"{title} {description}"] *)
Definition combined_text (p : ProductAnalysis) : str :=
  title p ++ [32%N] ++ description p.

(** "detect(text) -> JSON | TransportError": the authenticated POST, the
    check of the status, the decoding of the body. *)
Definition detect
    (requests_post :
       str -> list (str * str) -> list (str * str) -> result Handler.Response)
    (text : str) : result pyval :=
  (ai_response <-
     requests_post Handler.api_link
       [(lit "Authorization", lit "Key " ++ Handler.api_private_key)]
       [(lit "text", text)] ;;
   _ <- Handler.raise_for_status ai_response ;;
   Handler.json ai_response)%result.

(** A numeric JSON value. *)
Definition numeric (v : pyval) : Prop :=
  match v with
  | PInt _ | PFloat _ => True
  | _ => False
  end.

(** A numeric value strictly greater than a float. *)
Definition exceeds (v : pyval) (x : F64.float) : bool :=
  match v with
  | PFloat y => F64.gtb y x
  | PInt z => F64.Z_gtb z x
  | _ => false
  end.

Definition ai_reason : str := lit "AI-generated content detected".

(** The dictionary after a detector answer whose numeric score is [v]: a
    score above 0.7 turns legit into uncertain, lowers its confidence by
    0.2 (not below 0.3) and adds a reason. *)
Definition blend (ai_result v : pyval) (a : ScoreResult) : ScoreResult :=
  let high := exceeds v Lit.f0_7 in
  let downgrade := high && Handler.status_eqb (status a) legit in
  {| status := if downgrade then uncertain else status a;
     confidence := if downgrade
                   then F64.max Lit.f0_3 (F64.sub (confidence a) Lit.f0_2)
                   else confidence a;
     reasons := if high then reasons a ++ [ai_reason] else reasons a;
     indicators := indicators a;
     ai_analysis := Some ai_result;
     ai_error := ai_error a |}.

(** *** What the scorer and the handler can answer

    Notions the further properties are stated with; they are read off the
    code, not the specification. *)

(** The confidence of a status that is not a tie, by the count that wins,
    as the interpreter prints it. *)
Definition confidence_table : list (Z * F64.float) :=
  Eval vm_compute in
  [(1, F64.of_decimal false 75 (-2));
   (2, F64.of_decimal false 7999999999999999 (-16));
   (3, F64.of_decimal false 85 (-2));
   (4, F64.of_decimal false 8999999999999999 (-16));
   (5, F64.of_decimal false 95 (-2))]%Z.

(** The confidence of a legit status the detector has downgraded, by the
    legit count, as the interpreter prints it. *)
Definition downgraded_table : list (Z * F64.float) :=
  Eval vm_compute in
  [(1, F64.of_decimal false 55 (-2));
   (2, F64.of_decimal false 5999999999999999 (-16));
   (3, F64.of_decimal false 6499999999999999 (-16));
   (4, F64.of_decimal false 7 (-1))]%Z.

(** The reasons the scorer can give, in the order of the rules. *)
Definition scorer_reasons : list str :=
  [lit "Suspicious language"; lit "Low price"; lit "Normal price";
   lit "Reputable seller"; lit "Suspicious seller"; lit "Low rating";
   lit "Good rating"; lit "Few reviews"; lit "Many reviews"].

(** No string twice in a list. *)
Fixpoint distinct (l : list str) : bool :=
  match l with
  | [] => true
  | x :: l' => negb (existsb (str_eqb x) l') && distinct l'
  end.

(** The exception the handler's reading of the score raises on a detector
    answer, if any: [in] wants a container, [get] an object, [>] a
    number. *)
Definition score_error (j : pyval) : option exn :=
  match j with
  | PDict d =>
      match Handler.dict_get d (lit "score") with
      | Some (PFloat _ | PInt _ | PBool _) | None => None
      | Some _ => Some TypeError
      end
  | PList l =>
      if existsb (fun x => match x with
                           | PStr s => str_eqb s (lit "score")
                           | _ => false
                           end) l
      then Some AttributeError else None
  | PStr s => if contains (lit "score") s then Some AttributeError else None
  | _ => Some TypeError
  end.

(** The answer is an object whose score is above 0.7; [True] counts as 1. *)
Definition score_high (j : pyval) : bool :=
  match j with
  | PDict d =>
      match Handler.dict_get d (lit "score") with
      | Some (PFloat y) => F64.gtb y Lit.f0_7
      | Some (PInt z) => F64.Z_gtb z Lit.f0_7
      | Some (PBool b) => b
      | _ => false
      end
  | _ => false
  end.

(** The dictionary after a detector answer that can be read. *)
Definition with_detection (j : pyval) (a : ScoreResult) : ScoreResult :=
  let high := score_high j in
  let downgrade := high && Handler.status_eqb (status a) legit in
  {| status := if downgrade then uncertain else status a;
     confidence := if downgrade
                   then F64.max Lit.f0_3 (F64.sub (confidence a) Lit.f0_2)
                   else confidence a;
     reasons := if high then reasons a ++ [ai_reason] else reasons a;
     indicators := indicators a;
     ai_analysis := Some j;
     ai_error := ai_error a |}.

(** The dictionary after a transport error. *)
Definition with_error (msg : str) (a : ScoreResult) : ScoreResult :=
  {| status := status a; confidence := confidence a; reasons := reasons a;
     indicators := indicators a; ai_analysis := ai_analysis a;
     ai_error := Some msg |}.

(** The body of a 200 answer of the analyze-product endpoint. *)
Definition answer (p : ProductAnalysis) (a : ScoreResult)
  : Handler.AnalysisResponse :=
  {| Handler.success := true;
     Handler.analysis := a;
     Handler.product_info := (title p, url p) |}.

Definition is_request_exception (e : exn) : bool :=
  match e with RequestException _ => true | _ => false end.

(** What both endpoints do first: the authenticated POST and the check of
    the status. *)
Definition exchange
    (requests_post :
       str -> list (str * str) -> list (str * str) -> result Handler.Response)
    (text : str) : result Handler.Response :=
  (response <-
     requests_post Handler.api_link
       [(lit "Authorization", lit "Key " ++ Handler.api_private_key)]
       [(lit "text", text)] ;;
   _ <- Handler.raise_for_status response ;;
   Ok response)%result.

(** Two networks, for the examples: one in which the detector cannot be
    reached, one in which it answers 200 with a given JSON value. *)
Definition unreachable
  : str -> list (str * str) -> list (str * str) -> result Handler.Response :=
  fun _ _ _ => Raise (RequestException (lit "Connection refused")).

Definition answers (j : pyval)
  : str -> list (str * str) -> list (str * str) -> result Handler.Response :=
  fun _ _ _ => Ok {| Handler.raise_for_status := Ok tt;
                     Handler.json := Ok j |}.

Definition f0_9 : F64.float := Eval vm_compute in F64.of_decimal false 9 (-1).

(** Record updates on a product, for the examples. *)
Definition with_price (p : ProductAnalysis) (s : str) : ProductAnalysis :=
  {| title := title p; description := description p; price := s;
     seller := seller p; rating := rating p;
     reviews_count := reviews_count p; url := url p |}.

Definition with_title (p : ProductAnalysis) (s : str) : ProductAnalysis :=
  {| title := s; description := description p; price := price p;
     seller := seller p; rating := rating p;
     reviews_count := reviews_count p; url := url p |}.

Definition with_rating (p : ProductAnalysis) (s : str) : ProductAnalysis :=
  {| title := title p; description := description p; price := price p;
     seller := seller p; rating := s;
     reviews_count := reviews_count p; url := url p |}.

Definition with_reviews_count (p : ProductAnalysis) (s : str)
  : ProductAnalysis :=
  {| title := title p; description := description p; price := price p;
     seller := seller p; rating := rating p;
     reviews_count := s; url := url p |}.

Definition with_seller (p : ProductAnalysis) (s : str) : ProductAnalysis :=
  {| title := title p; description := description p; price := price p;
     seller := s; rating := rating p;
     reviews_count := reviews_count p; url := url p |}.

(** A product with a title and nothing else. *)
Definition title_only (t : str) : ProductAnalysis :=
  {| title := t; description := []; price := []; seller := [];
     rating := []; reviews_count := []; url := [] |}.

(** A product from ASCII literals, for the examples. *)
Definition product (t p s r n : string) : ProductAnalysis :=
  {| title := lit t; description := []; price := lit p; seller := lit s;
     rating := lit r; reviews_count := lit n; url := [] |}.

(** A database that knows the capital I with a dot (0x130): it lower-cases
    to an i followed by a combining dot, two code points. *)
Definition dotted_i : ucd :=
  {| ucd_class := fun _ => UOther;
     ucd_tolower_full := fun c => if (c =? 304)%N then [105; 775]%N else [c];
     ucd_final_sigma := fun _ _ => false |}.

Definition summary (r : result ScoreResult)
  : option (status_t * F64.float * list (list N) * Z * Z) :=
  match r with
  | Ok a => Some (status a, confidence a, reasons a,
                  scam_indicators (indicators a),
                  legit_indicators (indicators a))
  | Raise _ => None
  end.

End Spec.

(** ** Auxiliary notions the proofs use *)

Module Aux.
Import Py Spec.

(** The class [[\d,]] of both patterns. *)
Definition digit_or_comma : Re.atom := Re.Class [Re.IDigit; Re.IChar 44%N].

(** ASCII digits of digit values. *)
Definition ascii_digits (ds : list N) : list N := map (fun d => 48 + d)%N ds.

Definition small (ds : list N) : Prop := Forall (fun d => d <= 9)%N ds.

(** A numeral in ASCII: digits, then possibly a point and digits. *)
Definition numeral (ip : list N) (fp : option (list N)) : list N :=
  ascii_digits ip ++ match fp with
                     | Some f => 46%N :: ascii_digits f
                     | None => []
                     end.

Definition places (fp : option (list N)) : list N :=
  match fp with Some f => f | None => [] end.

(** A comparison of code points that arithmetic decides. *)
Ltac nfalse b :=
  replace b with false
    by (symmetry; first [apply N.eqb_neq | apply N.leb_gt | apply N.ltb_ge]; lia).

Ltac ntrue b :=
  replace b with true
    by (symmetry; first [apply N.eqb_eq | apply N.leb_le | apply N.ltb_lt]; lia).

Section Unicode.
Variable U : ucd.

Definition decimals (s : list N) : Prop :=
  Forall (fun c => is_decimal U c = true) s.

(** A character of a numeric token: a decimal digit or the point. *)
Definition tok_char (c : N) : Prop := is_decimal U c = true \/ c = 46%N.

(** Its ASCII form. *)
Definition ascii_form (c : N) : N :=
  if is_decimal U c then (48 + digit_of U c)%N else c.

(** A token is well formed: digits, at least one before the point. *)
Definition well_formed (t : numeric_token) : Prop :=
  int_part t <> [] /\ decimals (int_part t) /\ decimals (frac_digits t).
End Unicode.

(** No character of a string is a decimal digit; a string starts with
    one. *)
Definition no_digit (U : ucd) (s : list N) : Prop :=
  Forall (fun c => is_decimal U c = false) s.

Definition starts_with_digit (U : ucd) (s : list N) : bool :=
  match s with
  | c :: _ => is_decimal U c
  | [] => false
  end.

(** A float that is a number and carries no minus sign: zero, a positive
    finite number, or plus infinity. *)
Definition unsigned_number (x : F64.float) : Prop :=
  match x with
  | S754_zero false | S754_infinity false | S754_finite false _ _ => True
  | _ => False
  end.

(** A character a float numeral in ASCII can hold: white space, a digit, a
    sign, the point, the underscore, the exponent letter and the letters of
    [inf], [infinity] and [nan], in either case. *)
Definition float_char (c : N) : bool :=
  c_isspace c || c_isdigit c
  || existsb (N.eqb c) [43; 45; 46; 95]%N
  || existsb (N.eqb (ascii_lower c)) [101; 105; 110; 102; 116; 121; 97]%N.

(** A character [float] can read in a [str]: one of these, or, outside
    ASCII, white space or a decimal digit. *)
Definition float_text_char (U : ucd) (c : N) : bool :=
  float_char c
  || (negb (c <? 127)%N && (unicode_isspace U c || is_decimal U c)).

(** A string holds a character no numeral can hold. *)
Definition has_foreign (s : list N) : Prop :=
  exists c, In c s /\ float_char c = false.

(** What a parser has read of [s] when [rest] is left: characters of a
    numeral. *)
Definition consumed (s rest : list N) : Prop :=
  exists pre, s = pre ++ rest /\ forallb float_char pre = true.

End Aux.

(** * Properties *)

(** ** Strings *)

Module PyFacts.
Import Py Aux.

Lemma remove_char_absent c s : ~ In c (remove_char c s).
Proof.
  unfold remove_char. intros H. apply filter_In in H. destruct H as [_ H].
  rewrite N.eqb_refl in H. discriminate.
Qed.

(** On an ASCII string [lower] maps character by character, whatever the
    character database says. *)
Lemma lower_from_ascii U s : forall before,
  forallb is_ascii s = true -> lower_from U before s = map ascii_lower s.
Proof.
  induction s as [|c s IH]; intros before Hs; [reflexivity|].
  cbn [forallb] in Hs. apply andb_prop in Hs. destruct Hs as [Hc Hs].
  cbn [lower_from map]. rewrite Hc. cbn [app]. now rewrite IH.
Qed.

Lemma lower_ascii U s :
  forallb is_ascii s = true -> lower U s = map ascii_lower s.
Proof. apply lower_from_ascii. Qed.

Lemma unicode_isdigit_ascii_lower U c :
  is_ascii c = true ->
  unicode_isdigit U (ascii_lower c) = unicode_isdigit U c.
Proof.
  intros Hc. unfold ascii_lower.
  destruct (65 <=? c)%N eqn:H1, (c <=? 90)%N eqn:H2; cbn [andb]; try reflexivity.
  apply N.leb_le in H1, H2. unfold unicode_isdigit, is_ascii, c_isdigit.
  ntrue (c + 32 <? 128)%N.
  ntrue (c <? 128)%N.
  nfalse (c + 32 <=? 57)%N.
  nfalse (c <=? 57)%N.
  now rewrite !andb_false_r.
Qed.

Lemma forallb_isdigit_lower U s :
  forallb is_ascii s = true ->
  forallb (unicode_isdigit U) (map ascii_lower s) =
  forallb (unicode_isdigit U) s.
Proof.
  induction s as [|c s IH]; [reflexivity|].
  cbn [forallb map]. intros Hs. apply andb_prop in Hs. destruct Hs as [Hc Hs].
  now rewrite (unicode_isdigit_ascii_lower U c Hc), (IH Hs).
Qed.

Lemma isdigit_lower_ascii U s :
  forallb is_ascii s = true -> isdigit U (lower U s) = isdigit U s.
Proof.
  intros Hs. rewrite (lower_ascii U s Hs).
  destruct s as [|c s]; [reflexivity|].
  unfold isdigit. cbn [map].
  apply (forallb_isdigit_lower U (c :: s) Hs).
Qed.

End PyFacts.

(** ** The two patterns find the tokens of the specification *)

Module ReFacts.
Import Py Re Spec Aux.

Lemma backtrack_first k s lo n m :
  k (skipn n s) = Some m -> backtrack k s lo n = Some (firstn n s ++ m).
Proof. intros H. destruct n; simpl in *; rewrite H; reflexivity. Qed.

Section Patterns.
Variable U : ucd.

Lemma digit_or_comma_matches c :
  c <> 44%N -> atom_matches U digit_or_comma c = is_decimal U c.
Proof.
  intros Hc. simpl. apply N.eqb_neq in Hc. rewrite Hc.
  now rewrite !orb_false_r.
Qed.

(** In a string without commas the class [[\d,]] runs over the digits. *)
Lemma run_digit_or_comma s :
  ~ In 44%N s ->
  firstn (run_length U digit_or_comma s) s = fst (take_digits U s) /\
  skipn (run_length U digit_or_comma s) s = snd (take_digits U s).
Proof.
  induction s as [|c s IH]; intros Hs; [now split|].
  assert (Hc : c <> 44%N) by (intros ->; apply Hs; now left).
  assert (Hs' : ~ In 44%N s) by (intros H; apply Hs; now right).
  cbn [run_length take_digits]. rewrite (digit_or_comma_matches c Hc).
  destruct (is_decimal U c); [|now split].
  destruct (IH Hs') as [IH1 IH2].
  destruct (take_digits U s) as [ds rest]. cbn [firstn skipn fst snd] in *.
  now rewrite IH1, IH2.
Qed.

Lemma run_digit s :
  firstn (run_length U (Single IDigit) s) s = fst (take_digits U s).
Proof.
  induction s as [|c s IH]; [reflexivity|].
  cbn [run_length take_digits atom_matches item_matches].
  destruct (is_decimal U c); [|reflexivity].
  destruct (take_digits U s) as [ds rest]. cbn [firstn fst] in *.
  now rewrite IH.
Qed.

Lemma ltb_0_r n : (n <? 0)%nat = false.
Proof. now apply Nat.ltb_ge, Nat.le_0_l. Qed.

(** What follows a run of digits does not start with a digit. *)
Lemma take_digits_rest s :
  fst (take_digits U (snd (take_digits U s))) = [].
Proof.
  induction s as [|c s IH]; [reflexivity|].
  cbn [take_digits]. destruct (is_decimal U c) eqn:Hc.
  - destruct (take_digits U s) as [ds rest]. exact IH.
  - cbn [snd take_digits]. now rewrite Hc.
Qed.

(** [\d*]: the digits in front. *)
Lemma match_here_digits s :
  match_here U [(Single IDigit, Star)] s = Some (fst (take_digits U s)).
Proof.
  cbn [match_here bounds]. rewrite ltb_0_r.
  rewrite (backtrack_first _ _ _ _ []) by reflexivity.
  now rewrite app_nil_r, run_digit.
Qed.

(** [\.?\d*] after the digits: an optional point, then digits. *)
Lemma match_here_fraction s :
  match_here U [(Single (IChar 46%N), Opt); (Single IDigit, Star)] s =
  Some match Num.after_point s with
       | Some rest => 46%N :: fst (take_digits U rest)
       | None => fst (take_digits U s)
       end.
Proof.
  change (match_here U [(Single (IChar 46%N), Opt); (Single IDigit, Star)] s)
    with (let (lo, hi) := bounds Opt (run_length U (Single (IChar 46%N)) s) in
          if (hi <? lo)%nat then None
          else backtrack (match_here U [(Single IDigit, Star)]) s lo hi).
  cbn [bounds]. rewrite ltb_0_r.
  destruct s as [|c s].
  - reflexivity.
  - cbn [run_length atom_matches item_matches Num.after_point].
    destruct (N.eqb_spec c 46) as [->|Hc].
    + replace (Nat.min (S (run_length U (Single (IChar 46%N)) s)) 1) with 1%nat
        by (destruct (run_length U (Single (IChar 46%N)) s); reflexivity).
      erewrite backtrack_first by (cbn [skipn]; apply match_here_digits).
      reflexivity.
    + cbn [Nat.min].
      erewrite backtrack_first by (cbn [skipn]; apply match_here_digits).
      reflexivity.
Qed.

Lemma run_digit_or_comma_pos s n :
  ~ In 44%N s -> run_length U digit_or_comma s = S n ->
  fst (take_digits U s) <> [].
Proof.
  destruct s as [|c s]; [discriminate|]. intros Hs.
  assert (Hc : c <> 44%N) by (intros ->; apply Hs; now left).
  cbn [run_length take_digits]. rewrite (digit_or_comma_matches c Hc).
  destruct (is_decimal U c); [|discriminate].
  destruct (take_digits U s). discriminate.
Qed.

(** [[\d,]+\.?\d*] at the start of a string without commas. *)
Lemma match_here_price s :
  ~ In 44%N s ->
  match_here U Scorer.price_re s = option_map token_text (token_at U s).
Proof.
  intros Hs.
  change (match_here U Scorer.price_re s)
    with (let (lo, hi) := bounds Plus (run_length U digit_or_comma s) in
          if (hi <? lo)%nat then None
          else backtrack
                 (match_here U [(Single (IChar 46%N), Opt); (Single IDigit, Star)])
                 s lo hi).
  cbn [bounds]. destruct (run_digit_or_comma s Hs) as [H1 H2].
  unfold token_at.
  destruct (run_length U digit_or_comma s) as [|n] eqn:En.
  - cbn [firstn] in H1.
    destruct (take_digits U s) as [ip rest]. cbn [fst] in H1. now subst ip.
  - pose proof (run_digit_or_comma_pos s n Hs En) as Hne.
    change (S n <? 1)%nat with false. cbv iota.
    erewrite backtrack_first by apply match_here_fraction.
    rewrite H1, H2.
    pose proof (take_digits_rest s) as Hrest.
    destruct (take_digits U s) as [ip rest]. cbn [fst snd] in *.
    destruct ip as [|c ip]; [congruence|].
    cbn [option_map]. unfold token_text. cbn [int_part frac_part].
    destruct (Num.after_point rest) as [t|]; cbn [option_map].
    + reflexivity.
    + now rewrite Hrest.
Qed.

Lemma search_price s :
  ~ In 44%N s ->
  search U Scorer.price_re s = option_map token_text (first_numeric_token U s).
Proof.
  induction s as [|c s IH]; intros Hs.
  - reflexivity.
  - cbn [search first_numeric_token]. rewrite (match_here_price _ Hs).
    destruct (token_at U (c :: s)); [reflexivity|].
    apply IH. intros H. apply Hs. now right.
Qed.

(** [[\d,]+] in a string without commas. *)
Lemma search_reviews s :
  ~ In 44%N s ->
  search U Scorer.reviews_re s = first_digit_run U s.
Proof.
  induction s as [|c s IH]; intros Hs.
  - reflexivity.
  - cbn [search first_digit_run].
    change (match_here U Scorer.reviews_re (c :: s))
      with (let (lo, hi) := bounds Plus (run_length U digit_or_comma (c :: s)) in
            if (hi <? lo)%nat then None
            else backtrack (match_here U []) (c :: s) lo hi).
    cbn [bounds]. destruct (run_digit_or_comma (c :: s) Hs) as [H1 H2].
    destruct (run_length U digit_or_comma (c :: s)) as [|n] eqn:En.
    + cbn [firstn] in H1.
      destruct (take_digits U (c :: s)) as [ds rest]. cbn [fst] in H1. subst ds.
      apply IH. intros H. apply Hs. now right.
    + pose proof (run_digit_or_comma_pos (c :: s) n Hs En) as Hne.
      change (S n <? 1)%nat with false. cbv iota.
      rewrite (backtrack_first _ _ _ _ []) by reflexivity.
      rewrite app_nil_r, H1.
      destruct (take_digits U (c :: s)) as [ds rest]. cbn [fst] in *.
      destruct ds; [congruence|reflexivity].
Qed.
End Patterns.

End ReFacts.

(** ** Reading a run of digits with [int] and a numeric token with [float] *)

Module NumFacts.
Import Py Num Spec Aux.

Lemma c_isdigit_ascii d : (d <= 9)%N -> c_isdigit (48 + d) = true.
Proof.
  intros H. unfold c_isdigit. apply andb_true_intro. split; apply N.leb_le; lia.
Qed.

Lemma span_digits_ascii ds rest :
  small ds ->
  span_digits (ascii_digits ds ++ rest) =
  (ds ++ fst (span_digits rest), snd (span_digits rest)).
Proof.
  induction 1 as [|d ds Hd Hds IH]; cbn [ascii_digits map app].
  - now destruct (span_digits rest).
  - cbn [span_digits]. rewrite (c_isdigit_ascii d Hd).
    fold (ascii_digits ds). rewrite IH. cbn [app]. f_equal. f_equal. lia.
Qed.

Lemma span_digits_ascii_all ds :
  small ds -> span_digits (ascii_digits ds) = (ds, []).
Proof.
  intros H. rewrite <- (app_nil_r (ascii_digits ds)).
  rewrite (span_digits_ascii ds [] H). cbn. now rewrite app_nil_r.
Qed.

Lemma scan_int_digits_ascii ds :
  small ds -> forall prev, prev <> 95%N ->
  scan_int_digits prev (ascii_digits ds) = Some (ds, []).
Proof.
  induction 1 as [|d ds Hd Hds IH]; intros prev Hprev; cbn [ascii_digits map].
  - cbn. apply N.eqb_neq in Hprev. now rewrite Hprev.
  - cbn [scan_int_digits]. rewrite (c_isdigit_ascii d Hd).
    fold (ascii_digits ds). rewrite IH by lia. do 3 f_equal. lia.
Qed.

Lemma has_underscore_ascii ds rest :
  small ds ->
  has_underscore (ascii_digits ds ++ rest) = has_underscore rest.
Proof.
  induction 1 as [|d ds Hd Hds IH]; [reflexivity|].
  cbn [ascii_digits map app has_underscore]. fold (ascii_digits ds).
  nfalse (48 + d =? 0)%N.
  nfalse (48 + d =? 95)%N.
  exact IH.
Qed.

Lemma has_underscore_numeral ip fp :
  small ip -> small (places fp) -> has_underscore (numeral ip fp) = false.
Proof.
  intros Hi Hf. unfold numeral. rewrite (has_underscore_ascii ip _ Hi).
  destruct fp as [f|]; [|reflexivity].
  cbn [has_underscore N.eqb Pos.eqb orb].
  rewrite <- (app_nil_r (ascii_digits f)).
  now rewrite (has_underscore_ascii f [] Hf).
Qed.

Lemma skip_space_digit d s :
  (d <= 9)%N -> skip_space ((48 + d)%N :: s) = (48 + d)%N :: s.
Proof.
  intros H. cbn [skip_space]. unfold c_isspace.
  nfalse (48 + d <=? 13)%N.
  nfalse (48 + d =? 32)%N.
  now rewrite andb_false_r.
Qed.

Lemma parse_sign_digit d s :
  (d <= 9)%N -> parse_sign ((48 + d)%N :: s) = (false, (48 + d)%N :: s).
Proof.
  intros H. cbn [parse_sign].
  nfalse (48 + d =? 45)%N.
  nfalse (48 + d =? 43)%N.
  reflexivity.
Qed.

Lemma ascii_lower_digit d : (d <= 9)%N -> ascii_lower (48 + d) = (48 + d)%N.
Proof.
  intros H. unfold ascii_lower.
  nfalse (65 <=? 48 + d)%N.
  reflexivity.
Qed.

Lemma parse_inf_or_nan_digit d s :
  (d <= 9)%N -> parse_inf_or_nan ((48 + d)%N :: s) = None.
Proof.
  intros H. unfold parse_inf_or_nan. rewrite (parse_sign_digit d s H).
  change (lit "inf") with [105; 110; 102]%N.
  change (lit "nan") with [110; 97; 110]%N.
  cbn [case_insensitive_match]. rewrite (ascii_lower_digit d H).
  nfalse (48 + d =? 105)%N.
  nfalse (48 + d =? 110)%N.
  reflexivity.
Qed.

(** Trailing white space is looked for at the end; a numeral has none. *)
Lemma skip_space_rev_numeral ip fp :
  small ip -> small (places fp) ->
  rev (skip_space (rev (numeral ip fp))) = numeral ip fp.
Proof.
  intros Hi Hf.
  assert (Hlast : forall s c, c_isspace c = false ->
                              rev (skip_space (rev (s ++ [c]))) = s ++ [c]).
  { intros s c Hc. rewrite rev_app_distr. cbn [rev app skip_space].
    rewrite Hc. cbn [rev]. now rewrite rev_involutive. }
  assert (Hdig : forall d, (d <= 9)%N -> c_isspace (48 + d) = false).
  { intros d Hd. unfold c_isspace.
    nfalse (48 + d <=? 13)%N.
    nfalse (48 + d =? 32)%N.
    now rewrite andb_false_r. }
  assert (Hdigs : forall ds pre, small ds -> ds <> [] ->
            rev (skip_space (rev (pre ++ ascii_digits ds))) = pre ++ ascii_digits ds).
  { intros ds pre Hds Hne.
    destruct (exists_last Hne) as [ds' [d ->]].
    unfold ascii_digits. rewrite map_app. cbn [map]. rewrite app_assoc.
    apply Hlast, Hdig.
    unfold small in Hds. rewrite Forall_app in Hds. destruct Hds as [_ Hd].
    now inversion Hd. }
  unfold numeral. destruct fp as [f|]; cbn [places] in Hf.
  - destruct f as [|d f].
    + cbn [ascii_digits map]. now apply Hlast.
    + change (ascii_digits ip ++ 46%N :: ascii_digits (d :: f))
        with (ascii_digits ip ++ [46%N] ++ ascii_digits (d :: f)).
      rewrite app_assoc. now apply Hdigs.
  - rewrite app_nil_r. destruct ip as [|d ip]; [reflexivity|].
    now apply (Hdigs (d :: ip) []).
Qed.

Lemma strtod_numeral ip fp :
  small ip -> small (places fp) -> ip <> [] ->
  strtod (numeral ip fp) =
  Some (F64.of_decimal false (digits_value (ip ++ places fp))
                       (- Z.of_nat (List.length (places fp))), []).
Proof.
  intros Hi Hf Hne. unfold strtod, numeral.
  destruct ip as [|d ip]; [congruence|].
  assert (Hd : (d <= 9)%N) by now inversion Hi.
  cbn [ascii_digits map app]. rewrite (parse_sign_digit d _ Hd).
  change ((48 + d)%N :: map (fun d0 => (48 + d0)%N) ip ++ _)
    with (ascii_digits (d :: ip) ++
          match fp with Some f => 46%N :: ascii_digits f | None => [] end).
  rewrite (span_digits_ascii (d :: ip) _ Hi).
  destruct fp as [f|]; cbn [places] in *.
  - cbn [span_digits c_isdigit N.leb N.compare Pos.compare Pos.compare_cont
         andb fst snd after_point N.eqb Pos.eqb].
    rewrite (span_digits_ascii_all f Hf), app_nil_r.
    cbn [app parse_exponent]. now rewrite Z.sub_0_l.
  - cbn [span_digits fst snd after_point]. rewrite !app_nil_r.
    cbn [app parse_exponent List.length]. reflexivity.
Qed.

Lemma float_inner_numeral ip fp :
  small ip -> small (places fp) -> ip <> [] ->
  float_from_string_inner (numeral ip fp) =
  Ok (F64.of_decimal false (digits_value (ip ++ places fp))
                     (- Z.of_nat (List.length (places fp)))).
Proof.
  intros Hi Hf Hne. unfold float_from_string_inner.
  pose proof (skip_space_rev_numeral ip fp Hi Hf) as Hrev.
  pose proof (strtod_numeral ip fp Hi Hf Hne) as Hstr.
  destruct ip as [|d ip]; [congruence|].
  assert (Hd : (d <= 9)%N) by now inversion Hi.
  unfold numeral in *. cbn [ascii_digits map app] in *.
  rewrite (skip_space_digit d _ Hd), Hrev.
  unfold string_to_double. rewrite (parse_inf_or_nan_digit d _ Hd), Hstr.
  reflexivity.
Qed.

Section Unicode.
Variable U : ucd.
Variable max_str_digits : N.

Lemma dec_val_small d : (dec_val d <= 9)%N.
Proof. destruct d; cbn; lia. Qed.

Lemma digit_of_small c : (digit_of U c <= 9)%N.
Proof.
  unfold digit_of, to_decimal, ascii_decimal.
  destruct (is_ascii c).
  - destruct (48 <=? c)%N eqn:H1, (c <=? 57)%N eqn:H2; cbn [andb]; try lia.
    apply N.leb_le in H2. lia.
  - destruct (ucd_class U c); try lia. apply dec_val_small.
Qed.

Lemma small_digits s : small (map (digit_of U) s).
Proof. apply Forall_map, Forall_forall. intros c _. apply digit_of_small. Qed.

Lemma to_decimal_digit_of c :
  is_decimal U c = true -> to_decimal U c = Some (digit_of U c).
Proof.
  unfold is_decimal, digit_of. now destruct (to_decimal U c).
Qed.

Lemma point_not_decimal : is_decimal U 46 = false.
Proof. reflexivity. Qed.

Lemma ascii_form_low c :
  tok_char U c -> (c <? 127)%N = true -> ascii_form U c = c.
Proof.
  intros Hc Hlow. unfold ascii_form.
  destruct (is_decimal U c) eqn:Hd; [|reflexivity].
  unfold digit_of. revert Hd. unfold is_decimal, to_decimal, is_ascii.
  apply N.ltb_lt in Hlow.
  ntrue (c <? 128)%N.
  unfold ascii_decimal.
  destruct (48 <=? c)%N eqn:H1, (c <=? 57)%N eqn:H2; cbn [andb];
    try discriminate.
  intros _. apply N.leb_le in H1. lia.
Qed.

Lemma tok_char_high c :
  tok_char U c -> (c <? 127)%N = false ->
  unicode_isspace U c = false /\ is_decimal U c = true.
Proof.
  intros [Hd| ->] Hhigh; [|discriminate Hhigh].
  split; [|exact Hd].
  revert Hd. unfold is_decimal, to_decimal, unicode_isspace.
  destruct (is_ascii c) eqn:Ha.
  - unfold is_ascii in Ha. apply N.ltb_lt in Ha. apply N.ltb_ge in Hhigh.
    assert (c = 127%N) as -> by lia. discriminate.
  - now destruct (ucd_class U c).
Qed.

Lemma tok_char_ascii c :
  tok_char U c -> is_ascii c = true -> (c <? 127)%N = true.
Proof.
  intros Hc Ha. destruct (c <? 127)%N eqn:Hlow; [reflexivity|].
  destruct (tok_char_high c Hc Hlow) as [_ Hd].
  unfold is_ascii in Ha. apply N.ltb_lt in Ha. apply N.ltb_ge in Hlow.
  assert (c = 127%N) as -> by lia. discriminate.
Qed.

Lemma transform_chars_token s :
  Forall (tok_char U) s -> transform_chars U s = map (ascii_form U) s.
Proof.
  induction 1 as [|c s Hc Hs IH]; [reflexivity|].
  cbn [transform_chars map]. destruct (c <? 127)%N eqn:Hlow.
  - now rewrite IH, (ascii_form_low c Hc Hlow).
  - destruct (tok_char_high c Hc Hlow) as [Hsp Hd].
    rewrite Hsp, (to_decimal_digit_of c Hd), IH.
    unfold ascii_form. now rewrite Hd.
Qed.

Lemma transform_token s :
  Forall (tok_char U) s -> transform_decimal_and_space U s = map (ascii_form U) s.
Proof.
  intros Hs. unfold transform_decimal_and_space.
  destruct (forallb is_ascii s) eqn:Ha.
  - rewrite forallb_forall in Ha. rewrite Forall_forall in Hs.
    symmetry. rewrite <- (map_id s) at 2. apply map_ext_in.
    intros c Hc. apply ascii_form_low; [now apply Hs|].
    apply tok_char_ascii; [now apply Hs | now apply Ha].
  - now apply transform_chars_token.
Qed.

Lemma ascii_form_decimals s :
  decimals U s -> map (ascii_form U) s = ascii_digits (map (digit_of U) s).
Proof.
  intros Hs. unfold ascii_digits. rewrite map_map. apply map_ext_in.
  intros c Hc. unfold decimals in Hs. rewrite Forall_forall in Hs.
  unfold ascii_form. now rewrite (Hs c Hc).
Qed.

(** [int] on a non-empty run of digits: its value, unless the run is
    longer than the interpreter allows. *)
Lemma int_digit_run ds :
  decimals U ds -> ds <> [] ->
  Num.int U max_str_digits ds =
  if too_long max_str_digits ds then Raise ValueError else Ok (Z.of_N (run_value U ds)).
Proof.
  intros Hds Hne. unfold Num.int.
  rewrite transform_token
    by (eapply Forall_impl; [|exact Hds]; intros c Hc; now left).
  rewrite (ascii_form_decimals ds Hds).
  destruct ds as [|c ds]; [congruence|].
  pose proof (small_digits (c :: ds)) as Hsmall.
  pose proof (scan_int_digits_ascii (map (digit_of U) (c :: ds)) Hsmall 0%N)
    as Hscan.
  cbn [map ascii_digits] in *.
  rewrite (skip_space_digit _ _ (digit_of_small c)).
  rewrite (parse_sign_digit _ _ (digit_of_small c)).
  cbn [startswith].
  replace (95 =? 48 + digit_of U c)%N with false
    by (symmetry; apply N.eqb_neq; pose proof (digit_of_small c); lia).
  cbn [andb]. rewrite Hscan by discriminate.
  unfold too_long. cbn [List.length]. rewrite length_map.
  destruct (_ && _ && _); reflexivity.
Qed.

Lemma token_text_chars t : well_formed U t -> Forall (tok_char U) (token_text t).
Proof.
  intros (_ & Hi & Hf). unfold token_text, frac_digits in *.
  apply Forall_app. split.
  - eapply Forall_impl; [|exact Hi]. intros c Hc. now left.
  - destruct (frac_part t) as [f|]; [|constructor].
    constructor; [now right|].
    eapply Forall_impl; [|exact Hf]. intros c Hc. now left.
Qed.

(** [float] on a numeric token never fails and yields the value the
    token writes. *)
Lemma float_token t :
  well_formed U t -> Num.float U (token_text t) = Ok (token_value U t).
Proof.
  intros Ht. pose proof (token_text_chars t Ht) as Hchars.
  destruct Ht as (Hne & Hi & Hf).
  unfold Num.float. rewrite (transform_token _ Hchars).
  assert (Hnum : map (ascii_form U) (token_text t) =
                 numeral (map (digit_of U) (int_part t))
                         (option_map (map (digit_of U)) (frac_part t))).
  { unfold token_text, numeral, frac_digits in *. rewrite map_app.
    rewrite (ascii_form_decimals _ Hi). f_equal.
    destruct (frac_part t) as [f|]; [|reflexivity].
    cbn [map option_map]. rewrite (ascii_form_decimals _ Hf).
    unfold ascii_form at 1. now rewrite point_not_decimal. }
  rewrite Hnum.
  assert (Hplaces : places (option_map (map (digit_of U)) (frac_part t)) =
                    map (digit_of U) (frac_digits t)).
  { unfold frac_digits. now destruct (frac_part t). }
  unfold number_with_underscores.
  rewrite has_underscore_numeral
    by (rewrite ?Hplaces; apply small_digits).
  rewrite float_inner_numeral; cycle 1.
  - apply small_digits.
  - rewrite Hplaces. apply small_digits.
  - destruct (int_part t); [congruence|discriminate].
  - unfold token_value, run_value.
    now rewrite Hplaces, map_app, length_map.
Qed.

Lemma take_digits_decimals s : decimals U (fst (take_digits U s)).
Proof.
  induction s as [|c s IH]; [constructor|].
  cbn [take_digits]. destruct (is_decimal U c) eqn:Hc; [|constructor].
  destruct (take_digits U s) as [ds rest]. now constructor.
Qed.

Lemma token_at_well_formed s t : token_at U s = Some t -> well_formed U t.
Proof.
  unfold token_at. pose proof (take_digits_decimals s) as Hd.
  destruct (take_digits U s) as [ip rest]. cbn [fst] in Hd.
  destruct ip as [|c ip]; [discriminate|].
  intros [= <-]. unfold well_formed, frac_digits. cbn [int_part frac_part].
  split; [discriminate|]. split; [exact Hd|].
  destruct (after_point rest) as [r|]; cbn [option_map].
  - apply take_digits_decimals.
  - constructor.
Qed.

Lemma first_numeric_token_well_formed s t :
  first_numeric_token U s = Some t -> well_formed U t.
Proof.
  induction s as [|c s IH]; cbn [first_numeric_token].
  - destruct (token_at U []) eqn:E; [|discriminate].
    intros [= <-]. now apply (token_at_well_formed []).
  - destruct (token_at U (c :: s)) eqn:E; [|exact IH].
    intros [= <-]. now apply (token_at_well_formed (c :: s)).
Qed.

Lemma first_digit_run_decimals s ds :
  first_digit_run U s = Some ds -> decimals U ds /\ ds <> [].
Proof.
  induction s as [|c s IH]; [discriminate|].
  cbn [first_digit_run]. pose proof (take_digits_decimals (c :: s)) as Hd.
  destruct (take_digits U (c :: s)) as [run rest]. cbn [fst] in Hd.
  destruct run as [|d run]; [exact IH|].
  intros [= <-]. split; [exact Hd|discriminate].
Qed.

End Unicode.

End NumFacts.

(** ** Floats *)

Module F64Facts.

Lemma mul_comm x y : F64.mul x y = F64.mul y x.
Proof.
  unfold F64.mul.
  destruct x as [sx|sx| |sx mx ex], y as [sy|sy| |sy my ey]; cbn [SFmul];
    try reflexivity; try (now rewrite xorb_comm).
  now rewrite xorb_comm, Pos.mul_comm, Z.add_comm.
Qed.

(** A count between 0 and 5 converts to a float without overflow. *)
Lemma float_of_int_small n :
  (0 <= n <= 5)%Z -> float_of_int n = Ok (F64.of_Z n).
Proof.
  intros H.
  assert (n = 0 \/ n = 1 \/ n = 2 \/ n = 3 \/ n = 4 \/ n = 5)%Z
    as [-> | [-> | [-> | [-> | [-> | ->]]]]] by lia; reflexivity.
Qed.

Lemma int_mul_float_small n x :
  (0 <= n <= 5)%Z -> int_mul_float n x = Ok (F64.mul x (F64.of_Z n)).
Proof.
  intros H. unfold int_mul_float. rewrite (float_of_int_small n H).
  cbn [rbind]. now rewrite mul_comm.
Qed.

(** The confidence of a count between 1 and 5 lies between 0.75 and 0.95,
    so above 0.4. *)
Lemma conf_of_count_bounds n :
  (1 <= n <= 5)%Z ->
  F64.leb Lit.f0_75 (Spec.conf_of_count n) = true /\
  F64.leb (Spec.conf_of_count n) Lit.f0_95 = true /\
  F64.leb Lit.f0_4 (Spec.conf_of_count n) = true.
Proof.
  intros H.
  assert (n = 1 \/ n = 2 \/ n = 3 \/ n = 4 \/ n = 5)%Z
    as [-> | [-> | [-> | [-> | ->]]]] by lia;
    repeat split; vm_compute; reflexivity.
Qed.

End F64Facts.

(** ** The rules of the scorer and the verdicts of the specification *)

Module ScorerFacts.
Import Py Spec Aux.

Section Rules.
Variable U : ucd.
Variable max_str_digits : N.

Lemma title_rule_verdict p st :
  Scorer.title_rule U p st =
  Done (apply_verdict (title_verdict U (title p)) st).
Proof.
  unfold Scorer.title_rule, title_verdict, contains_nocase.
  now destruct (existsb _ _).
Qed.

Lemma price_rule_verdict p st :
  Scorer.price_rule U p st =
  Done (apply_verdict (price_verdict U (price p)) st).
Proof.
  unfold Scorer.price_rule, price_verdict, strip_dollar_comma.
  destruct (price p) as [|c s] eqn:Hp; [reflexivity|].
  rewrite ReFacts.search_price by apply PyFacts.remove_char_absent.
  destruct (first_numeric_token U _) as [t|] eqn:Ht; cbn [option_map];
    [|reflexivity].
  unfold try_except_pass, eval.
  rewrite (NumFacts.float_token U t
             (NumFacts.first_numeric_token_well_formed U _ t Ht)).
  destruct (F64.ltb _ _); [reflexivity|].
  now destruct (F64.gtb_Z _ _).
Qed.

Lemma seller_rule_verdict p st :
  Scorer.seller_rule U p st =
  Done (apply_verdict (seller_verdict U (seller p)) st).
Proof.
  unfold Scorer.seller_rule, seller_verdict, contains_nocase.
  destruct (seller p) as [|c s]; [reflexivity|].
  destruct (_ || _ || _); [reflexivity|].
  now destruct (_ || _).
Qed.

Lemma rating_rule_verdict p st :
  Scorer.rating_rule U p st =
  Done (apply_verdict (rating_verdict U (rating p)) st).
Proof.
  unfold Scorer.rating_rule, rating_verdict.
  destruct (rating p) as [|c s]; [reflexivity|].
  unfold try_except_pass, eval.
  destruct (Num.float U (c :: s)) as [v|e]; [|reflexivity].
  destruct (F64.ltb _ _); [reflexivity|].
  now destruct (F64.gtb _ _).
Qed.

Lemma reviews_rule_verdict p st :
  Scorer.reviews_rule U max_str_digits p st =
  Done (apply_verdict (reviews_verdict U max_str_digits (reviews_count p)) st).
Proof.
  unfold Scorer.reviews_rule, reviews_verdict, strip_comma.
  destruct (reviews_count p) as [|c s] eqn:Hp; [reflexivity|].
  rewrite ReFacts.search_reviews by apply PyFacts.remove_char_absent.
  destruct (first_digit_run U _) as [ds|] eqn:Hds; [|reflexivity].
  destruct (NumFacts.first_digit_run_decimals U _ ds Hds) as [Hdec Hne].
  unfold try_except_pass, eval.
  rewrite (NumFacts.int_digit_run U max_str_digits ds Hdec Hne).
  destruct (too_long max_str_digits ds); [reflexivity|].
  destruct (_ <? 5)%Z; [reflexivity|].
  now destruct (_ >? 50)%Z.
Qed.

(** The five rules in sequence never raise and apply the five verdicts in
    order. *)
Lemma rules_verdicts p st :
  Scorer.rules U max_str_digits p st =
  Done (fold_left (fun l v => apply_verdict v l)
                  (verdicts U max_str_digits p) st).
Proof.
  unfold Scorer.rules, seq, verdicts.
  rewrite title_rule_verdict, price_rule_verdict, seller_rule_verdict,
    rating_rule_verdict, reviews_rule_verdict.
  reflexivity.
Qed.

(** What a sequence of verdicts leaves in the local variables. *)
Lemma fold_verdicts vs : forall st,
  let st' := fold_left (fun l v => apply_verdict v l) vs st in
  Var.reasons st' = Var.reasons st ++ flat_map reason_of vs /\
  Var.scam_indicators st' =
    (Var.scam_indicators st + fold_right Z.add 0 (map scam_of vs))%Z /\
  Var.legit_indicators st' =
    (Var.legit_indicators st + fold_right Z.add 0 (map legit_of vs))%Z.
Proof.
  induction vs as [|v vs IH]; intros st; cbn [fold_left flat_map map fold_right].
  - now rewrite app_nil_r, !Z.add_0_r.
  - destruct (IH (apply_verdict v st)) as (Hr & Hs & Hl).
    cbv zeta. rewrite Hr, Hs, Hl.
    destruct v;
      cbn [apply_verdict scam_added legit_added Var.reasons
           Var.scam_indicators Var.legit_indicators reason_of scam_of
           legit_of app];
      rewrite <- ?app_assoc; repeat split; try reflexivity; lia.
Qed.

Lemma title_verdict_not_legit t : legit_of (title_verdict U t) = 0%Z.
Proof. unfold title_verdict. now destruct (existsb _ _). Qed.

(** The counts the rules end with: at most five scam and four legit
    indicators. *)
Lemma rules_counts p :
  exists vars,
    Scorer.rules U max_str_digits p Scorer.initial = Done vars /\
    Var.reasons vars = flat_map reason_of (verdicts U max_str_digits p) /\
    (0 <= Var.scam_indicators vars <= 5)%Z /\
    (0 <= Var.legit_indicators vars <= 4)%Z /\
    Z.of_nat (List.length (Var.reasons vars)) =
      (Var.scam_indicators vars + Var.legit_indicators vars)%Z /\
    Var.scam_indicators vars =
      fold_right Z.add 0%Z (map scam_of (verdicts U max_str_digits p)) /\
    Var.legit_indicators vars =
      fold_right Z.add 0%Z (map legit_of (verdicts U max_str_digits p)).
Proof.
  eexists. split; [apply rules_verdicts|].
  destruct (fold_verdicts (verdicts U max_str_digits p) Scorer.initial)
    as (Hr & Hs & Hl).
  cbv zeta in *. rewrite Hr, Hs, Hl. cbn [Scorer.initial Var.reasons
    Var.scam_indicators Var.legit_indicators app].
  unfold verdicts. cbn [map fold_right flat_map].
  pose proof (title_verdict_not_legit (title p)) as Ht.
  destruct (title_verdict U (title p)), (price_verdict U (price p)),
    (seller_verdict U (seller p)), (rating_verdict U (rating p)),
    (reviews_verdict U max_str_digits (reviews_count p));
    cbn in Ht; try discriminate Ht; cbn; repeat split; lia.
Qed.

Lemma apply_verdict_step v st : rule_step st (apply_verdict v st).
Proof.
  destruct v as [|r|r]; [now left| |]; right; exists r; [now left|now right].
Qed.

Lemma rules_by_verdicts p : rules_follow_verdicts U max_str_digits p.
Proof.
  intros st. repeat split.
  - apply title_rule_verdict.
  - apply price_rule_verdict.
  - apply seller_rule_verdict.
  - apply rating_rule_verdict.
  - apply reviews_rule_verdict.
Qed.

Lemma rules_step p : each_rule_steps U max_str_digits p.
Proof.
  intros st. repeat split; eexists; (split; [|apply apply_verdict_step]).
  - apply title_rule_verdict.
  - apply price_rule_verdict.
  - apply seller_rule_verdict.
  - apply rating_rule_verdict.
  - apply reviews_rule_verdict.
Qed.

(** Aggregation, for counts in the range the rules can reach. *)
Lemma final_status_small s l :
  (0 <= s <= 5)%Z -> (0 <= l <= 5)%Z ->
  Scorer.final_status s l =
  Ok (if (s >? l)%Z then (scam, conf_of_count s)
      else if (l >? s)%Z then (legit, conf_of_count l)
      else (uncertain, Lit.f0_4)).
Proof.
  intros Hs Hl. unfold Scorer.final_status, conf_of_count.
  destruct (s >? l)%Z.
  - now rewrite (F64Facts.int_mul_float_small s _ Hs).
  - destruct (l >? s)%Z; [|reflexivity].
    now rewrite (F64Facts.int_mul_float_small l _ Hl).
Qed.

End Rules.

End ScorerFacts.

(** ** The handler *)

Module HandlerFacts.
Import Py Spec Handler.

Section Endpoint.
Variable U : ucd.
Variable max_str_digits : N.
Variable requests_post :
  list N -> list (list N * list N) -> list (list N * list N) -> result Response.

(** The scorer always returns. *)
Lemma scorer_returns p :
  exists a, Scorer.analyze_product_legitimacy U max_str_digits p = Ok a /\
            ai_analysis a = None /\ ai_error a = None.
Proof.
  destruct (ScorerFacts.rules_counts U max_str_digits p)
    as (vars & Hrules & _ & Hs & Hl & _ & _ & _).
  unfold Scorer.analyze_product_legitimacy. rewrite Hrules.
  rewrite ScorerFacts.final_status_small by lia.
  cbn [rbind]. eexists. repeat split.
Qed.

(** The handler answers 200 with the dictionary the inner block leaves,
    when that block does not raise. *)
Lemma analyze_product_done p a a' :
  Scorer.analyze_product_legitimacy U max_str_digits p = Ok a ->
  strip U (combined_text p) <> [] ->
  ai_detection requests_post (combined_text p) a = Done a' ->
  analyze_product U max_str_digits requests_post p =
  Http200 {| success := true; analysis := a';
             product_info := (title p, url p) |}.
Proof.
  intros Ha Hstrip Hai. unfold analyze_product. rewrite Ha. cbn [rbind].
  fold (combined_text p).
  destruct (strip U (combined_text p)) as [|c s]; [congruence|].
  unfold run. rewrite Hai. reflexivity.
Qed.

(** The first three lines of the inner block are the detector client. *)
Lemma ai_detection_detect text a :
  ai_detection requests_post text a =
  match detect requests_post text with
  | Raise (RequestException msg) => set_ai_error msg a
  | Raise e => Raised e a
  | Ok ai_result =>
      match
        seq (set_ai_analysis ai_result)
          (eval (py_in (lit "score") ai_result) (fun has_score =>
             if has_score
             then eval (py_get ai_result (lit "score") (PFloat Lit.f0_5))
                    (fun ai_score =>
                       eval (py_gt_float ai_score Lit.f0_7) (fun high =>
                         if high
                         then seq
                                (read (fun analysis_result =>
                                   if status_eqb (status analysis_result) legit
                                   then seq (set_status uncertain)
                                          (read (fun analysis_result =>
                                             set_confidence
                                               (F64.max Lit.f0_3
                                                  (F64.sub
                                                     (confidence analysis_result)
                                                     Lit.f0_2))))
                                   else skip))
                                (append_reason ai_reason)
                         else skip))
             else skip)) a
      with
      | Raised (RequestException msg) st => set_ai_error msg st
      | o => o
      end
  end.
Proof.
  unfold ai_detection, detect, try_except_request, eval.
  destruct (requests_post _ _ _) as [r|e]; cbn [rbind].
  - destruct (raise_for_status r) as [[]|e]; cbn [rbind].
    + destruct (json r) as [j|e]; [reflexivity|]. now destruct e.
    + now destruct e.
  - now destruct e.
Qed.

(** The inner block on an answer that is an object with a numeric score. *)
Lemma ai_detection_score text a d v :
  detect requests_post text = Ok (PDict d) ->
  dict_get d (lit "score") = Some v ->
  numeric v ->
  ai_detection requests_post text a = Done (blend (PDict d) v a).
Proof.
  intros Hdet Hget Hnum. rewrite ai_detection_detect, Hdet.
  unfold seq, eval, read, set_ai_analysis, update, py_in, py_get.
  rewrite Hget. unfold blend.
  destruct v as [| | z | x | | |]; try contradiction; cbn [py_gt_float exceeds].
  - destruct (F64.Z_gtb z Lit.f0_7); [|reflexivity].
    cbn [status]. now destruct (status_eqb (status a) legit).
  - destruct (F64.gtb x Lit.f0_7); [|reflexivity].
    cbn [status]. now destruct (status_eqb (status a) legit).
Qed.

(** The inner block when the detector client raises a transport error. *)
Lemma ai_detection_transport_error text a msg :
  detect requests_post text = Raise (RequestException msg) ->
  ai_detection requests_post text a =
  Done {| status := status a; confidence := confidence a;
          reasons := reasons a; indicators := indicators a;
          ai_analysis := ai_analysis a; ai_error := Some msg |}.
Proof.
  intros Hdet. now rewrite ai_detection_detect, Hdet.
Qed.

End Endpoint.

End HandlerFacts.

(** ** Phrases in any letter case *)

Module CaseFacts.
Import Py Spec Aux.

Lemma startswith_app w rest : startswith w (w ++ rest) = true.
Proof.
  induction w as [|c w IH]; [reflexivity|].
  cbn [app startswith]. now rewrite N.eqb_refl, IH.
Qed.

Lemma contains_app w pre rest : contains w (pre ++ w ++ rest) = true.
Proof.
  induction pre as [|c pre IH].
  - cbn [app]. destruct (w ++ rest) eqn:E; cbn [contains];
      rewrite <- E, startswith_app; reflexivity.
  - cbn [app contains]. rewrite IH. apply orb_true_r.
Qed.

(** Lower-casing what precedes a piece of text leaves the lower-casing of
    the piece in place behind it. *)
Lemma lower_from_skip U pre : forall before rest,
  exists X, lower_from U before (pre ++ rest) =
            X ++ lower_from U (before ++ pre) rest.
Proof.
  induction pre as [|c pre IH]; intros before rest.
  - exists []. cbn [app]. now rewrite app_nil_r.
  - cbn [app lower_from].
    destruct (IH (before ++ [c]) rest) as [X HX]. rewrite HX.
    rewrite <- (app_assoc before [c] pre). cbn [app].
    eexists. now rewrite app_assoc.
Qed.

Lemma lower_from_ascii_app U w : forall before rest,
  forallb is_ascii w = true ->
  lower_from U before (w ++ rest) =
  map ascii_lower w ++ lower_from U (before ++ w) rest.
Proof.
  induction w as [|c w IH]; intros before rest Hw.
  - cbn [app map]. now rewrite app_nil_r.
  - cbn [forallb] in Hw. apply andb_prop in Hw. destruct Hw as [Hc Hw].
    cbn [app lower_from map]. rewrite Hc. cbn [app].
    rewrite (IH _ _ Hw), <- (app_assoc before [c] w). reflexivity.
Qed.

(** Characters that lower-case to ASCII by the ASCII rule are ASCII. *)
Lemma ascii_of_lowered w :
  forallb is_ascii (map ascii_lower w) = true -> forallb is_ascii w = true.
Proof.
  induction w as [|c w IH]; [reflexivity|].
  cbn [map forallb]. intros H. apply andb_prop in H. destruct H as [Hc Hw].
  rewrite (IH Hw), andb_true_r.
  unfold ascii_lower, is_ascii in *.
  destruct ((65 <=? c)%N && (c <=? 90)%N) eqn:E; [|exact Hc].
  apply andb_prop in E. destruct E as [_ E]. apply N.leb_le in E.
  apply N.ltb_lt. lia.
Qed.

(** A piece of text that lower-cases to an ASCII phrase is found in the
    lower-cased text, whatever stands around it. *)
Lemma contains_nocase_occurrence U phrase pre w post :
  forallb is_ascii phrase = true ->
  map ascii_lower w = phrase ->
  contains_nocase U phrase (pre ++ w ++ post) = true.
Proof.
  intros Hphrase Hw. unfold contains_nocase, lower.
  assert (Hascii : forallb is_ascii w = true)
    by (apply ascii_of_lowered; now rewrite Hw).
  destruct (lower_from_skip U pre [] (w ++ post)) as [X HX].
  rewrite HX, (lower_from_ascii_app U w _ _ Hascii), Hw.
  apply contains_app.
Qed.

End CaseFacts.

(** ** The first number of a text *)

Module TokenFacts.
Import Py Spec Aux.

Lemma take_digits_run U ds post :
  decimals U ds -> starts_with_digit U post = false ->
  take_digits U (ds ++ post) = (ds, post).
Proof.
  induction 1 as [|c ds Hc Hds IH]; intros Hpost.
  - cbn [app]. destruct post as [|d post]; [reflexivity|].
    cbn [take_digits]. cbn [starts_with_digit] in Hpost. now rewrite Hpost.
  - cbn [app take_digits]. rewrite Hc, (IH Hpost). reflexivity.
Qed.

Lemma token_at_no_digit U c s :
  is_decimal U c = false -> token_at U (c :: s) = None.
Proof. intros Hc. unfold token_at. cbn [take_digits]. now rewrite Hc. Qed.

Lemma first_numeric_token_skip U pre s :
  no_digit U pre ->
  first_numeric_token U (pre ++ s) = first_numeric_token U s.
Proof.
  induction 1 as [|c pre Hc Hpre IH]; [reflexivity|].
  cbn [app first_numeric_token]. now rewrite (token_at_no_digit U c _ Hc).
Qed.

Lemma first_digit_run_skip U pre s :
  no_digit U pre ->
  first_digit_run U (pre ++ s) = first_digit_run U s.
Proof.
  induction 1 as [|c pre Hc Hpre IH]; [reflexivity|].
  cbn [app first_digit_run take_digits]. now rewrite Hc.
Qed.

Lemma first_numeric_token_here U s t :
  token_at U s = Some t -> first_numeric_token U s = Some t.
Proof. intros H. destruct s; cbn [first_numeric_token]; now rewrite H. Qed.

(** The token a text starts with, from how the text is made up. *)
Lemma token_at_token U t post :
  well_formed U t ->
  starts_with_digit U post = false ->
  (frac_part t = None -> Num.after_point post = None) ->
  token_at U (token_text t ++ post) = Some t.
Proof.
  intros (Hne & Hi & Hf) Hpost Hpoint.
  destruct t as [ip fp]. unfold token_text, frac_digits in *.
  cbn [int_part frac_part] in *. unfold token_at. rewrite <- app_assoc.
  rewrite (take_digits_run U ip _ Hi).
  - destruct ip as [|c ip]; [congruence|].
    destruct fp as [f|].
    + cbn [app Num.after_point N.eqb Pos.eqb option_map].
      now rewrite (take_digits_run U f post Hf Hpost).
    + cbn [app]. now rewrite (Hpoint eq_refl).
  - destruct fp as [f|]; [reflexivity|exact Hpost].
Qed.

Lemma first_digit_run_here U ds post :
  decimals U ds -> ds <> [] -> starts_with_digit U post = false ->
  first_digit_run U (ds ++ post) = Some ds.
Proof.
  intros Hds Hne Hpost.
  pose proof (take_digits_run U ds post Hds Hpost) as H.
  destruct ds as [|c ds]; [congruence|].
  cbn [app] in *. cbn [first_digit_run]. now rewrite H.
Qed.

End TokenFacts.

(** ** Rounding keeps the sign *)

Module RoundFacts.
Import Py Spec Aux.

Lemma shr_1_nonneg mrs : (0 <= shr_m mrs)%Z -> (0 <= shr_m (shr_1 mrs))%Z.
Proof.
  destruct mrs as [m r s]. cbn [shr_m]. intros H.
  destruct m as [|p|p]; [cbn; lia| |lia].
  destruct p; cbn; lia.
Qed.

Lemma iter_shr_1_nonneg p : forall mrs,
  (0 <= shr_m mrs)%Z -> (0 <= shr_m (iter_pos shr_1 p mrs))%Z.
Proof.
  induction p as [p IH|p IH|]; intros mrs H; cbn [iter_pos].
  - apply IH, IH, shr_1_nonneg, H.
  - apply IH, IH, H.
  - apply shr_1_nonneg, H.
Qed.

Lemma shr_fexp_nonneg m e l :
  (0 <= m)%Z -> (0 <= shr_m (fst (shr_fexp F64.prec F64.emax m e l)))%Z.
Proof.
  intros H. unfold shr_fexp, shr.
  assert (H0 : (0 <= shr_m (shr_record_of_loc m l))%Z)
    by (destruct l as [|[| |]]; exact H).
  destruct (_ - e)%Z; cbn [fst]; try exact H0.
  now apply iter_shr_1_nonneg.
Qed.

Lemma round_nearest_even_nonneg m l :
  (0 <= m)%Z -> (0 <= round_nearest_even m l)%Z.
Proof.
  intros H. unfold round_nearest_even.
  destruct l as [|[| |]]; try lia. destruct (Z.even m); lia.
Qed.

(** Rounding a mantissa that is not negative gives no NaN and keeps the
    sign. *)
Lemma binary_round_aux_unsigned m e l :
  (0 <= m)%Z ->
  unsigned_number (binary_round_aux F64.prec F64.emax false m e l).
Proof.
  intros H. unfold binary_round_aux.
  pose proof (shr_fexp_nonneg m e l H) as H1.
  destruct (shr_fexp F64.prec F64.emax m e l) as [mrs' e'].
  cbn [fst] in H1.
  pose proof (shr_fexp_nonneg _ e' loc_Exact
                (round_nearest_even_nonneg _ (loc_of_shr_record mrs') H1)) as H2.
  destruct (shr_fexp F64.prec F64.emax _ e' loc_Exact) as [mrs'' e''].
  cbn [fst] in H2.
  destruct (shr_m mrs'') as [|q|q]; [exact I| |lia].
  now destruct (e'' <=? _)%Z.
Qed.

Lemma of_decimal_unsigned m e : unsigned_number (F64.of_decimal false m e).
Proof.
  unfold F64.of_decimal. destruct m as [|p]; [exact I|].
  destruct e as [|k|k].
  - unfold binary_round.
    destruct (shl_align _ _ _) as [mz ez]. now apply binary_round_aux_unsigned.
  - unfold binary_round.
    destruct (shl_align _ _ _) as [mz ez]. now apply binary_round_aux_unsigned.
  - unfold SFdiv.
    assert (Hq : (0 <= fst (fst (SFdiv_core_binary F64.prec F64.emax
                                   (Z.pos p) 0 (Z.pos (10 ^ k)) 0)))%Z).
    { unfold SFdiv_core_binary.
      set (s := (_ - _ - _)%Z).
      set (m' := match s with Z0 => _ | Zpos _ => _ | Zneg _ => _ end).
      assert (Hm : (0 <= m')%Z).
      { subst m'. destruct s; try lia. apply Z.shiftl_nonneg. lia. }
      pose proof (Z_div_mod m' (Z.pos (10 ^ k)) eq_refl) as Hdiv.
      destruct (Z.div_eucl m' (Z.pos (10 ^ k))) as [q r]. cbn [fst].
      destruct Hdiv as [Hdiv Hr]. nia. }
    destruct (SFdiv_core_binary _ _ _ _ _ _) as [[mz ez] lz]. cbn [fst] in Hq.
    cbn [xorb]. now apply binary_round_aux_unsigned.
Qed.

End RoundFacts.

(** ** What [float] refuses *)

Module FloatFacts.
Import Py Spec Aux.

Section Unicode.
Variable U : ucd.

Lemma transform_chars_foreign s c :
  In c s -> float_text_char U c = false -> has_foreign (Num.transform_chars U s).
Proof.
  intros Hin Hc. unfold float_text_char in Hc.
  apply orb_false_iff in Hc. destruct Hc as [Hf Hu].
  induction s as [|ch s IH]; [contradiction|].
  cbn [Num.transform_chars].
  destruct (ch <? 127)%N eqn:Hlt.
  - destruct Hin as [-> | Hin].
    + exists c. split; [now left|exact Hf].
    + destruct (IH Hin) as (c' & Hc' & Hf'). exists c'. split; [now right|exact Hf'].
  - assert (Htail : In c s -> has_foreign (32%N :: Num.transform_chars U s) /\
                    forall d, has_foreign (d :: Num.transform_chars U s)).
    { intros H. destruct (IH H) as (c' & Hc' & Hf').
      split; [|intros d]; exists c'; (split; [now right|exact Hf']). }
    destruct Hin as [-> | Hin].
    + rewrite Hlt in Hu. cbn [negb andb] in Hu.
      apply orb_false_iff in Hu. destruct Hu as [Hs Hd].
      rewrite Hs. unfold is_decimal in Hd.
      destruct (to_decimal U c); [discriminate|].
      exists 63%N. split; [now left|reflexivity].
    + destruct (unicode_isspace U ch); [now apply Htail|].
      destruct (to_decimal U ch); [now apply Htail|].
      exists 63%N. split; [now left|reflexivity].
Qed.

Lemma transform_foreign s c :
  In c s -> float_text_char U c = false ->
  has_foreign (Num.transform_decimal_and_space U s).
Proof.
  intros Hin Hc. unfold Num.transform_decimal_and_space.
  destruct (forallb is_ascii s).
  - exists c. split; [exact Hin|].
    unfold float_text_char in Hc. now apply orb_false_iff in Hc.
  - now apply (transform_chars_foreign s c).
Qed.

End Unicode.

Lemma remove_underscores_keeps s : forall prev s' c,
  Num.remove_underscores prev s = Some s' ->
  In c s -> c <> 95%N -> In c s'.
Proof.
  induction s as [|ch s IH]; intros prev s' c Hr Hin Hc; [contradiction|].
  cbn [Num.remove_underscores] in Hr.
  destruct (ch =? 0)%N; [discriminate|].
  destruct (ch =? 95)%N eqn:Hu.
  - apply N.eqb_eq in Hu. subst ch.
    destruct (c_isdigit prev); [|discriminate].
    destruct Hin as [<- | Hin]; [congruence|].
    now apply (IH 95%N).
  - destruct ((prev =? 95)%N && negb (c_isdigit ch)); [discriminate|].
    destruct (Num.remove_underscores ch s) as [t|] eqn:Ht; [|discriminate].
    injection Hr as <-.
    destruct Hin as [<- | Hin]; [now left|right].
    now apply (IH ch).
Qed.

Lemma skip_space_keeps s c :
  In c s -> c_isspace c = false -> In c (Num.skip_space s).
Proof.
  induction s as [|ch s IH]; intros Hin Hc; [contradiction|].
  cbn [Num.skip_space]. destruct (c_isspace ch) eqn:Hs; [|exact Hin].
  destruct Hin as [-> | Hin]; [congruence|]. now apply IH.
Qed.

Lemma consumed_refl s : consumed s s.
Proof. now exists []. Qed.

Lemma consumed_cons c s rest :
  float_char c = true -> consumed s rest -> consumed (c :: s) rest.
Proof.
  intros Hc (pre & -> & Hp). exists (c :: pre). split; [reflexivity|].
  cbn [forallb]. now rewrite Hc.
Qed.

Lemma consumed_trans a b c : consumed a b -> consumed b c -> consumed a c.
Proof.
  intros (p & -> & Hp) (q & -> & Hq). exists (p ++ q).
  split; [now rewrite app_assoc|]. rewrite forallb_app. now rewrite Hp.
Qed.

Lemma parse_sign_consumed s : consumed s (snd (Num.parse_sign s)).
Proof.
  unfold Num.parse_sign. destruct s as [|c s]; [apply consumed_refl|].
  destruct (c =? 45)%N eqn:H1.
  - apply N.eqb_eq in H1. subst. apply consumed_cons; [reflexivity|apply consumed_refl].
  - destruct (c =? 43)%N eqn:H2; [|apply consumed_refl].
    apply N.eqb_eq in H2. subst. apply consumed_cons; [reflexivity|apply consumed_refl].
Qed.

Lemma span_digits_consumed s : consumed s (snd (Num.span_digits s)).
Proof.
  induction s as [|c s IH]; [apply consumed_refl|].
  cbn [Num.span_digits]. destruct (c_isdigit c) eqn:Hd; [|apply consumed_refl].
  destruct (Num.span_digits s) as [ds rest]. cbn [snd] in *.
  apply consumed_cons; [|exact IH].
  unfold float_char. rewrite Hd. now rewrite orb_true_r.
Qed.

Lemma after_point_consumed s t : Num.after_point s = Some t -> consumed s t.
Proof.
  unfold Num.after_point. destruct s as [|c s]; [discriminate|].
  destruct (c =? 46)%N eqn:H; [|discriminate].
  apply N.eqb_eq in H. subst. intros [= <-].
  apply consumed_cons; [reflexivity|apply consumed_refl].
Qed.

Lemma parse_exponent_consumed s : consumed s (snd (Num.parse_exponent s)).
Proof.
  unfold Num.parse_exponent. destruct s as [|c t]; [apply consumed_refl|].
  destruct ((c =? 101) || (c =? 69))%N eqn:He; [|apply consumed_refl].
  pose proof (parse_sign_consumed t) as H1.
  destruct (Num.parse_sign t) as [eneg t1]. cbn [snd] in H1.
  pose proof (span_digits_consumed t1) as H2.
  destruct (Num.span_digits t1) as [ed t2]. cbn [snd] in H2.
  destruct ed; [apply consumed_refl|]. cbn [snd].
  apply consumed_cons; [|exact (consumed_trans _ _ _ H1 H2)].
  apply orb_true_iff in He. destruct He as [He | He];
    apply N.eqb_eq in He; subst; reflexivity.
Qed.

Lemma strtod_consumed s x rest :
  Num.strtod s = Some (x, rest) -> consumed s rest.
Proof.
  unfold Num.strtod.
  pose proof (parse_sign_consumed s) as H1.
  destruct (Num.parse_sign s) as [neg s1]. cbn [snd] in H1.
  pose proof (span_digits_consumed s1) as H2.
  destruct (Num.span_digits s1) as [ip s2]. cbn [snd] in H2.
  assert (H3 : consumed s2 (snd match Num.after_point s2 with
                                | Some t => Num.span_digits t
                                | None => ([], s2)
                                end)).
  { destruct (Num.after_point s2) as [t|] eqn:Hp; [|apply consumed_refl].
    exact (consumed_trans _ _ _ (after_point_consumed _ _ Hp)
             (span_digits_consumed t)). }
  destruct (match Num.after_point s2 with
            | Some t => Num.span_digits t
            | None => ([], s2)
            end) as [fp s3]. cbn [snd] in H3.
  destruct (ip ++ fp); [discriminate|].
  pose proof (parse_exponent_consumed s3) as H4.
  destruct (Num.parse_exponent s3) as [ex s4]. cbn [snd] in H4.
  intros [= _ <-].
  exact (consumed_trans _ _ _ H1
           (consumed_trans _ _ _ H2 (consumed_trans _ _ _ H3 H4))).
Qed.

Lemma case_insensitive_match_consumed t : forall s rest,
  forallb (fun b => existsb (N.eqb b) [101; 105; 110; 102; 116; 121; 97]%N) t
    = true ->
  Num.case_insensitive_match s t = Some rest -> consumed s rest.
Proof.
  induction t as [|b t IH]; intros s rest Ht; simpl Num.case_insensitive_match.
  - destruct s; intros [= <-]; apply consumed_refl.
  - destruct s as [|a s]; [discriminate|].
    simpl Num.case_insensitive_match.
    destruct (ascii_lower a =? b)%N eqn:Hab; [|discriminate].
    cbn [forallb] in Ht. apply andb_prop in Ht. destruct Ht as [Hb Ht].
    intros Hm. apply consumed_cons; [|now apply IH].
    apply N.eqb_eq in Hab. unfold float_char. rewrite Hab, Hb.
    now rewrite orb_true_r.
Qed.

Lemma parse_inf_or_nan_consumed s x rest :
  Num.parse_inf_or_nan s = Some (x, rest) -> consumed s rest.
Proof.
  unfold Num.parse_inf_or_nan.
  pose proof (parse_sign_consumed s) as H1.
  destruct (Num.parse_sign s) as [neg s1]. cbn [snd] in H1.
  destruct (Num.case_insensitive_match s1 (lit "inf")) as [s2|] eqn:Hinf.
  - pose proof (case_insensitive_match_consumed (lit "inf") _ _ eq_refl Hinf) as H2.
    destruct (Num.case_insensitive_match s2 (lit "inity")) as [s3|] eqn:Hity.
    + pose proof (case_insensitive_match_consumed (lit "inity") _ _ eq_refl Hity) as H3.
      intros [= _ <-].
      exact (consumed_trans _ _ _ H1 (consumed_trans _ _ _ H2 H3)).
    + intros [= _ <-]. exact (consumed_trans _ _ _ H1 H2).
  - destruct (Num.case_insensitive_match s1 (lit "nan")) as [s2|] eqn:Hnan;
      [|discriminate].
    pose proof (case_insensitive_match_consumed (lit "nan") _ _ eq_refl Hnan) as H2.
    intros [= _ <-]. exact (consumed_trans _ _ _ H1 H2).
Qed.

Lemma string_to_double_consumed s x rest :
  Num.string_to_double s = Some (x, rest) -> consumed s rest.
Proof.
  unfold Num.string_to_double.
  destruct (Num.parse_inf_or_nan s) as [[y r]|] eqn:Hp.
  - intros [= _ <-]. now apply (parse_inf_or_nan_consumed s y).
  - apply strtod_consumed.
Qed.

Lemma float_char_space c : float_char c = false -> c_isspace c = false.
Proof.
  unfold float_char. intros H.
  now do 3 (apply orb_false_iff in H; destruct H as [H _]).
Qed.

(** The inner parser refuses a string that holds a character no numeral
    can hold. *)
Lemma float_from_string_inner_foreign s :
  has_foreign s -> Num.float_from_string_inner s = Raise ValueError.
Proof.
  intros (c & Hin & Hc). unfold Num.float_from_string_inner.
  pose proof (float_char_space c Hc) as Hsp.
  pose proof (skip_space_keeps s c Hin Hsp) as H1.
  destruct (Num.skip_space s) as [|a s1] eqn:Hs1; [reflexivity|].
  assert (H2 : In c (rev (Num.skip_space (rev (a :: s1))))).
  { apply in_rev. rewrite rev_involutive. apply skip_space_keeps; [|exact Hsp].
    now apply in_rev in H1. }
  destruct (Num.string_to_double _) as [[x rest]|] eqn:Hd; [|reflexivity].
  destruct rest; [|reflexivity].
  apply string_to_double_consumed in Hd. destruct Hd as (pre & Hpre & Hall).
  rewrite app_nil_r in Hpre. rewrite Hpre in H2.
  rewrite forallb_forall in Hall. rewrite (Hall c H2) in Hc. discriminate.
Qed.

Lemma float_foreign U s c :
  In c s -> float_text_char U c = false -> Num.float U s = Raise ValueError.
Proof.
  intros Hin Hc. unfold Num.float, Num.number_with_underscores.
  pose proof (transform_foreign U s c Hin Hc) as Hf.
  destruct (Num.has_underscore _).
  - destruct (Num.remove_underscores 0 _) as [s'|] eqn:Hr; [|reflexivity].
    apply float_from_string_inner_foreign.
    destruct Hf as (c' & Hin' & Hc'). exists c'. split; [|exact Hc'].
    apply (remove_underscores_keeps _ _ _ _ Hr Hin').
    intros ->. discriminate.
  - now apply float_from_string_inner_foreign.
Qed.

End FloatFacts.

(** ** The values the scorer returns *)

Module ScoreFacts.
Import Py Spec Aux.

Lemma conf_of_count_table n :
  (1 <= n <= 5)%Z -> In (n, conf_of_count n) confidence_table.
Proof.
  intros H.
  assert (n = 1 \/ n = 2 \/ n = 3 \/ n = 4 \/ n = 5)%Z
    as [-> | [-> | [-> | [-> | ->]]]] by lia; vm_compute; tauto.
Qed.

Lemma str_eqb_eq a b : str_eqb a b = true <-> a = b.
Proof. unfold str_eqb. destruct (list_eq_dec N.eq_dec a b); split; congruence. Qed.

Lemma distinct_NoDup l : distinct l = true -> NoDup l.
Proof.
  induction l as [|x l IH]; cbn [distinct]; intros H; constructor.
  - apply andb_prop in H. destruct H as [H _]. intros Hin.
    apply negb_true_iff in H.
    assert (existsb (str_eqb x) l = true)
      by (apply existsb_exists; exists x; split; [exact Hin|now apply str_eqb_eq]).
    congruence.
  - apply andb_prop in H. now apply IH.
Qed.

Section Rules.
Variable U : ucd.
Variable max_str_digits : N.

(** The verdicts each rule can give. *)
Lemma verdicts_range p :
  In (title_verdict U (title p)) [NoEffect; Scam (lit "Suspicious language")] /\
  In (price_verdict U (price p))
     [NoEffect; Scam (lit "Low price"); Legit (lit "Normal price")] /\
  In (seller_verdict U (seller p))
     [NoEffect; Scam (lit "Suspicious seller"); Legit (lit "Reputable seller")] /\
  In (rating_verdict U (rating p))
     [NoEffect; Scam (lit "Low rating"); Legit (lit "Good rating")] /\
  In (reviews_verdict U max_str_digits (reviews_count p))
     [NoEffect; Scam (lit "Few reviews"); Legit (lit "Many reviews")].
Proof.
  repeat split.
  - unfold title_verdict. destruct (existsb _ _); cbn [In]; tauto.
  - unfold price_verdict. destruct (first_numeric_token U _); [|cbn [In]; tauto].
    destruct (F64.ltb _ _); [cbn [In]; tauto|].
    destruct (F64.gtb_Z _ _); cbn [In]; tauto.
  - unfold seller_verdict. destruct (seller p); [cbn [In]; tauto|].
    destruct (_ || _ || _); [cbn [In]; tauto|].
    destruct (_ || _); cbn [In]; tauto.
  - unfold rating_verdict. destruct (rating p); [cbn [In]; tauto|].
    destruct (Num.float U _); [|cbn [In]; tauto].
    destruct (F64.ltb _ _); [cbn [In]; tauto|].
    destruct (F64.gtb _ _); cbn [In]; tauto.
  - unfold reviews_verdict. destruct (first_digit_run U _); [|cbn [In]; tauto].
    destruct (too_long _ _); [cbn [In]; tauto|]. cbv zeta.
    destruct (_ <? 5)%Z; [cbn [In]; tauto|].
    destruct (_ >? 50)%Z; cbn [In]; tauto.
Qed.

(** The reasons of the scorer are pairwise different and come from the
    nine it can give; the reason the handler may add is none of them. *)
Lemma reasons_check p :
  distinct (flat_map reason_of (verdicts U max_str_digits p) ++ [ai_reason])
  && forallb (fun r => existsb (str_eqb r) scorer_reasons)
             (flat_map reason_of (verdicts U max_str_digits p)) = true.
Proof.
  destruct (verdicts_range p) as (Ht & Hp & Hs & Hr & Hc).
  unfold verdicts.
  cbn [In] in Ht, Hp, Hs, Hr, Hc.
  destruct Ht as [<- | [<- | []]];
  destruct Hp as [<- | [<- | [<- | []]]];
  destruct Hs as [<- | [<- | [<- | []]]];
  destruct Hr as [<- | [<- | [<- | []]]];
  destruct Hc as [<- | [<- | [<- | []]]];
  vm_compute; reflexivity.
Qed.

End Rules.

End ScoreFacts.

(** ** The handler, outcome by outcome *)

Module EndpointFacts.
Import Py Spec Aux Handler.

Lemma lstrip_blank U s :
  forallb (unicode_isspace U) s = true -> lstrip U s = [].
Proof.
  induction s as [|c s IH]; [reflexivity|].
  cbn [forallb lstrip]. intros H. apply andb_prop in H. destruct H as [Hc Hs].
  rewrite Hc. now apply IH.
Qed.

Lemma strip_blank U s :
  forallb (unicode_isspace U) s = true -> strip U s = [].
Proof. intros H. unfold strip. now rewrite (lstrip_blank U s H). Qed.

Lemma downgrade_small n :
  (1 <= n <= 4)%Z ->
  F64.max Lit.f0_3 (F64.sub (conf_of_count n) Lit.f0_2) =
    F64.sub (conf_of_count n) Lit.f0_2 /\
  In (n, F64.sub (conf_of_count n) Lit.f0_2) downgraded_table.
Proof.
  intros H.
  assert (n = 1 \/ n = 2 \/ n = 3 \/ n = 4)%Z
    as [-> | [-> | [-> | ->]]] by lia;
    (split; [vm_compute; reflexivity|vm_compute; tauto]).
Qed.

Section Endpoint.
Variable U : ucd.
Variable max_str_digits : N.
Variable requests_post :
  list N -> list (list N * list N) -> list (list N * list N) -> result Response.

(** What the scorer returns, in one statement. *)
Lemma scorer_result p :
  exists a,
    Scorer.analyze_product_legitimacy U max_str_digits p = Ok a /\
    ai_analysis a = None /\ ai_error a = None /\
    (0 <= scam_indicators (indicators a) <= 5)%Z /\
    (0 <= legit_indicators (indicators a) <= 4)%Z /\
    (status a, confidence a) =
      (let s := scam_indicators (indicators a) in
       let l := legit_indicators (indicators a) in
       if (s >? l)%Z then (scam, conf_of_count s)
       else if (l >? s)%Z then (legit, conf_of_count l)
       else (uncertain, Lit.f0_4)) /\
    reasons a = flat_map reason_of (verdicts U max_str_digits p).
Proof.
  destruct (ScorerFacts.rules_counts U max_str_digits p)
    as (vars & Hrules & Hr & Hs & Hl & _ & _ & _).
  eexists. split.
  - unfold Scorer.analyze_product_legitimacy. rewrite Hrules.
    rewrite ScorerFacts.final_status_small by lia.
    cbn [rbind]. reflexivity.
  - cbn [indicators scam_indicators legit_indicators status confidence
         reasons ai_analysis ai_error].
    repeat split; try lia; try exact Hr.
    now destruct (_ >? _)%Z; [|destruct (_ >? _)%Z].
Qed.

(** The inner block on a detector answer. *)
Lemma ai_detection_answer text a j :
  detect requests_post text = Ok j ->
  run (ai_detection requests_post text) a =
  match score_error j with
  | Some e => Raise e
  | None => Ok (with_detection j a)
  end.
Proof.
  intros Hdet. unfold run.
  rewrite HandlerFacts.ai_detection_detect, Hdet.
  unfold seq, eval, read, set_ai_analysis, set_status, set_confidence,
    append_reason, update, skip, with_detection, score_high, score_error.
  destruct j as [| b | z | x | s | l | d]; cbn [py_in]; try reflexivity.
  - destruct (contains (lit "score") s); reflexivity.
  - destruct (existsb _ l); reflexivity.
  - cbn [py_get]. destruct (dict_get d (lit "score")) as [v|]; [|reflexivity].
    destruct v as [| b | z | x | s | l | d']; cbn [py_gt_float];
      try reflexivity.
    + destruct b;
        [change (F64.Z_gtb 1 Lit.f0_7) with true
        |change (F64.Z_gtb 0 Lit.f0_7) with false]; [|reflexivity].
      cbn [status]. now destruct (status_eqb (status a) legit).
    + destruct (F64.Z_gtb z Lit.f0_7); [|reflexivity].
      cbn [status]. now destruct (status_eqb (status a) legit).
    + destruct (F64.gtb x Lit.f0_7); [|reflexivity].
      cbn [status]. now destruct (status_eqb (status a) legit).
Qed.

Lemma ai_detection_raise text a e :
  detect requests_post text = Raise e ->
  run (ai_detection requests_post text) a =
  match e with
  | RequestException msg => Ok (with_error msg a)
  | _ => Raise e
  end.
Proof.
  intros Hdet. unfold run.
  rewrite HandlerFacts.ai_detection_detect, Hdet.
  now destruct e.
Qed.

(** The handler, outcome by outcome of the detector exchange. *)
Lemma analyze_product_table p a :
  Scorer.analyze_product_legitimacy U max_str_digits p = Ok a ->
  analyze_product U max_str_digits requests_post p =
  match strip U (combined_text p) with
  | [] => Http200 (answer p a)
  | _ =>
      match detect requests_post (combined_text p) with
      | Raise (RequestException msg) => Http200 (answer p (with_error msg a))
      | Raise e => HTTPException 500 (lit "Analysis error: ") e
      | Ok j =>
          match score_error j with
          | Some e => HTTPException 500 (lit "Analysis error: ") e
          | None => Http200 (answer p (with_detection j a))
          end
      end
  end.
Proof.
  intros Ha. unfold analyze_product. rewrite Ha. cbn [rbind].
  fold (combined_text p).
  destruct (strip U (combined_text p)) as [|c s]; [reflexivity|].
  destruct (detect requests_post (combined_text p)) as [j|e] eqn:Hdet.
  - rewrite (ai_detection_answer _ a j Hdet).
    now destruct (score_error j).
  - rewrite (ai_detection_raise _ a e Hdet). now destruct e.
Qed.

End Endpoint.

End EndpointFacts.

(** * The properties of the specification *)

Import Py Spec.

(** ** The scorer *)

(** C1. For every product, with [s] the scam count and [l] the legit count
    the five rules end with, [analyze_product_legitimacy] returns these two
    counts and: status scam with confidence [0.7 + 0.05*s] when [s > l];
    status legit with confidence [0.7 + 0.05*l] when [l > s]; status
    uncertain with confidence [0.4] when [s = l], both zero included.  The
    arithmetic is that of binary64 floats. *)
Theorem analyze_product_legitimacy_aggregation
    (U : ucd) (max_str_digits : N) (p : ProductAnalysis) :
  exists vars a,
    Scorer.rules U max_str_digits p Scorer.initial = Done vars /\
    Scorer.analyze_product_legitimacy U max_str_digits p = Ok a /\
    let s := Var.scam_indicators vars in
    let l := Var.legit_indicators vars in
    scam_indicators (indicators a) = s /\
    legit_indicators (indicators a) = l /\
    ((s > l)%Z ->
     status a = scam /\
     confidence a = F64.add Lit.f0_7 (F64.mul Lit.f0_05 (F64.of_Z s))) /\
    ((l > s)%Z ->
     status a = legit /\
     confidence a = F64.add Lit.f0_7 (F64.mul Lit.f0_05 (F64.of_Z l))) /\
    (s = l -> status a = uncertain /\ confidence a = Lit.f0_4) /\
    (s = 0%Z -> l = 0%Z -> status a = uncertain /\ confidence a = Lit.f0_4).
Proof.
  destruct (ScorerFacts.rules_counts U max_str_digits p)
    as (vars & Hrules & _ & Hs & Hl & _ & _ & _).
  exists vars. eexists. split; [exact Hrules|]. split.
  - unfold Scorer.analyze_product_legitimacy. rewrite Hrules.
    rewrite ScorerFacts.final_status_small by lia.
    cbn [rbind]. reflexivity.
  - cbv zeta. unfold conf_of_count.
    destruct (Z.gtb_spec (Var.scam_indicators vars) (Var.legit_indicators vars));
      [|destruct (Z.gtb_spec (Var.legit_indicators vars)
                             (Var.scam_indicators vars))];
      cbn [indicators scam_indicators legit_indicators status confidence fst snd];
      repeat split; intros; try lia; reflexivity.
Qed.

(** C4. A product whose price, seller, rating and review count are empty
    (the scorer reads nothing else but the title) and whose title contains
    none of the suspicious phrases, letter case ignored, is scored
    uncertain, with confidence 0.4, no reasons and both counts 0. *)
Theorem title_only_is_uncertain
    (U : ucd) (max_str_digits : N) (p : ProductAnalysis) :
  price p = [] -> seller p = [] -> rating p = [] -> reviews_count p = [] ->
  existsb (fun phrase => contains_nocase U phrase (title p))
          Scorer.suspicious_words = false ->
  Scorer.analyze_product_legitimacy U max_str_digits p =
  Ok {| status := uncertain;
        confidence := Lit.f0_4;
        reasons := [];
        indicators := {| scam_indicators := 0; legit_indicators := 0 |};
        ai_analysis := None;
        ai_error := None |}.
Proof.
  intros Hp Hs Hr Hc Ht.
  unfold Scorer.analyze_product_legitimacy.
  rewrite ScorerFacts.rules_verdicts. unfold verdicts.
  rewrite Hp, Hs, Hr, Hc. unfold title_verdict. rewrite Ht.
  reflexivity.
Qed.

Lemma title_only_is_uncertain_witness :
  let p := title_only (lit "Wireless Mouse") in
  (price p = [] /\ seller p = [] /\ rating p = [] /\ reviews_count p = [] /\
   existsb (fun phrase => contains_nocase ascii_only phrase (title p))
           Scorer.suspicious_words = false) /\
  Scorer.analyze_product_legitimacy ascii_only 4300 p =
  Ok {| status := uncertain;
        confidence := Lit.f0_4;
        reasons := [];
        indicators := {| scam_indicators := 0; legit_indicators := 0 |};
        ai_analysis := None;
        ai_error := None |}.
Proof.
  cbv zeta. split.
  - repeat split; reflexivity.
  - apply (title_only_is_uncertain ascii_only 4300
             (title_only (lit "Wireless Mouse"))); reflexivity.
Defined.

(** C5, as amended.  The seller rule leaves an empty seller alone.  On any
    other seller: if the lower-cased seller contains amazon, walmart or
    target it adds one legit indicator with reason "Reputable seller";
    otherwise, if the lower-cased seller is shorter than 3 characters or is
    all digits, it adds one scam indicator with reason "Suspicious seller";
    otherwise it does nothing.  For an ASCII seller that is not empty this
    is the rule as the claim words it, on the seller's own length and
    digits. *)
Theorem seller_rule_spec (U : ucd) (p : ProductAnalysis) (st : Var.locals) :
  Scorer.seller_rule U p st =
  Done match seller p with
       | [] => st
       | _ =>
           if contains_nocase U (lit "amazon") (seller p)
              || contains_nocase U (lit "walmart") (seller p)
              || contains_nocase U (lit "target") (seller p)
           then legit_added (lit "Reputable seller") st
           else if (List.length (lower U (seller p)) <? 3)%nat
                   || isdigit U (lower U (seller p))
           then scam_added (lit "Suspicious seller") st
           else st
       end
  /\ (forallb is_ascii (seller p) = true -> seller p <> [] ->
      Scorer.seller_rule U p st =
      Done (apply_verdict (seller_verdict_claimed U (seller p)) st)).
Proof.
  split.
  - rewrite ScorerFacts.seller_rule_verdict. unfold seller_verdict.
    destruct (seller p) as [|c s]; [reflexivity|].
    destruct (_ || _ || _); [reflexivity|].
    now destruct (_ || _).
  - intros Hascii Hne. rewrite ScorerFacts.seller_rule_verdict.
    unfold seller_verdict, seller_verdict_claimed.
    rewrite (PyFacts.isdigit_lower_ascii U _ Hascii).
    assert (Hlen : List.length (lower U (seller p)) = List.length (seller p))
      by (rewrite (PyFacts.lower_ascii U _ Hascii); apply length_map).
    rewrite Hlen.
    destruct (seller p); [congruence|reflexivity].
Qed.

(** C5 as stated fails on the empty seller: the claim has the "length < 3"
    branch apply to it and add a scam indicator, the code skips the rule. *)
Lemma seller_claim_fails_on_empty_seller :
  Scorer.seller_rule ascii_only (title_only (lit "Desk lamp")) Scorer.initial
  = Done Scorer.initial
  /\ apply_verdict
       (seller_verdict_claimed ascii_only (seller (title_only (lit "Desk lamp"))))
       Scorer.initial
     = scam_added (lit "Suspicious seller") Scorer.initial
  /\ Scorer.seller_rule ascii_only (title_only (lit "Desk lamp")) Scorer.initial
     <> Done (apply_verdict
                (seller_verdict_claimed ascii_only
                   (seller (title_only (lit "Desk lamp"))))
                Scorer.initial).
Proof.
  split; [reflexivity|]. split; [reflexivity|].
  vm_compute. discriminate.
Qed.

(** C6. The price rule reads the first numeric token (digits, then possibly
    a point and digits) of the price with [$] and [,] removed.  When the
    float the token reads as is below 1.0 the rule adds one scam indicator
    with reason "Low price"; when it is above 1000, one legit indicator with
    reason "Normal price"; otherwise, and when there is no token, it does
    nothing.  It never raises.  "$0.50" adds a scam indicator, "$1500" a
    legit one, "abc" nothing. *)
Theorem price_rule_spec (U : ucd) (p : ProductAnalysis) (st : Var.locals) :
  Scorer.price_rule U p st =
  Done match first_numeric_token U (strip_dollar_comma (price p)) with
       | None => st
       | Some t =>
           if F64.ltb (token_value U t) Lit.f1_0
           then scam_added (lit "Low price") st
           else if F64.gtb_Z (token_value U t) 1000
           then legit_added (lit "Normal price") st
           else st
       end
  /\ Scorer.price_rule U (with_price p (lit "$0.50")) st =
     Done (scam_added (lit "Low price") st)
  /\ Scorer.price_rule U (with_price p (lit "$1500")) st =
     Done (legit_added (lit "Normal price") st)
  /\ Scorer.price_rule U (with_price p (lit "abc")) st = Done st.
Proof.
  rewrite !ScorerFacts.price_rule_verdict. split; [|split; [|split]].
  - unfold price_verdict.
    destruct (first_numeric_token U _) as [t|]; [|reflexivity].
    destruct (F64.ltb _ _); [reflexivity|].
    now destruct (F64.gtb_Z _ _).
  - vm_compute. reflexivity.
  - vm_compute. reflexivity.
  - vm_compute. reflexivity.
Qed.

(** C7. The review-count rule reads the first run of digits of the review
    count with [,] removed, as an integer.  Below 5 it adds one scam
    indicator with reason "Few reviews"; above 50, one legit indicator with
    reason "Many reviews"; otherwise it does nothing, as it does when there
    is no digit or when [int] refuses the run (one longer than the
    interpreter's limit on integer strings).  "3" adds a scam indicator,
    "1,200" a legit one. *)
Theorem reviews_rule_spec
    (U : ucd) (max_str_digits : N) (p : ProductAnalysis) (st : Var.locals) :
  Scorer.reviews_rule U max_str_digits p st =
  Done match first_digit_run U (strip_comma (reviews_count p)) with
       | None => st
       | Some ds =>
           if too_long max_str_digits ds then st
           else if (Z.of_N (run_value U ds) <? 5)%Z
           then scam_added (lit "Few reviews") st
           else if (Z.of_N (run_value U ds) >? 50)%Z
           then legit_added (lit "Many reviews") st
           else st
       end
  /\ Scorer.reviews_rule U max_str_digits (with_reviews_count p (lit "3")) st =
     Done (scam_added (lit "Few reviews") st)
  /\ Scorer.reviews_rule U max_str_digits
       (with_reviews_count p (lit "1,200")) st =
     Done (legit_added (lit "Many reviews") st).
Proof.
  rewrite !ScorerFacts.reviews_rule_verdict. split; [|split].
  - unfold reviews_verdict.
    destruct (first_digit_run U _) as [ds|]; [|reflexivity].
    destruct (too_long max_str_digits ds); [reflexivity|].
    destruct (_ <? 5)%Z; [reflexivity|].
    now destruct (_ >? 50)%Z.
  - reflexivity.
  - reflexivity.
Qed.

(** C8. [analyze_product_legitimacy] returns on every product, whatever its
    strings hold: the rules never raise.  When [float] refuses the rating
    (as it refuses "n/a"), the rating rule leaves the local variables as
    they are and the result is the one of the same product without a
    rating; likewise a refusal of [float] in the price rule or of [int] in
    the review-count rule leaves the variables as they are. *)
Theorem analyze_product_legitimacy_total
    (U : ucd) (max_str_digits : N) (p : ProductAnalysis) :
  (exists a, Scorer.analyze_product_legitimacy U max_str_digits p = Ok a)
  /\ (forall st, exists st',
        Scorer.rules U max_str_digits p st = Done st')
  /\ (forall e, Num.float U (rating p) = Raise e ->
        (forall st, Scorer.rating_rule U p st = Done st) /\
        Scorer.analyze_product_legitimacy U max_str_digits p =
        Scorer.analyze_product_legitimacy U max_str_digits (with_rating p []))
  /\ (Num.float U (lit "n/a") = Raise ValueError /\
      Scorer.analyze_product_legitimacy U max_str_digits
        (with_rating p (lit "n/a")) =
      Scorer.analyze_product_legitimacy U max_str_digits (with_rating p []))
  /\ (forall group e st,
        Re.search U Scorer.price_re (strip_dollar_comma (price p)) = Some group ->
        Num.float U group = Raise e ->
        Scorer.price_rule U p st = Done st)
  /\ (forall group e st,
        Re.search U Scorer.reviews_re (strip_comma (reviews_count p)) = Some group ->
        Num.int U max_str_digits group = Raise e ->
        Scorer.reviews_rule U max_str_digits p st = Done st).
Proof.
  assert (Hskip : forall q,
            rating_verdict U (rating q) = NoEffect ->
            Scorer.analyze_product_legitimacy U max_str_digits q =
            Scorer.analyze_product_legitimacy U max_str_digits (with_rating q [])).
  { intros q Hq. unfold Scorer.analyze_product_legitimacy.
    rewrite !ScorerFacts.rules_verdicts. unfold verdicts.
    cbn [with_rating title price seller rating reviews_count].
    now rewrite Hq. }
  split; [|split; [|split; [|split; [|split]]]].
  - destruct (HandlerFacts.scorer_returns U max_str_digits p) as (a & Ha & _).
    now exists a.
  - intros st. eexists. apply ScorerFacts.rules_verdicts.
  - intros e He.
    assert (Hv : rating_verdict U (rating p) = NoEffect).
    { unfold rating_verdict. rewrite He. now destruct (rating p). }
    split.
    + intros st. rewrite ScorerFacts.rating_rule_verdict. now rewrite Hv.
    + now apply Hskip.
  - split; [reflexivity|].
    rewrite (Hskip (with_rating p (lit "n/a"))) by reflexivity.
    reflexivity.
  - intros group e st Hm He. unfold Scorer.price_rule.
    destruct (price p) as [|c s] eqn:Hp; [reflexivity|].
    unfold strip_dollar_comma in Hm. rewrite Hm.
    unfold try_except_pass, eval. now rewrite He.
  - intros group e st Hm He. unfold Scorer.reviews_rule.
    destruct (reviews_count p) as [|c s] eqn:Hp; [reflexivity|].
    unfold strip_comma in Hm. rewrite Hm.
    unfold try_except_pass, eval. now rewrite He.
Qed.

(** C9. The confidence [analyze_product_legitimacy] returns is never above
    0.95 and never below 0.4: each of the five rules adds at most one to at
    most one of the two counts, so no count exceeds 5, and the confidence is
    0.4 (a tie) or lies between 0.75 and 0.95. *)
Theorem confidence_bounds
    (U : ucd) (max_str_digits : N) (p : ProductAnalysis) :
  exists a,
    Scorer.analyze_product_legitimacy U max_str_digits p = Ok a /\
    F64.leb Lit.f0_4 (confidence a) = true /\
    F64.leb (confidence a) Lit.f0_95 = true /\
    (0 <= scam_indicators (indicators a) <= 5)%Z /\
    (0 <= legit_indicators (indicators a) <= 5)%Z /\
    (confidence a = Lit.f0_4 \/
     F64.leb Lit.f0_75 (confidence a) = true /\
     F64.leb (confidence a) Lit.f0_95 = true) /\
    each_rule_steps U max_str_digits p.
Proof.
  destruct (ScorerFacts.rules_counts U max_str_digits p)
    as (vars & Hrules & _ & Hs & Hl & _ & _ & _).
  eexists. split.
  - unfold Scorer.analyze_product_legitimacy. rewrite Hrules.
    rewrite ScorerFacts.final_status_small by lia.
    cbn [rbind]. reflexivity.
  - cbn [indicators scam_indicators legit_indicators status confidence].
    assert (Hconf :
      forall c,
      c = snd (if (Var.scam_indicators vars >? Var.legit_indicators vars)%Z
               then (scam, conf_of_count (Var.scam_indicators vars))
               else if (Var.legit_indicators vars >? Var.scam_indicators vars)%Z
               then (legit, conf_of_count (Var.legit_indicators vars))
               else (uncertain, Lit.f0_4)) ->
      c = Lit.f0_4 \/
      F64.leb Lit.f0_75 c = true /\ F64.leb c Lit.f0_95 = true /\
      F64.leb Lit.f0_4 c = true).
    { intros c ->.
      destruct (Z.gtb_spec (Var.scam_indicators vars) (Var.legit_indicators vars));
        [|destruct (Z.gtb_spec (Var.legit_indicators vars)
                               (Var.scam_indicators vars))];
        cbn [snd].
      - right. apply F64Facts.conf_of_count_bounds. lia.
      - right. apply F64Facts.conf_of_count_bounds. lia.
      - now left. }
    specialize (Hconf _ eq_refl).
    split; [|split; [|split; [|split; [|split]]]].
    + destruct Hconf as [-> | (_ & _ & H)]; [reflexivity|exact H].
    + destruct Hconf as [-> | (_ & H & _)]; [reflexivity|exact H].
    + lia.
    + lia.
    + destruct Hconf as [H | (H1 & H2 & _)]; [now left|now right].
    + apply ScorerFacts.rules_step.
Qed.

(** C10. The reasons [analyze_product_legitimacy] returns are as many as
    the two counts together: they are the reasons of the rules that
    triggered, one per count added, in the order title, price, seller,
    rating, reviews.  (The verdict of a rule is what the rule of the code
    does, and every rule either changes nothing or appends one reason and
    adds one to one count.) *)
Theorem reasons_match_indicators
    (U : ucd) (max_str_digits : N) (p : ProductAnalysis) :
  exists a,
    Scorer.analyze_product_legitimacy U max_str_digits p = Ok a /\
    Z.of_nat (List.length (reasons a)) =
      (scam_indicators (indicators a) + legit_indicators (indicators a))%Z /\
    reasons a =
      reason_of (title_verdict U (title p))
      ++ reason_of (price_verdict U (price p))
      ++ reason_of (seller_verdict U (seller p))
      ++ reason_of (rating_verdict U (rating p))
      ++ reason_of (reviews_verdict U max_str_digits (reviews_count p)) /\
    scam_indicators (indicators a) =
      fold_right Z.add 0%Z (map scam_of (verdicts U max_str_digits p)) /\
    legit_indicators (indicators a) =
      fold_right Z.add 0%Z (map legit_of (verdicts U max_str_digits p)) /\
    rules_follow_verdicts U max_str_digits p /\
    each_rule_steps U max_str_digits p.
Proof.
  destruct (ScorerFacts.rules_counts U max_str_digits p)
    as (vars & Hrules & Hr & Hs & Hl & Hlen & Hsc & Hlg).
  eexists. split.
  - unfold Scorer.analyze_product_legitimacy. rewrite Hrules.
    rewrite ScorerFacts.final_status_small by lia.
    cbn [rbind]. reflexivity.
  - cbn [indicators scam_indicators legit_indicators reasons].
    split; [exact Hlen|]. split.
    + rewrite Hr. unfold verdicts. cbn [flat_map]. now rewrite app_nil_r.
    + split; [exact Hsc|]. split; [exact Hlg|].
      split; [apply ScorerFacts.rules_by_verdicts|apply ScorerFacts.rules_step].
Qed.

(** ** The handler *)

(** C2. When the detector call is made and succeeds, and its JSON result is
    an object with a numeric [score]: the handler answers 200, the result is
    attached under [ai_analysis], the counts are kept, and
    - with a score above 0.7 and a heuristic status legit, the status
      becomes uncertain, the confidence [max(0.3, confidence - 0.2)], and
      the reason "AI-generated content detected" is appended;
    - with a score above 0.7 and a heuristic status scam or uncertain, only
      that reason is appended;
    - with any other score, status, confidence and reasons are those of the
      scorer. *)
Theorem ai_score_adjustment
    (U : ucd) (max_str_digits : N)
    (requests_post :
       list N -> list (list N * list N) -> list (list N * list N) ->
       result Handler.Response)
    (p : ProductAnalysis) (d : list (list N * pyval)) (v : pyval) :
  strip U (combined_text p) <> [] ->
  detect requests_post (combined_text p) = Ok (PDict d) ->
  Handler.dict_get d (lit "score") = Some v ->
  numeric v ->
  exists a a',
    Scorer.analyze_product_legitimacy U max_str_digits p = Ok a /\
    Handler.analyze_product U max_str_digits requests_post p =
      Handler.Http200 {| Handler.success := true;
                         Handler.analysis := a';
                         Handler.product_info := (title p, url p) |} /\
    ai_analysis a' = Some (PDict d) /\
    ai_error a' = None /\
    indicators a' = indicators a /\
    (exceeds v Lit.f0_7 = true -> status a = legit ->
     status a' = uncertain /\
     confidence a' = F64.max Lit.f0_3 (F64.sub (confidence a) Lit.f0_2) /\
     reasons a' = reasons a ++ [ai_reason]) /\
    (exceeds v Lit.f0_7 = true -> status a <> legit ->
     status a' = status a /\
     confidence a' = confidence a /\
     reasons a' = reasons a ++ [ai_reason]) /\
    (exceeds v Lit.f0_7 = false ->
     status a' = status a /\
     confidence a' = confidence a /\
     reasons a' = reasons a).
Proof.
  intros Hstrip Hdet Hget Hnum.
  destruct (HandlerFacts.scorer_returns U max_str_digits p) as (a & Ha & Hai & Her).
  exists a, (blend (PDict d) v a).
  split; [exact Ha|]. split.
  - apply (HandlerFacts.analyze_product_done U max_str_digits requests_post p a);
      [exact Ha | exact Hstrip |].
    now apply HandlerFacts.ai_detection_score.
  - unfold blend. cbn [ai_analysis ai_error indicators status confidence reasons].
    split; [reflexivity|]. split; [exact Her|]. split; [reflexivity|].
    split; [|split].
    + intros Hhigh Hlegit. rewrite Hhigh, Hlegit. now cbn.
    + intros Hhigh Hnot. rewrite Hhigh.
      destruct (status a); try congruence; now cbn.
    + intros Hlow. rewrite Hlow. now cbn.
Qed.

Lemma ai_score_adjustment_witness :
  let p := with_seller (title_only (lit "USB cable")) (lit "Amazon") in
  let d := [(lit "score", PFloat f0_9)] in
  (strip ascii_only (combined_text p) <> [] /\
   detect (answers (PDict d)) (combined_text p) = Ok (PDict d) /\
   Handler.dict_get d (lit "score") = Some (PFloat f0_9) /\
   numeric (PFloat f0_9)) /\
  exists a a',
    Scorer.analyze_product_legitimacy ascii_only 4300 p = Ok a /\
    Handler.analyze_product ascii_only 4300 (answers (PDict d)) p =
      Handler.Http200 {| Handler.success := true;
                         Handler.analysis := a';
                         Handler.product_info := (title p, url p) |} /\
    status a = legit /\
    status a' = uncertain /\
    confidence a' = F64.max Lit.f0_3 (F64.sub (confidence a) Lit.f0_2) /\
    reasons a' = reasons a ++ [ai_reason].
Proof.
  cbv zeta. split.
  - split; [vm_compute; discriminate|]. repeat split.
  - destruct (ai_score_adjustment ascii_only 4300
                (answers (PDict [(lit "score", PFloat f0_9)]))
                (with_seller (title_only (lit "USB cable")) (lit "Amazon"))
                [(lit "score", PFloat f0_9)] (PFloat f0_9))
      as (a & a' & Ha & Hhandler & _ & _ & _ & Hhigh & _ & _).
    + vm_compute. discriminate.
    + reflexivity.
    + reflexivity.
    + exact I.
    + assert (Hlegit : status a = legit).
      { vm_compute in Ha. injection Ha as <-. reflexivity. }
      destruct (Hhigh eq_refl Hlegit) as (Hs & Hc & Hr).
      exists a, a'. repeat split; assumption.
Defined.

(** C3. When the detector call is made and raises a transport error, the
    handler still answers 200 with [success] true; the analysis carries the
    error message under [ai_error], has no [ai_analysis], and its status,
    confidence, reasons and counts are those of the scorer. *)
Theorem transport_error_degrades
    (U : ucd) (max_str_digits : N)
    (requests_post :
       list N -> list (list N * list N) -> list (list N * list N) ->
       result Handler.Response)
    (p : ProductAnalysis) (msg : list N) :
  strip U (combined_text p) <> [] ->
  detect requests_post (combined_text p) = Raise (RequestException msg) ->
  exists a,
    Scorer.analyze_product_legitimacy U max_str_digits p = Ok a /\
    Handler.analyze_product U max_str_digits requests_post p =
      Handler.Http200
        {| Handler.success := true;
           Handler.analysis :=
             {| status := status a;
                confidence := confidence a;
                reasons := reasons a;
                indicators := indicators a;
                ai_analysis := None;
                ai_error := Some msg |};
           Handler.product_info := (title p, url p) |}.
Proof.
  intros Hstrip Hdet.
  destruct (HandlerFacts.scorer_returns U max_str_digits p) as (a & Ha & Hai & Her).
  exists a. split; [exact Ha|].
  apply (HandlerFacts.analyze_product_done U max_str_digits requests_post p a);
    [exact Ha | exact Hstrip |].
  rewrite (HandlerFacts.ai_detection_transport_error requests_post _ a msg Hdet).
  now rewrite Hai.
Qed.

Lemma transport_error_degrades_witness :
  let p := title_only (lit "Desk lamp") in
  (strip ascii_only (combined_text p) <> [] /\
   detect unreachable (combined_text p) =
   Raise (RequestException (lit "Connection refused"))) /\
  exists a,
    Scorer.analyze_product_legitimacy ascii_only 4300 p = Ok a /\
    Handler.analyze_product ascii_only 4300 unreachable p =
      Handler.Http200
        {| Handler.success := true;
           Handler.analysis :=
             {| status := status a;
                confidence := confidence a;
                reasons := reasons a;
                indicators := indicators a;
                ai_analysis := None;
                ai_error := Some (lit "Connection refused") |};
           Handler.product_info := (title p, url p) |}.
Proof.
  cbv zeta. split.
  - split; [vm_compute; discriminate|reflexivity].
  - apply (transport_error_degrades ascii_only 4300 unreachable
             (title_only (lit "Desk lamp")) (lit "Connection refused")).
    + vm_compute. discriminate.
    + reflexivity.
Defined.

(** ** Further properties: the check-text endpoint *)

Import Aux.

(** X1. The check-text endpoint, outcome by outcome.  It answers 200 with a
    JSON value exactly when the detector client returns that value.  It
    fails with an HTTP error exactly when the POST or the check of the
    status raises a transport error: the status is then 500 and the detail
    "API error: " followed by the cause.  Every other exception escapes
    the endpoint unhandled: one of the POST or the status check that is no
    transport error, and any exception of the decoding of the body, which
    stands outside the [try]. *)
Theorem check_ai_text_outcomes
    (requests_post :
       list N -> list (list N * list N) -> list (list N * list N) ->
       result Handler.Response)
    (text : list N) :
  (forall j,
     Handler.check_ai_text requests_post text = Handler.Http200 j <->
     detect requests_post text = Ok j) /\
  (forall code prefix e,
     Handler.check_ai_text requests_post text =
       Handler.HTTPException code prefix e <->
     code = 500%Z /\ prefix = lit "API error: " /\
     is_request_exception e = true /\ exchange requests_post text = Raise e) /\
  (forall e,
     Handler.check_ai_text requests_post text = Handler.Unhandled e <->
     (is_request_exception e = false /\ exchange requests_post text = Raise e) \/
     (exists response, exchange requests_post text = Ok response /\
                       Handler.json response = Raise e)).
Proof.
  unfold Handler.check_ai_text, exchange.
  assert (Hdet : detect requests_post text =
                 rbind (response <-
                          requests_post Handler.api_link
                            [(lit "Authorization",
                              lit "Key " ++ Handler.api_private_key)]
                            [(lit "text", text)] ;;
                        _ <- Handler.raise_for_status response ;;
                        Ok response)%result Handler.json).
  { unfold detect. destruct (requests_post _ _ _) as [r|e]; [|reflexivity].
    cbn [rbind]. now destruct (Handler.raise_for_status r) as [[]|e]. }
  rewrite Hdet. clear Hdet.
  destruct (rbind (requests_post _ _ _) _) as [r|e]; cbn [rbind].
  - destruct (Handler.json r) as [j0|e0] eqn:Hj.
    + split; [|split].
      * intros j. split; congruence.
      * intros code prefix e. split; [discriminate|].
        intros (_ & _ & _ & H). discriminate.
      * intros e. split; [discriminate|].
        intros [[_ H] | (r' & H & H')]; [discriminate|]. congruence.
    + split; [|split].
      * intros j. split; discriminate.
      * intros code prefix e. split; [discriminate|].
        intros (_ & _ & _ & H). discriminate.
      * intros e. split.
        -- intros [= <-]. right. now exists r.
        -- intros [[_ H] | (r' & H & H')]; [discriminate|]. congruence.
  - split; [|split].
    + intros j. split; [now destruct e|discriminate].
    + intros code prefix e'. split.
      * destruct e; try discriminate. intros [= <- <- <-]. now repeat split.
      * intros (-> & -> & He & [= <-]). now destruct e.
    + intros e'. split.
      * destruct e; try discriminate; intros [= <-]; left; now split.
      * intros [[He [= <-]] | (r' & H & _)]; [now destruct e|discriminate].
Qed.

(** ** Further properties: the rules of the scorer *)

(** X2. A suspicious phrase is found in the title in any capitalisation and
    wherever it stands: when a piece of the title lower-cases, letter by
    letter, to one of the seven phrases, the title rule adds one scam
    indicator with reason "Suspicious language", whatever precedes and
    follows the piece and whatever the character database says. *)
Theorem title_phrase_any_case
    (U : ucd) (p : ProductAnalysis) (st : Var.locals)
    (phrase pre w post : list N) :
  In phrase Scorer.suspicious_words ->
  map ascii_lower w = phrase ->
  title p = pre ++ w ++ post ->
  Scorer.title_rule U p st = Done (scam_added (lit "Suspicious language") st).
Proof.
  intros Hin Hw Ht.
  rewrite ScorerFacts.title_rule_verdict. unfold title_verdict.
  assert (Hex : existsb (fun phrase => contains_nocase U phrase (title p))
                        Scorer.suspicious_words = true).
  { apply existsb_exists. exists phrase. split; [exact Hin|].
    rewrite Ht. apply CaseFacts.contains_nocase_occurrence; [|exact Hw].
    cbn in Hin. repeat (destruct Hin as [<-|Hin]; [reflexivity|]).
    contradiction. }
  now rewrite Hex.
Qed.

Lemma title_phrase_any_case_witness :
  let p := title_only (lit "Buy today - LIMITED Time deal") in
  (In (lit "limited time") Scorer.suspicious_words /\
   map ascii_lower (lit "LIMITED Time") = lit "limited time" /\
   title p = lit "Buy today - " ++ lit "LIMITED Time" ++ lit " deal") /\
  Scorer.title_rule ascii_only p Scorer.initial =
  Done (scam_added (lit "Suspicious language") Scorer.initial).
Proof.
  cbv zeta. split.
  - split; [cbn [Scorer.suspicious_words In]; tauto|]. split; reflexivity.
  - apply (title_phrase_any_case ascii_only
             (title_only (lit "Buy today - LIMITED Time deal")) Scorer.initial
             (lit "limited time") (lit "Buy today - ") (lit "LIMITED Time")
             (lit " deal")).
    + cbn [Scorer.suspicious_words In]. tauto.
    + reflexivity.
    + reflexivity.
Defined.

(** X3. The first number of the price decides, wherever it stands.  When
    the price, [$] and [,] removed, is made of a text without digits, a
    numeral (digits, possibly a point and digits) and a rest that does not
    go on with a digit (nor with a point, when the numeral has none), the
    price rule compares the float of that numeral with 1.0 and 1000; later
    numbers in the rest are not read. *)
Theorem price_number_anywhere
    (U : ucd) (p : ProductAnalysis) (st : Var.locals)
    (pre post : list N) (t : numeric_token) :
  strip_dollar_comma (price p) = pre ++ token_text t ++ post ->
  no_digit U pre ->
  well_formed U t ->
  starts_with_digit U post = false ->
  (frac_part t = None -> Num.after_point post = None) ->
  Scorer.price_rule U p st =
  Done (if F64.ltb (token_value U t) Lit.f1_0
        then scam_added (lit "Low price") st
        else if F64.gtb_Z (token_value U t) 1000
        then legit_added (lit "Normal price") st
        else st).
Proof.
  intros Hprice Hpre Ht Hpost Hpoint.
  rewrite ScorerFacts.price_rule_verdict. unfold price_verdict.
  rewrite Hprice, (TokenFacts.first_numeric_token_skip U pre _ Hpre).
  rewrite (TokenFacts.first_numeric_token_here U _ t
             (TokenFacts.token_at_token U t post Ht Hpost Hpoint)).
  destruct (F64.ltb _ _); [reflexivity|].
  now destruct (F64.gtb_Z _ _).
Qed.

Lemma price_number_anywhere_witness :
  let p := with_price (title_only (lit "Desk lamp"))
                      (lit "From $1,299.99 (was $2,000)") in
  let t := {| int_part := lit "1299"; frac_part := Some (lit "99") |} in
  (strip_dollar_comma (price p) = lit "From " ++ token_text t ++ lit " (was 2000)" /\
   no_digit ascii_only (lit "From ") /\
   well_formed ascii_only t /\
   starts_with_digit ascii_only (lit " (was 2000)") = false /\
   (frac_part t = None -> Num.after_point (lit " (was 2000)") = None)) /\
  Scorer.price_rule ascii_only p Scorer.initial =
  Done (legit_added (lit "Normal price") Scorer.initial).
Proof.
  cbv zeta.
  assert (Hpre : no_digit ascii_only (lit "From "))
    by (repeat constructor).
  assert (Ht : well_formed ascii_only
                 {| int_part := lit "1299"; frac_part := Some (lit "99") |})
    by (split; [discriminate|split; repeat constructor]).
  split.
  - split; [reflexivity|]. split; [exact Hpre|]. split; [exact Ht|].
    split; [reflexivity|discriminate].
  - exact (price_number_anywhere ascii_only
             (with_price (title_only (lit "Desk lamp"))
                         (lit "From $1,299.99 (was $2,000)"))
             Scorer.initial (lit "From ")
             (lit " (was 2000)")
             {| int_part := lit "1299"; frac_part := Some (lit "99") |}
             eq_refl Hpre Ht eq_refl (fun _ => eq_refl)).
Defined.

(** X4. [float] never refuses what the price pattern finds, so the
    [except] branch of the price rule is never taken; and the value is a
    number without a minus sign: never a NaN, never negative. *)
Theorem price_float_never_refuses
    (U : ucd) (p : ProductAnalysis) (group : list N) :
  Re.search U Scorer.price_re (strip_dollar_comma (price p)) = Some group ->
  exists v, Num.float U group = Ok v /\ unsigned_number v.
Proof.
  intros Hm. unfold strip_dollar_comma in Hm.
  rewrite ReFacts.search_price in Hm by apply PyFacts.remove_char_absent.
  destruct (first_numeric_token U _) as [t|] eqn:Ht; [|discriminate].
  injection Hm as <-.
  exists (token_value U t). split.
  - apply NumFacts.float_token.
    exact (NumFacts.first_numeric_token_well_formed U _ t Ht).
  - apply RoundFacts.of_decimal_unsigned.
Qed.

Lemma price_float_never_refuses_witness :
  let p := with_price (title_only (lit "Desk lamp")) (lit "$1,299.") in
  Re.search ascii_only Scorer.price_re (strip_dollar_comma (price p)) =
    Some (lit "1299.") /\
  exists v, Num.float ascii_only (lit "1299.") = Ok v /\ unsigned_number v.
Proof.
  cbv zeta. split; [reflexivity|].
  apply (price_float_never_refuses ascii_only
           (with_price (title_only (lit "Desk lamp")) (lit "$1,299."))
           (lit "1299.")).
  reflexivity.
Defined.

(** X5. A reputable name is found in the seller in any capitalisation and
    wherever it stands: when a piece of the seller lower-cases, letter by
    letter, to amazon, walmart or target, the seller rule adds one legit
    indicator with reason "Reputable seller". *)
Theorem seller_name_any_case
    (U : ucd) (p : ProductAnalysis) (st : Var.locals)
    (name pre w post : list N) :
  In name [lit "amazon"; lit "walmart"; lit "target"] ->
  map ascii_lower w = name ->
  seller p = pre ++ w ++ post ->
  Scorer.seller_rule U p st = Done (legit_added (lit "Reputable seller") st).
Proof.
  intros Hin Hw Hs.
  rewrite ScorerFacts.seller_rule_verdict. unfold seller_verdict.
  assert (Hc : contains_nocase U name (seller p) = true).
  { rewrite Hs. apply CaseFacts.contains_nocase_occurrence; [|exact Hw].
    cbn in Hin. repeat (destruct Hin as [<-|Hin]; [reflexivity|]).
    contradiction. }
  assert (Hne : seller p <> []).
  { rewrite Hs. intros E. apply app_eq_nil in E. destruct E as [_ E].
    apply app_eq_nil in E. destruct E as [E _]. subst w.
    cbn in Hw. subst name. cbn in Hin.
    repeat (destruct Hin as [Hin|Hin]; [discriminate Hin|]). contradiction. }
  destruct (seller p) as [|c s]; [congruence|].
  cbn [In] in Hin. destruct Hin as [<-|[<-|[<-|[]]]]; rewrite Hc;
    rewrite ?orb_true_r; reflexivity.
Qed.

Lemma seller_name_any_case_witness :
  let p := with_seller (title_only (lit "Desk lamp"))
                       (lit "Sold by WALMART.com") in
  (In (lit "walmart") [lit "amazon"; lit "walmart"; lit "target"] /\
   map ascii_lower (lit "WALMART") = lit "walmart" /\
   seller p = lit "Sold by " ++ lit "WALMART" ++ lit ".com") /\
  Scorer.seller_rule ascii_only p Scorer.initial =
  Done (legit_added (lit "Reputable seller") Scorer.initial).
Proof.
  cbv zeta. split.
  - split; [cbn [In]; tauto|]. split; reflexivity.
  - apply (seller_name_any_case ascii_only
             (with_seller (title_only (lit "Desk lamp"))
                          (lit "Sold by WALMART.com"))
             Scorer.initial
             (lit "walmart") (lit "Sold by ") (lit "WALMART") (lit ".com")).
    + cbn [In]. tauto.
    + reflexivity.
    + reflexivity.
Defined.

(** X6. The rating is read whole: a rating that holds one character no
    float numeral can hold (a letter of "stars", a slash, a comma) is
    refused by [float], the rating rule does nothing, and the scorer
    returns what it returns on the product without a rating. *)
Theorem rating_with_other_text
    (U : ucd) (max_str_digits : N) (p : ProductAnalysis) (c : N) :
  In c (rating p) -> float_text_char U c = false ->
  (forall st, Scorer.rating_rule U p st = Done st) /\
  Scorer.analyze_product_legitimacy U max_str_digits p =
  Scorer.analyze_product_legitimacy U max_str_digits (with_rating p []).
Proof.
  intros Hin Hc.
  pose proof (FloatFacts.float_foreign U _ c Hin Hc) as Hf.
  assert (Hv : rating_verdict U (rating p) = NoEffect).
  { unfold rating_verdict. rewrite Hf. now destruct (rating p). }
  split.
  - intros st. rewrite ScorerFacts.rating_rule_verdict. now rewrite Hv.
  - unfold Scorer.analyze_product_legitimacy.
    rewrite !ScorerFacts.rules_verdicts. unfold verdicts.
    cbn [with_rating title price seller rating reviews_count].
    now rewrite Hv.
Qed.

Lemma rating_with_other_text_witness :
  let p := product "Desk lamp" "" "" "4.8 out of 5 stars" "" in
  (In 111%N (rating p) /\ float_text_char ascii_only 111 = false) /\
  (forall st, Scorer.rating_rule ascii_only p st = Done st) /\
  Scorer.analyze_product_legitimacy ascii_only 4300 p =
  Scorer.analyze_product_legitimacy ascii_only 4300 (with_rating p []).
Proof.
  cbv zeta. split.
  - split; [|reflexivity]. cbn. tauto.
  - apply (rating_with_other_text ascii_only 4300
             (product "Desk lamp" "" "" "4.8 out of 5 stars" "") 111%N);
      [cbn; tauto|reflexivity].
Defined.

(** X7. A rating that is a plain numeral (digits, possibly a point and
    digits) is compared as the float it reads as: below 2.0 one scam
    indicator with reason "Low rating", above 4.0 one legit indicator with
    reason "Good rating", no upper bound on the rating being checked. *)
Theorem rating_numeral
    (U : ucd) (p : ProductAnalysis) (st : Var.locals) (t : numeric_token) :
  rating p = token_text t -> well_formed U t ->
  Scorer.rating_rule U p st =
  Done (if F64.ltb (token_value U t) Lit.f2_0
        then scam_added (lit "Low rating") st
        else if F64.gtb (token_value U t) Lit.f4_0
        then legit_added (lit "Good rating") st
        else st).
Proof.
  intros Hr Ht. rewrite ScorerFacts.rating_rule_verdict. unfold rating_verdict.
  rewrite Hr, (NumFacts.float_token U t Ht).
  destruct (token_text t) as [|c s] eqn:Htext.
  - destruct Ht as (Hne & _). unfold token_text in Htext.
    apply app_eq_nil in Htext. tauto.
  - destruct (F64.ltb _ _); [reflexivity|]. now destruct (F64.gtb _ _).
Qed.

Lemma rating_numeral_witness :
  let p := with_rating (title_only (lit "Desk lamp")) (lit "4.8") in
  let t := {| int_part := lit "4"; frac_part := Some (lit "8") |} in
  (rating p = token_text t /\ well_formed ascii_only t) /\
  Scorer.rating_rule ascii_only p Scorer.initial =
  Done (legit_added (lit "Good rating") Scorer.initial).
Proof.
  cbv zeta.
  assert (Ht : well_formed ascii_only
                 {| int_part := lit "4"; frac_part := Some (lit "8") |})
    by (split; [discriminate|split; repeat constructor]).
  split.
  - split; [reflexivity|exact Ht].
  - exact (rating_numeral ascii_only
             (with_rating (title_only (lit "Desk lamp")) (lit "4.8"))
             Scorer.initial
             {| int_part := lit "4"; frac_part := Some (lit "8") |}
             eq_refl Ht).
Defined.

(** X8. The first run of digits of the review count decides, wherever it
    stands.  When the review count, [,] removed, is made of a text without
    digits, a run of digits and a rest that does not go on with a digit,
    the review-count rule compares the integer of the run with 5 and 50
    (or does nothing when the run is longer than the interpreter allows). *)
Theorem reviews_number_anywhere
    (U : ucd) (max_str_digits : N) (p : ProductAnalysis) (st : Var.locals)
    (pre ds post : list N) :
  strip_comma (reviews_count p) = pre ++ ds ++ post ->
  no_digit U pre ->
  decimals U ds -> ds <> [] ->
  starts_with_digit U post = false ->
  Scorer.reviews_rule U max_str_digits p st =
  Done (if too_long max_str_digits ds then st
        else if (Z.of_N (run_value U ds) <? 5)%Z
        then scam_added (lit "Few reviews") st
        else if (Z.of_N (run_value U ds) >? 50)%Z
        then legit_added (lit "Many reviews") st
        else st).
Proof.
  intros Hrc Hpre Hds Hne Hpost.
  rewrite ScorerFacts.reviews_rule_verdict. unfold reviews_verdict.
  rewrite Hrc, (TokenFacts.first_digit_run_skip U pre _ Hpre).
  rewrite (TokenFacts.first_digit_run_here U ds post Hds Hne Hpost).
  destruct (too_long max_str_digits ds); [reflexivity|].
  destruct (_ <? 5)%Z; [reflexivity|].
  now destruct (_ >? 50)%Z.
Qed.

Lemma reviews_number_anywhere_witness :
  let p := with_reviews_count (title_only (lit "Desk lamp"))
                              (lit "(1,234 ratings)") in
  (strip_comma (reviews_count p) = lit "(" ++ lit "1234" ++ lit " ratings)" /\
   no_digit ascii_only (lit "(") /\
   decimals ascii_only (lit "1234") /\ lit "1234" <> [] /\
   starts_with_digit ascii_only (lit " ratings)") = false) /\
  Scorer.reviews_rule ascii_only 4300 p Scorer.initial =
  Done (legit_added (lit "Many reviews") Scorer.initial).
Proof.
  cbv zeta.
  assert (Hpre : no_digit ascii_only (lit "(")) by (repeat constructor).
  assert (Hds : decimals ascii_only (lit "1234")) by (repeat constructor).
  assert (Hne : lit "1234" <> []) by discriminate.
  split.
  - split; [reflexivity|]. split; [exact Hpre|]. split; [exact Hds|].
    split; [exact Hne|reflexivity].
  - exact (reviews_number_anywhere ascii_only 4300
             (with_reviews_count (title_only (lit "Desk lamp"))
                                 (lit "(1,234 ratings)"))
             Scorer.initial (lit "(") (lit "1234") (lit " ratings)")
             eq_refl Hpre Hds Hne eq_refl).
Defined.

(** ** Further properties: what the scorer returns *)

(** X9. The confidence of the scorer takes six values.  A tie gives 0.4; a
    status scam gives, for 1 to 5 scam indicators, 0.75,
    0.7999999999999999, 0.85, 0.8999999999999999 and 0.95 (binary64
    arithmetic: neither 0.8 nor 0.9); a status legit gives the first four
    of these, since the title rule never adds a legit indicator and the
    legit count is at most 4. *)
Theorem confidence_values
    (U : ucd) (max_str_digits : N) (p : ProductAnalysis) :
  exists a,
    Scorer.analyze_product_legitimacy U max_str_digits p = Ok a /\
    let s := scam_indicators (indicators a) in
    let l := legit_indicators (indicators a) in
    match status a with
    | uncertain => s = l /\ confidence a = Lit.f0_4
    | scam => (s > l)%Z /\ In (s, confidence a) confidence_table
    | legit => (l > s)%Z /\ (l <= 4)%Z /\ In (l, confidence a) confidence_table
    end.
Proof.
  destruct (ScorerFacts.rules_counts U max_str_digits p)
    as (vars & Hrules & _ & Hs & Hl & _ & _ & _).
  eexists. split.
  - unfold Scorer.analyze_product_legitimacy. rewrite Hrules.
    rewrite ScorerFacts.final_status_small by lia.
    cbn [rbind]. reflexivity.
  - cbn [indicators scam_indicators legit_indicators status confidence].
    destruct (Z.gtb_spec (Var.scam_indicators vars) (Var.legit_indicators vars));
      [|destruct (Z.gtb_spec (Var.legit_indicators vars)
                             (Var.scam_indicators vars))];
      cbn [fst snd].
    + split; [lia|]. apply ScoreFacts.conf_of_count_table. lia.
    + split; [lia|]. split; [lia|]. apply ScoreFacts.conf_of_count_table. lia.
    + split; [lia|reflexivity].
Qed.

(** X10. The reasons of the scorer never repeat, they come from the nine
    strings the rules append, and "AI-generated content detected" is none
    of them, so the list stays free of repetitions when the handler adds
    it. *)
Theorem reasons_never_repeat
    (U : ucd) (max_str_digits : N) (p : ProductAnalysis) :
  exists a,
    Scorer.analyze_product_legitimacy U max_str_digits p = Ok a /\
    NoDup (reasons a ++ [ai_reason]) /\
    incl (reasons a) scorer_reasons.
Proof.
  destruct (ScorerFacts.rules_counts U max_str_digits p)
    as (vars & Hrules & Hr & Hs & Hl & _ & _ & _).
  eexists. split.
  - unfold Scorer.analyze_product_legitimacy. rewrite Hrules.
    rewrite ScorerFacts.final_status_small by lia.
    cbn [rbind]. reflexivity.
  - cbn [reasons]. rewrite Hr.
    pose proof (ScoreFacts.reasons_check U max_str_digits p) as H.
    apply andb_prop in H. destruct H as [Hd Hk]. split.
    + now apply ScoreFacts.distinct_NoDup.
    + intros r Hin. rewrite forallb_forall in Hk. specialize (Hk r Hin).
      apply existsb_exists in Hk. destruct Hk as (x & Hx & Heq).
      apply ScoreFacts.str_eqb_eq in Heq. now subst.
Qed.

(** ** Further properties: the analyze-product endpoint *)

(** X11. When the title and the description hold nothing but white space
    the detector is not called: whatever the network would do, the handler
    answers 200 with the result of the scorer, which has neither
    [ai_analysis] nor [ai_error]. *)
Theorem blank_text_skips_detector
    (U : ucd) (max_str_digits : N) (p : ProductAnalysis) :
  forallb (unicode_isspace U) (title p ++ description p) = true ->
  exists a,
    Scorer.analyze_product_legitimacy U max_str_digits p = Ok a /\
    ai_analysis a = None /\ ai_error a = None /\
    forall requests_post,
      Handler.analyze_product U max_str_digits requests_post p =
      Handler.Http200 (answer p a).
Proof.
  intros Hblank.
  destruct (EndpointFacts.scorer_result U max_str_digits p)
    as (a & Ha & Hai & Her & _).
  exists a. split; [exact Ha|]. split; [exact Hai|]. split; [exact Her|].
  intros requests_post.
  rewrite (EndpointFacts.analyze_product_table U max_str_digits requests_post p a Ha).
  rewrite EndpointFacts.strip_blank; [reflexivity|].
  unfold combined_text. rewrite forallb_app in Hblank |- *.
  apply andb_prop in Hblank. destruct Hblank as [Ht Hd].
  rewrite Ht. cbn [app forallb andb]. exact Hd.
Qed.

Lemma blank_text_skips_detector_witness :
  let p := product "   " "$1500" "Amazon" "" "" in
  forallb (unicode_isspace ascii_only) (title p ++ description p) = true /\
  exists a,
    Scorer.analyze_product_legitimacy ascii_only 4300 p = Ok a /\
    ai_analysis a = None /\ ai_error a = None /\
    forall requests_post,
      Handler.analyze_product ascii_only 4300 requests_post p =
      Handler.Http200 (answer p a).
Proof.
  cbv zeta. split; [reflexivity|].
  apply (blank_text_skips_detector ascii_only 4300
           (product "   " "$1500" "Amazon" "" "")).
  reflexivity.
Defined.

(** X12. A detector answer whose score cannot be read fails the whole
    request, the result of the scorer included: a JSON value that is
    neither an object, a list nor a string, or an object whose score is
    not a number, gives status 500 with cause [TypeError]; a list or a
    string that contains "score" gives status 500 with cause
    [AttributeError].  The detail is "Analysis error: " followed by the
    cause. *)
Theorem malformed_answer_fails_request
    (U : ucd) (max_str_digits : N)
    (requests_post :
       list N -> list (list N * list N) -> list (list N * list N) ->
       result Handler.Response)
    (p : ProductAnalysis) (j : pyval) (e : exn) :
  strip U (combined_text p) <> [] ->
  detect requests_post (combined_text p) = Ok j ->
  score_error j = Some e ->
  Handler.analyze_product U max_str_digits requests_post p =
  Handler.HTTPException 500 (lit "Analysis error: ") e.
Proof.
  intros Hstrip Hdet Herr.
  destruct (EndpointFacts.scorer_result U max_str_digits p) as (a & Ha & _).
  rewrite (EndpointFacts.analyze_product_table U max_str_digits requests_post p a Ha).
  destruct (strip U (combined_text p)); [congruence|].
  now rewrite Hdet, Herr.
Qed.

Lemma malformed_answer_fails_request_witness :
  let p := title_only (lit "Desk lamp") in
  let j := PList [PStr (lit "score"); PFloat f0_9] in
  (strip ascii_only (combined_text p) <> [] /\
   detect (answers j) (combined_text p) = Ok j /\
   score_error j = Some AttributeError) /\
  Handler.analyze_product ascii_only 4300 (answers j) p =
  Handler.HTTPException 500 (lit "Analysis error: ") AttributeError.
Proof.
  cbv zeta. split.
  - split; [vm_compute; discriminate|]. split; reflexivity.
  - apply (malformed_answer_fails_request ascii_only 4300
             (answers (PList [PStr (lit "score"); PFloat f0_9]))
             (title_only (lit "Desk lamp"))
             (PList [PStr (lit "score"); PFloat f0_9]) AttributeError).
    + vm_compute. discriminate.
    + reflexivity.
    + reflexivity.
Defined.

(** X13. Every other detector answer is attached and blended: the handler
    answers 200, the answer stands under [ai_analysis], and a score above
    0.7 (the boolean [true] counts as 1) turns legit into uncertain,
    lowers its confidence and adds the reason.  An answer without a score,
    or with a score that is not above 0.7, leaves status, confidence and
    reasons of the scorer as they are. *)
Theorem readable_answer_is_blended
    (U : ucd) (max_str_digits : N)
    (requests_post :
       list N -> list (list N * list N) -> list (list N * list N) ->
       result Handler.Response)
    (p : ProductAnalysis) (j : pyval) :
  strip U (combined_text p) <> [] ->
  detect requests_post (combined_text p) = Ok j ->
  score_error j = None ->
  exists a,
    Scorer.analyze_product_legitimacy U max_str_digits p = Ok a /\
    Handler.analyze_product U max_str_digits requests_post p =
    Handler.Http200 (answer p (with_detection j a)) /\
    (score_high j = false ->
     with_detection j a =
     {| status := status a; confidence := confidence a; reasons := reasons a;
        indicators := indicators a; ai_analysis := Some j; ai_error := None |}).
Proof.
  intros Hstrip Hdet Herr.
  destruct (EndpointFacts.scorer_result U max_str_digits p)
    as (a & Ha & _ & Her & _).
  exists a. split; [exact Ha|]. split.
  - rewrite (EndpointFacts.analyze_product_table U max_str_digits requests_post p a Ha).
    destruct (strip U (combined_text p)); [congruence|].
    now rewrite Hdet, Herr.
  - intros Hlow. unfold with_detection. rewrite Hlow, Her. reflexivity.
Qed.

Lemma readable_answer_is_blended_witness :
  let p := with_seller (title_only (lit "USB cable")) (lit "Amazon") in
  let j := PDict [(lit "score", PBool true)] in
  (strip ascii_only (combined_text p) <> [] /\
   detect (answers j) (combined_text p) = Ok j /\
   score_error j = None) /\
  exists a,
    Scorer.analyze_product_legitimacy ascii_only 4300 p = Ok a /\
    Handler.analyze_product ascii_only 4300 (answers j) p =
    Handler.Http200 (answer p (with_detection j a)) /\
    status a = legit /\
    status (with_detection j a) = uncertain /\
    reasons (with_detection j a) = [lit "Reputable seller"; ai_reason].
Proof.
  cbv zeta. split.
  - split; [vm_compute; discriminate|]. split; reflexivity.
  - destruct (readable_answer_is_blended ascii_only 4300
                (answers (PDict [(lit "score", PBool true)]))
                (with_seller (title_only (lit "USB cable")) (lit "Amazon"))
                (PDict [(lit "score", PBool true)]))
      as (a & Ha & Hhandler & _).
    + vm_compute. discriminate.
    + reflexivity.
    + reflexivity.
    + exists a. split; [exact Ha|]. split; [exact Hhandler|].
      vm_compute in Ha. injection Ha as <-. repeat split.
Defined.

(** X14. The floor of 0.3 is never in effect.  A 200 answer whose status is
    uncertain although the legit count is above the scam count is a
    downgraded legit status: its confidence is that of the scorer minus
    0.2, one of 0.55, 0.5999999999999999, 0.6499999999999999 and 0.7 (so
    above the 0.4 of a tie), and its reasons hold "AI-generated content
    detected". *)
Theorem downgrade_never_hits_floor
    (U : ucd) (max_str_digits : N)
    (requests_post :
       list N -> list (list N * list N) -> list (list N * list N) ->
       result Handler.Response)
    (p : ProductAnalysis) (body : Handler.AnalysisResponse) :
  Handler.analyze_product U max_str_digits requests_post p =
    Handler.Http200 body ->
  status (Handler.analysis body) = uncertain ->
  (legit_indicators (indicators (Handler.analysis body)) >
   scam_indicators (indicators (Handler.analysis body)))%Z ->
  exists a,
    Scorer.analyze_product_legitimacy U max_str_digits p = Ok a /\
    status a = legit /\
    confidence (Handler.analysis body) = F64.sub (confidence a) Lit.f0_2 /\
    In (legit_indicators (indicators a), confidence (Handler.analysis body))
       downgraded_table /\
    In ai_reason (reasons (Handler.analysis body)).
Proof.
  intros Hans Hst Hcnt.
  destruct (EndpointFacts.scorer_result U max_str_digits p)
    as (a & Ha & _ & _ & Hs & Hl & Hsc & _).
  exists a. split; [exact Ha|].
  rewrite (EndpointFacts.analyze_product_table U max_str_digits requests_post p a Ha)
    in Hans.
  cbv zeta in Hsc.
  assert (Hlegit : forall a', indicators a' = indicators a ->
            (legit_indicators (indicators a') > scam_indicators (indicators a'))%Z ->
            status a = legit /\
            confidence a = conf_of_count (legit_indicators (indicators a)) /\
            (1 <= legit_indicators (indicators a) <= 4)%Z).
  { intros a' Hi Hgt. rewrite Hi in Hgt.
    destruct (Z.gtb_spec (scam_indicators (indicators a))
                         (legit_indicators (indicators a))); [lia|].
    destruct (Z.gtb_spec (legit_indicators (indicators a))
                         (scam_indicators (indicators a))); [|lia].
    injection Hsc as -> ->. repeat split; lia. }
  assert (Hplain : forall a', indicators a' = indicators a ->
            status a' = status a ->
            (legit_indicators (indicators a') > scam_indicators (indicators a'))%Z ->
            status a' <> uncertain).
  { intros a' Hi Hs' Hgt. destruct (Hlegit a' Hi Hgt) as (Hlg & _).
    congruence. }
  destruct (strip U (combined_text p)).
  { injection Hans as <-. cbn [answer Handler.analysis] in Hst, Hcnt.
    now destruct (Hplain a eq_refl eq_refl Hcnt). }
  destruct (detect requests_post (combined_text p)) as [j'|e].
  - destruct (score_error j'); [discriminate|].
    injection Hans as <-. cbn [answer Handler.analysis] in *.
    destruct (Hlegit _ eq_refl Hcnt) as (Hlg & Hconf & Hrange).
    split; [exact Hlg|].
    unfold with_detection in *. rewrite Hlg in *.
    cbn [Handler.status_eqb] in *. rewrite andb_true_r in *.
    destruct (score_high j'); cbn [status confidence reasons indicators] in *.
    + rewrite Hconf.
      destruct (EndpointFacts.downgrade_small _ Hrange) as (Hmax & Hin).
      rewrite Hmax. split; [reflexivity|]. split; [exact Hin|].
      apply in_or_app. right. now left.
    + congruence.
  - destruct e; try discriminate.
    injection Hans as <-. cbn [answer Handler.analysis with_error] in Hst, Hcnt.
    now destruct (Hplain (with_error msg a) eq_refl eq_refl Hcnt).
Qed.

Lemma downgrade_never_hits_floor_witness :
  let p := with_seller (title_only (lit "USB cable")) (lit "Amazon") in
  let rp := answers (PDict [(lit "score", PFloat f0_9)]) in
  exists body,
    (Handler.analyze_product ascii_only 4300 rp p = Handler.Http200 body /\
     status (Handler.analysis body) = uncertain /\
     (legit_indicators (indicators (Handler.analysis body)) >
      scam_indicators (indicators (Handler.analysis body)))%Z) /\
    exists a,
      Scorer.analyze_product_legitimacy ascii_only 4300 p = Ok a /\
      status a = legit /\
      confidence (Handler.analysis body) = F64.sub (confidence a) Lit.f0_2 /\
      In (legit_indicators (indicators a), confidence (Handler.analysis body))
         downgraded_table /\
      In ai_reason (reasons (Handler.analysis body)).
Proof.
  cbv zeta. eexists. split.
  - split; [vm_compute; reflexivity|]. split; [reflexivity|]. reflexivity.
  - apply (downgrade_never_hits_floor ascii_only 4300
             (answers (PDict [(lit "score", PFloat f0_9)]))
             (with_seller (title_only (lit "USB cable")) (lit "Amazon"))).
    + vm_compute. reflexivity.
    + reflexivity.
    + reflexivity.
Defined.

(** X15. The analyze-product endpoint fails only through the detector
    exchange.  A failure has status 500 and detail "Analysis error: "
    followed by the cause; the combined text is then not blank, the cause
    is no transport error, and it is either an exception of the detector
    client or the error of reading the score of its answer.  The scorer
    never fails a request. *)
Theorem failure_comes_from_detector
    (U : ucd) (max_str_digits : N)
    (requests_post :
       list N -> list (list N * list N) -> list (list N * list N) ->
       result Handler.Response)
    (p : ProductAnalysis) (code : Z) (prefix : list N) (e : exn) :
  Handler.analyze_product U max_str_digits requests_post p =
    Handler.HTTPException code prefix e ->
  code = 500%Z /\ prefix = lit "Analysis error: " /\
  strip U (combined_text p) <> [] /\
  is_request_exception e = false /\
  (detect requests_post (combined_text p) = Raise e \/
   exists j, detect requests_post (combined_text p) = Ok j /\
             score_error j = Some e).
Proof.
  intros Hans.
  destruct (EndpointFacts.scorer_result U max_str_digits p) as (a & Ha & _).
  rewrite (EndpointFacts.analyze_product_table U max_str_digits requests_post p a Ha)
    in Hans.
  destruct (strip U (combined_text p)) as [|c s]; [discriminate|].
  destruct (detect requests_post (combined_text p)) as [j|e'].
  - destruct (score_error j) as [e'|] eqn:Herr; [|discriminate].
    injection Hans as <- <- <-.
    repeat split; [discriminate| |right; now exists j].
    destruct j as [| | | | s' | l | d]; cbn in Herr.
    + now injection Herr as <-.
    + now injection Herr as <-.
    + now injection Herr as <-.
    + now injection Herr as <-.
    + destruct (contains _ _); [now injection Herr as <-|discriminate].
    + destruct (existsb _ _); [now injection Herr as <-|discriminate].
    + destruct (Handler.dict_get d _) as [[| | | | | |]|];
        try discriminate; now injection Herr as <-.
  - destruct e'; try discriminate; injection Hans as <- <- <-;
      (repeat split; [discriminate|now left]).
Qed.

Lemma failure_comes_from_detector_witness :
  let p := title_only (lit "Desk lamp") in
  let rp := answers (PDict [(lit "score", PStr (lit "0.9"))]) in
  Handler.analyze_product ascii_only 4300 rp p =
    Handler.HTTPException 500 (lit "Analysis error: ") TypeError /\
  (500 = 500)%Z /\ lit "Analysis error: " = lit "Analysis error: " /\
  strip ascii_only (combined_text p) <> [] /\
  is_request_exception TypeError = false /\
  (detect rp (combined_text p) = Raise TypeError \/
   exists j, detect rp (combined_text p) = Ok j /\
             score_error j = Some TypeError).
Proof.
  cbv zeta. split; [vm_compute; reflexivity|].
  apply (failure_comes_from_detector ascii_only 4300
           (answers (PDict [(lit "score", PStr (lit "0.9"))]))
           (title_only (lit "Desk lamp"))).
  vm_compute. reflexivity.
Defined.

(** X16. What every 200 answer of the analyze-product endpoint satisfies:
    [success] is true and [product_info] repeats title and url of the
    request; the counts are those of the scorer; the status is that of the
    scorer, or uncertain in place of legit; the reasons are those of the
    scorer, possibly followed by "AI-generated content detected", and
    never repeat; [ai_analysis] and [ai_error] are never both present; the
    confidence is one of ten values, between 0.4 and 0.95. *)
Theorem ok_answer_invariant
    (U : ucd) (max_str_digits : N)
    (requests_post :
       list N -> list (list N * list N) -> list (list N * list N) ->
       result Handler.Response)
    (p : ProductAnalysis) (body : Handler.AnalysisResponse) :
  Handler.analyze_product U max_str_digits requests_post p =
    Handler.Http200 body ->
  exists a,
    Scorer.analyze_product_legitimacy U max_str_digits p = Ok a /\
    let a' := Handler.analysis body in
    Handler.success body = true /\
    Handler.product_info body = (title p, url p) /\
    indicators a' = indicators a /\
    (status a' = status a \/ status a = legit /\ status a' = uncertain) /\
    (reasons a' = reasons a \/ reasons a' = reasons a ++ [ai_reason]) /\
    NoDup (reasons a') /\
    (ai_analysis a' = None \/ ai_error a' = None) /\
    In (confidence a')
       (Lit.f0_4 :: map snd confidence_table ++ map snd downgraded_table).
Proof.
  intros Hans.
  destruct (EndpointFacts.scorer_result U max_str_digits p)
    as (a & Ha & Hai & Her & Hs & Hl & Hsc & Hr).
  exists a. split; [exact Ha|]. cbv zeta.
  rewrite (EndpointFacts.analyze_product_table U max_str_digits requests_post p a Ha)
    in Hans.
  pose proof (ScoreFacts.reasons_check U max_str_digits p) as Hchk.
  apply andb_prop in Hchk. destruct Hchk as [Hdist _].
  apply ScoreFacts.distinct_NoDup in Hdist. rewrite <- Hr in Hdist.
  assert (Hnd : NoDup (reasons a)) by (now apply NoDup_app_remove_r in Hdist).
  assert (Hconf : In (confidence a) (Lit.f0_4 :: map snd confidence_table
                                       ++ map snd downgraded_table)).
  { cbv zeta in Hsc.
    destruct (Z.gtb_spec (scam_indicators (indicators a))
                         (legit_indicators (indicators a)));
      [|destruct (Z.gtb_spec (legit_indicators (indicators a))
                             (scam_indicators (indicators a)))];
      injection Hsc as _ ->.
    - right. apply in_or_app. left.
      apply (in_map snd confidence_table
               (scam_indicators (indicators a), _)),
        ScoreFacts.conf_of_count_table. lia.
    - right. apply in_or_app. left.
      apply (in_map snd confidence_table
               (legit_indicators (indicators a), _)),
        ScoreFacts.conf_of_count_table. lia.
    - now left. }
  assert (Hplain : forall b, status b = status a -> confidence b = confidence a ->
            reasons b = reasons a -> indicators b = indicators a ->
            (ai_analysis b = None \/ ai_error b = None) ->
            Handler.Http200 (answer p b) = Handler.Http200 body ->
            Handler.success body = true /\
            Handler.product_info body = (title p, url p) /\
            indicators (Handler.analysis body) = indicators a /\
            (status (Handler.analysis body) = status a \/
             status a = legit /\ status (Handler.analysis body) = uncertain) /\
            (reasons (Handler.analysis body) = reasons a \/
             reasons (Handler.analysis body) = reasons a ++ [ai_reason]) /\
            NoDup (reasons (Handler.analysis body)) /\
            (ai_analysis (Handler.analysis body) = None \/
             ai_error (Handler.analysis body) = None) /\
            In (confidence (Handler.analysis body))
               (Lit.f0_4 :: map snd confidence_table ++ map snd downgraded_table)).
  { intros b Hb1 Hb2 Hb3 Hb4 Hb5 [= <-].
    cbn [answer Handler.success Handler.product_info Handler.analysis].
    rewrite Hb2, Hb3.
    repeat split; try assumption; now left. }
  destruct (strip U (combined_text p)).
  { apply (Hplain a); try reflexivity; [now left|exact Hans]. }
  destruct (detect requests_post (combined_text p)) as [j|e].
  - destruct (score_error j); [discriminate|].
    destruct (score_high j) eqn:Hhigh.
    + injection Hans as <-.
      cbn [answer Handler.success Handler.product_info Handler.analysis].
      unfold with_detection. rewrite Hhigh.
      cbn [status confidence reasons indicators ai_analysis ai_error andb].
      split; [reflexivity|]. split; [reflexivity|]. split; [reflexivity|].
      assert (Hcase : Handler.status_eqb (status a) legit = true /\ status a = legit
                      \/ Handler.status_eqb (status a) legit = false)
        by (destruct (status a); cbn; tauto).
      destruct Hcase as [[Heq Hlg] | Heq]; rewrite Heq.
      * split; [now right|]. split; [now right|]. split; [exact Hdist|].
        split; [now right|].
        cbv zeta in Hsc. rewrite Hlg in Hsc.
        destruct (_ >? _)%Z; [discriminate|].
        destruct (Z.gtb_spec (legit_indicators (indicators a))
                             (scam_indicators (indicators a))); [|discriminate].
        injection Hsc as ->.
        destruct (EndpointFacts.downgrade_small
                    (legit_indicators (indicators a))) as (Hmax & Hin); [lia|].
        rewrite Hmax. right. apply in_or_app. right.
        apply (in_map snd downgraded_table
                 (legit_indicators (indicators a), _)), Hin.
      * split; [now left|]. split; [now right|]. split; [exact Hdist|].
        split; [now right|exact Hconf].
    + apply (Hplain (with_detection j a)); [..|exact Hans];
        unfold with_detection; rewrite Hhigh; try reflexivity.
      now right.
  - destruct e; try discriminate.
    apply (Hplain (with_error msg a)); try reflexivity; [now left|exact Hans].
Qed.

Lemma ok_answer_invariant_witness :
  let p := product "Act now: miracle cure" "$0.50" "xx" "1.0" "2" in
  let rp := answers (PDict [(lit "score", PFloat f0_9)]) in
  exists body,
    Handler.analyze_product ascii_only 4300 rp p = Handler.Http200 body /\
    exists a,
      Scorer.analyze_product_legitimacy ascii_only 4300 p = Ok a /\
      let a' := Handler.analysis body in
      Handler.success body = true /\
      Handler.product_info body = (title p, url p) /\
      indicators a' = indicators a /\
      (status a' = status a \/ status a = legit /\ status a' = uncertain) /\
      (reasons a' = reasons a \/ reasons a' = reasons a ++ [ai_reason]) /\
      NoDup (reasons a') /\
      (ai_analysis a' = None \/ ai_error a' = None) /\
      In (confidence a')
         (Lit.f0_4 :: map snd confidence_table ++ map snd downgraded_table).
Proof.
  cbv zeta. eexists. split; [vm_compute; reflexivity|].
  apply (ok_answer_invariant ascii_only 4300
           (answers (PDict [(lit "score", PFloat f0_9)]))
           (product "Act now: miracle cure" "$0.50" "xx" "1.0" "2")).
  vm_compute. reflexivity.
Defined.



(** ** The model at work

    Runs of the scorer on the examples of the specification, and on inputs
    at the edges of the builtins. *)

Example run_reputable_listing :
  summary (Scorer.analyze_product_legitimacy ascii_only 4300
             (product "Wireless Mouse" "$1,500.75" "Amazon.com" "4.8"
                      "1,200 ratings")) =
  Some (legit, conf_of_count 4,
        [lit "Normal price"; lit "Reputable seller"; lit "Good rating";
         lit "Many reviews"], 0%Z, 4%Z).
Proof. vm_compute. reflexivity. Qed.

Example run_suspicious_title :
  summary (Scorer.analyze_product_legitimacy ascii_only 4300
             (product "Exclusive Offer - Act Now!" "" "" "" "")) =
  Some (scam, conf_of_count 1, [lit "Suspicious language"], 1%Z, 0%Z).
Proof. vm_compute. reflexivity. Qed.

Example run_digit_seller :
  summary (Scorer.analyze_product_legitimacy ascii_only 4300
             (product "Desk lamp" "" "42" "" "")) =
  Some (scam, conf_of_count 1, [lit "Suspicious seller"], 1%Z, 0%Z).
Proof. vm_compute. reflexivity. Qed.

(** The value compared with 1.0 is the float: a numeral just below one that
    rounds to 1.0 is not a low price. *)
Example run_price_rounds_to_one (st : Var.locals) :
  Scorer.price_rule ascii_only
    (product "Desk lamp" "0.99999999999999999999" "" "" "") st = Done st
  /\ Scorer.price_rule ascii_only
       (product "Desk lamp" "0.9999999999999999" "" "" "") st =
     Done (scam_added (lit "Low price") st).
Proof. split; vm_compute; reflexivity. Qed.

(** The digits need not start the review count. *)
Example run_reviews_in_brackets (st : Var.locals) :
  Scorer.reviews_rule ascii_only 4300
    (product "Desk lamp" "" "" "" "(3 reviews)") st =
  Done (scam_added (lit "Few reviews") st).
Proof. reflexivity. Qed.

(** A run of digits longer than the limit is refused by [int]. *)
Example run_reviews_too_long (st : Var.locals) :
  Scorer.reviews_rule ascii_only 4300
    (with_reviews_count (product "Desk lamp" "" "" "" "") (repeat 57%N 4301)) st
  = Done st
  /\ Scorer.reviews_rule ascii_only 0
       (with_reviews_count (product "Desk lamp" "" "" "" "") (repeat 57%N 4301))
       st
     = Done (legit_added (lit "Many reviews") st).
Proof. split; vm_compute; reflexivity. Qed.

(** The length the seller rule tests is that of the lower-cased seller. *)
Example run_seller_lowered_length (st : Var.locals) :
  Scorer.seller_rule dotted_i
    (with_seller (product "Desk lamp" "" "" "" "") [304; 304]%N) st = Done st
  /\ Scorer.seller_rule dotted_i
       (with_seller (product "Desk lamp" "" "" "" "") [105; 105]%N) st =
     Done (scam_added (lit "Suspicious seller") st).
Proof. split; reflexivity. Qed.

(** A detector answer without a score, and one that is not an object. *)
Example run_detector_without_score :
  match Handler.analyze_product ascii_only 4300
          (answers (PDict [(lit "verdict", PStr (lit "human"))]))
          (product "Desk lamp" "" "" "" "") with
  | Handler.Http200 body =>
      summary (Ok (Handler.analysis body)) =
      Some (uncertain, Lit.f0_4, [], 0%Z, 0%Z)
      /\ ai_analysis (Handler.analysis body) =
         Some (PDict [(lit "verdict", PStr (lit "human"))])
  | _ => False
  end
  /\ Handler.analyze_product ascii_only 4300 (answers (PInt 1))
       (product "Desk lamp" "" "" "" "") =
     Handler.HTTPException 500 (lit "Analysis error: ") TypeError.
Proof. split; [split|]; vm_compute; reflexivity. Qed.

(** Sellers of both kinds. *)
Example run_seller_examples (st : Var.locals) :
  Scorer.seller_rule ascii_only
    (with_seller (product "Desk lamp" "" "" "" "") (lit "Amazon.com")) st =
  Done (legit_added (lit "Reputable seller") st)
  /\ Scorer.seller_rule ascii_only
       (with_seller (product "Desk lamp" "" "" "" "") (lit "42")) st =
     Done (scam_added (lit "Suspicious seller") st).
Proof. split; reflexivity. Qed.

(** Four rules trigger; the price "$2" is not below 1.0. *)
Example run_combined_scenario :
  summary (Scorer.analyze_product_legitimacy ascii_only 4300
             (product "Guaranteed Miracle Cure" "$2" "xx" "1.0" "2")) =
  Some (scam, conf_of_count 4,
        [lit "Suspicious language"; lit "Suspicious seller";
         lit "Low rating"; lit "Few reviews"], 4%Z, 0%Z).
Proof. vm_compute. reflexivity. Qed.
